(** * Risk fusion and escalation engine of the Loneliness Combat Engine

    A shallow embedding of
    - [backend/models/risk_assessment.py]  (class [RiskCalculator]),
    - [backend/agents/detection_agent.py]  ([run_detection]),
    - [backend/agents/intervention_agent.py] and the two prompt helpers of
      [backend/core/prompts.py] it calls,
    - the code around them: [backend/core/utils.py] ([calculate_risk_level]),
      [backend/core/encryption.py] and [backend/models/permissions.py],
      [backend/models/interventions.py], the three tools of [backend/tools]
      and the callers in [backend/mcp_server/server.py] and
      [backend/api/routes.py],
    with the properties of the engine stated and proved over it.

    Numbers.  The metrics are Python ints and floats.  They are embedded as
    exact rationals [Q]: every comparison, [min], [max] and clamp of the source
    is order-theoretic, and the concrete inputs used below are far from any
    threshold, so binary64 rounding does not decide any statement made here.
    The integer [score] of an assessment is a [Z].

    Dictionaries.  The metric dictionaries are read only through
    [d.get(key, default)]; they are finite maps from strings to numbers.
    Dictionaries that are iterated ([RISK_CATEGORIES], [factors.items()]) are
    association lists in insertion order.

    Exceptions.  Code that can raise returns a [result].  A call that names
    a keyword its function does not declare raises [TypeError].

    Tables.  A table of the database is the list of its rows in insertion
    order; a query filters it, and the clock and the fresh key of a row are
    arguments.

    Collaborators.  The analyzers, the activity recommender, the language
    model and the persistence layer are parameters; the intervention agent
    runs in a small monad that logs each call made to them. *)

From Stdlib Require Import QArith Qminmax Qround Qabs ZArith Lia Lqa.
From Stdlib Require Import String Ascii List Bool.
From stdpp Require Import base option gmap strings pretty.

Import ListNotations.

Local Open Scope Q_scope.
Local Open Scope string_scope.

(** ** Python values and exceptions *)

Module Py.

Inductive exn : Type :=
| ZeroDivisionError
| TypeError
| Exception (msg : string).

Inductive result (A : Type) : Type :=
| Ok (a : A)
| Raise (e : exn).

Arguments Ok {A} a.
Arguments Raise {A} e.

Definition rbind {A B : Type} (r : result A) (k : A -> result B) : result B :=
  match r with
  | Ok a => k a
  | Raise e => Raise e
  end.

Definition is_ok {A : Type} (r : result A) : bool :=
  match r with Ok _ => true | Raise _ => false end.

(** [x ← r; k] runs [k] on the value of [r] and propagates what [r] raises. *)
#[global] Instance result_ret : MRet result := @Ok.
#[global] Instance result_bind : MBind result :=
  fun A B k r => rbind r k.

(** [x < y], [x <= y] and [x > y] on numbers, as booleans. *)
Definition ltb (x y : Q) : bool :=
  match Qcompare x y with Lt => true | _ => false end.

Definition leb (x y : Q) : bool :=
  match Qcompare x y with Gt => false | _ => true end.

Definition gtb (x y : Q) : bool := ltb y x.

(** [x / y]: a zero divisor raises. *)
Definition div (x y : Q) : result Q :=
  if Qeq_bool y 0 then Raise ZeroDivisionError else Ok (x / y).

(** [d.get(key, default)]. *)
Definition get (d : gmap string Q) (key : string) (dflt : Q) : Q :=
  default dflt (d !! key).

(** [round(x)] on a number: to the nearest integer, a tie to the even one. *)
Definition round (x : Q) : Z :=
  let f := Qfloor x in
  match Qcompare (x - inject_Z f) (1 # 2) with
  | Lt => f
  | Gt => (f + 1)%Z
  | Eq => if Z.even f then f else (f + 1)%Z
  end.

(** [round(x, 2)]: to the nearest hundredth. *)
Definition round2 (x : Q) : Q := inject_Z (round (x * 100)) / 100.

(** [l.append(x)]. *)
Definition append {A : Type} (l : list A) (x : A) : list A := (l ++ [x])%list.

(** Number formatting inside f-strings is Python's own; the engine only
    chooses the format.  [format_fixed n x] stands for [f"{x:.nf}"] and
    [format_str x] for [f"{x}"]. *)
Record Format : Type := {
  format_fixed : nat -> Q -> string;
  format_str : Q -> string
}.

(** Values held in a loosely typed dictionary. *)
Inductive pyval : Type :=
| PNum (q : Q)
| PStr (s : string)
| PList (l : list string)
| PNone.

(** Truth value of a value in a condition. *)
Definition truthy (v : pyval) : bool :=
  match v with
  | PNum q => negb (Qeq_bool q 0)
  | PStr s => negb (String.eqb s "")
  | PList l => match l with [] => false | _ => true end
  | PNone => false
  end.

Definition dquote : string := String (ascii_of_nat 34) EmptyString.
Definition newline : string := String (ascii_of_nat 10) EmptyString.

(** [sep.join(l)]. *)
Fixpoint join (sep : string) (l : list string) : string :=
  match l with
  | [] => EmptyString
  | [x] => x
  | x :: rest => x +:+ sep +:+ join sep rest
  end.

Fixpoint chars (s : string) : list string :=
  match s with
  | EmptyString => []
  | String c rest => String c EmptyString :: chars rest
  end.

(** [sep.join(v)] on a value: a list of strings or a string can be joined,
    anything else is not iterable. *)
Definition join_value (sep : string) (v : pyval) : result string :=
  match v with
  | PList l => Ok (join sep l)
  | PStr s => Ok (join sep (chars s))
  | PNum _ | PNone => Raise TypeError
  end.

(** [s.strip()], for the whitespace of ASCII text. *)
Definition is_space (c : ascii) : bool :=
  let n := nat_of_ascii c in
  (Nat.leb 9 n && Nat.leb n 13) || (Nat.leb 28 n && Nat.leb n 32).

Fixpoint lstrip (s : string) : string :=
  match s with
  | EmptyString => EmptyString
  | String c rest => if is_space c then lstrip rest else s
  end.

Fixpoint rstrip (s : string) : string :=
  match s with
  | EmptyString => EmptyString
  | String c rest =>
      match rstrip rest with
      | EmptyString => if is_space c then EmptyString else String c EmptyString
      | kept => String c kept
      end
  end.

Definition strip (s : string) : string := lstrip (rstrip s).

(** [needle in hay]. *)
Fixpoint contains (needle hay : string) : bool :=
  String.prefix needle hay
  || match hay with
     | EmptyString => false
     | String _ rest => contains needle rest
     end.

(** [x or dflt] on an optional string. *)
Definition str_or (x : option string) (dflt : string) : string :=
  match x with
  | Some s => if String.eqb s "" then dflt else s
  | None => dflt
  end.

End Py.

Import Py.

(** ** [RiskCalculator] *)

Module RiskCalculator.

Definition SPOTIFY_WEIGHT : Q := 4 # 10.
Definition CALENDAR_WEIGHT : Q := 5 # 10.
Definition BASELINE_WEIGHT : Q := 1 # 10.

(** The dictionary literal, in its insertion order. *)
Definition RISK_CATEGORIES : list (string * (Q * Q)) :=
  [ ("low", (0, 25));
    ("mild", (26, 50));
    ("moderate", (51, 75));
    ("high", (76, 100)) ].

Definition calculate_spotify_score (spotify_metrics : gmap string Q) : Q :=
  let score := 0 in
  let baseline_hours := get spotify_metrics "baseline_listening_hours" 15 in
  let current_hours := get spotify_metrics "current_listening_hours" 15 in
  let score :=
    if gtb baseline_hours 0 then
      let listening_spike_ratio := current_hours / baseline_hours in
      if gtb listening_spike_ratio 2 then score + (375 # 10)
      else if gtb listening_spike_ratio 1
           then score + (listening_spike_ratio - 1) * (375 # 10)
           else score
    else score in
  let late_night_pct := get spotify_metrics "late_night_percentage" 0 in
  let score := score + Qmin 25 ((late_night_pct / 50) * 25) in
  let baseline_valence := get spotify_metrics "baseline_valence" (5 # 10) in
  let current_valence := get spotify_metrics "current_valence" (5 # 10) in
  let valence_decline := baseline_valence - current_valence in
  let score :=
    if gtb valence_decline 0
    then score + Qmin 25 ((valence_decline / (3 # 10)) * 25)
    else score in
  let repeat_percentage := get spotify_metrics "repeat_listening_percentage" 0 in
  let score := score + Qmin (125 # 10) ((repeat_percentage / 40) * (125 # 10)) in
  Qmin 100 score.

Definition calculate_calendar_score (calendar_metrics : gmap string Q) : Q :=
  let score := 0 in
  let baseline_events := get calendar_metrics "baseline_social_events" 8 in
  let current_events := get calendar_metrics "current_social_events" 8 in
  let score :=
    if gtb baseline_events 0 then
      let decline_ratio := (baseline_events - current_events) / baseline_events in
      score + Qmin 50 (decline_ratio * (6667 # 100))
    else score in
  let declined_rate := get calendar_metrics "declined_invitation_rate" 0 in
  let score := score + Qmin 30 ((declined_rate / 50) * 30) in
  let baseline_unique_contacts := get calendar_metrics "baseline_unique_contacts" 5 in
  let current_unique_contacts := get calendar_metrics "current_unique_contacts" 5 in
  let score :=
    if gtb baseline_unique_contacts 0 then
      let contact_decline_ratio :=
        (baseline_unique_contacts - current_unique_contacts)
        / baseline_unique_contacts in
      score + Qmin 20 ((contact_decline_ratio / (5 # 10)) * 20)
    else score in
  Qmin 100 score.

(** [not baseline_data] holds for [None] and for the empty dictionary. *)
Definition calculate_baseline_risk (baseline_data : option (gmap string Q)) : Q :=
  match baseline_data with
  | None => 10
  | Some d =>
      if decide (d = ∅) then 10
      else
        let historical_risk := get d "historical_risk" 10 in
        Qmin 100 (Qmax 0 historical_risk)
  end.

(** The loop over [RISK_CATEGORIES.items()]. *)
Fixpoint first_level (cats : list (string * (Q * Q))) (score : Q) : string :=
  match cats with
  | [] => "unknown"
  | (level, (min_score, max_score)) :: rest =>
      if leb min_score score && leb score max_score then level
      else first_level rest score
  end.

Definition get_risk_level (score : Q) : string :=
  first_level RISK_CATEGORIES score.

(** The [factors] dictionary built by [calculate_risk]: four fixed keys. *)
Record Factors : Type := {
  spotify_score : Q;
  calendar_score : Q;
  baseline_score : Q;
  total_score : Q
}.

(** The dictionary returned by [calculate_risk]. *)
Record Risk : Type := {
  score : Z;
  level : string;
  factors : Factors;
  explanation : list string
}.

Definition NO_PATTERNS : string := "No significant isolation patterns detected".

Section Explanation.

Variable fmt : Format.

Definition listening_statement (baseline_hours current_hours : Q) : string :=
  "Listening hours increased significantly ("
  +:+ format_fixed fmt 1 baseline_hours +:+ "h → "
  +:+ format_fixed fmt 1 current_hours +:+ "h)".

Definition late_night_statement (late_night_pct : Q) : string :=
  format_fixed fmt 0 late_night_pct
  +:+ "% of listening happens late at night (11pm-4am)".

Definition valence_statement (baseline_valence current_valence : Q) : string :=
  "Music mood shifted to sadder songs (positivity: "
  +:+ format_fixed fmt 2 baseline_valence +:+ " → "
  +:+ format_fixed fmt 2 current_valence +:+ ")".

Definition repeat_statement (repeat_pct : Q) : string :=
  "Frequently replaying same songs ("
  +:+ format_fixed fmt 0 repeat_pct +:+ "% repeat listening)".

Definition events_statement (decline_pct baseline_events current_events : Q) : string :=
  "Social events declined " +:+ format_fixed fmt 0 decline_pct +:+ "% ("
  +:+ format_str fmt baseline_events +:+ " → "
  +:+ format_str fmt current_events +:+ " events/month)".

Definition declined_statement (declined_invitations : Q) : string :=
  "Declined " +:+ format_str fmt declined_invitations
  +:+ " social invitation(s) this month".

Definition contacts_statement (baseline_contacts current_contacts : Q) : string :=
  "Reduced contact with friends (" +:+ format_str fmt baseline_contacts +:+ " → "
  +:+ format_str fmt current_contacts +:+ " unique contacts)".

Definition generate_risk_explanation
    (spotify_metrics calendar_metrics : gmap string Q) (factors : Factors)
    : result (list string) :=
  let explanations := [] in
  let baseline_hours := get spotify_metrics "baseline_listening_hours" 15 in
  let current_hours := get spotify_metrics "current_listening_hours" 15 in
  let explanations :=
    if gtb current_hours (baseline_hours * (15 # 10))
    then append explanations (listening_statement baseline_hours current_hours)
    else explanations in
  let late_night_pct := get spotify_metrics "late_night_percentage" 0 in
  let explanations :=
    if gtb late_night_pct 40
    then append explanations (late_night_statement late_night_pct)
    else explanations in
  let baseline_valence := get spotify_metrics "baseline_valence" (5 # 10) in
  let current_valence := get spotify_metrics "current_valence" (5 # 10) in
  let valence_decline := baseline_valence - current_valence in
  let explanations :=
    if gtb valence_decline (2 # 10)
    then append explanations (valence_statement baseline_valence current_valence)
    else explanations in
  let repeat_pct := get spotify_metrics "repeat_listening_percentage" 0 in
  let explanations :=
    if gtb repeat_pct 30
    then append explanations (repeat_statement repeat_pct)
    else explanations in
  let baseline_events := get calendar_metrics "baseline_social_events" 8 in
  let current_events := get calendar_metrics "current_social_events" 8 in
  explanations ←
    (if ltb current_events baseline_events then
       ratio ← div (baseline_events - current_events) baseline_events;
       let decline_pct := ratio * 100 in
       mret (append explanations
               (events_statement decline_pct baseline_events current_events))
     else mret explanations);
  let declined_invitations := get calendar_metrics "declined_invitations_count" 0 in
  let explanations :=
    if gtb declined_invitations 0
    then append explanations (declined_statement declined_invitations)
    else explanations in
  let baseline_contacts := get calendar_metrics "baseline_unique_contacts" 5 in
  let current_contacts := get calendar_metrics "current_unique_contacts" 5 in
  let explanations :=
    if ltb current_contacts (baseline_contacts * (7 # 10))
    then append explanations (contacts_statement baseline_contacts current_contacts)
    else explanations in
  let explanations :=
    match explanations with
    | [] => append explanations NO_PATTERNS
    | _ => explanations
    end in
  mret explanations.

Definition calculate_risk
    (spotify_metrics calendar_metrics : gmap string Q)
    (baseline_data : option (gmap string Q)) : result Risk :=
  let spotify_score := calculate_spotify_score spotify_metrics in
  let calendar_score := calculate_calendar_score calendar_metrics in
  let baseline_score := calculate_baseline_risk baseline_data in
  let total_score :=
    (spotify_score * SPOTIFY_WEIGHT)
    + (calendar_score * CALENDAR_WEIGHT)
    + (baseline_score * BASELINE_WEIGHT) in
  let total_score := Qmin 100 (Qmax 0 total_score) in
  let risk_level := get_risk_level total_score in
  let factors :=
    {| spotify_score := round2 spotify_score;
       calendar_score := round2 calendar_score;
       baseline_score := round2 baseline_score;
       total_score := round2 total_score |} in
  explanation ← generate_risk_explanation spotify_metrics calendar_metrics factors;
  mret {| score := round total_score;
          level := risk_level;
          factors := factors;
          explanation := explanation |}.

End Explanation.

End RiskCalculator.

(** ** [detection_agent]: [run_detection] *)

Module Detection.

(** [if token:] holds for a token that is neither [None] nor empty. *)
Definition truthy_token (token : option string) : option string :=
  match token with
  | Some t => if decide (t = "") then None else Some t
  | None => None
  end.

(** The neutral dictionaries substituted for a source without access or whose
    analysis raised. *)
Definition DEFAULT_SPOTIFY_METRICS : gmap string Q :=
  list_to_map
    [ ("baseline_listening_hours", 90);
      ("current_listening_hours", 90);
      ("late_night_percentage", 0);
      ("baseline_valence", 5 # 10);
      ("current_valence", 5 # 10);
      ("repeat_listening_percentage", 0) ].

Definition DEFAULT_CALENDAR_METRICS : gmap string Q :=
  list_to_map
    [ ("baseline_social_events", 8);
      ("current_social_events", 8);
      ("declined_invitation_rate", 0);
      ("declined_invitations_count", 0);
      ("baseline_unique_contacts", 5);
      ("current_unique_contacts", 5) ].

(** The dictionary returned by [calculate_loneliness_risk_score]; its
    [timestamp] entry is always [None]. *)
Record Assessment : Type := {
  user_id : string;
  score : Z;
  level : string;
  factors : RiskCalculator.Factors;
  explanation : list string
}.

(** The dictionary returned by [run_detection]. *)
Record Detected : Type := {
  risk_assessment : Assessment;
  spotify_metrics : gmap string Q;
  calendar_metrics : gmap string Q
}.

Section RunDetection.

Variable fmt : Format.

(** The two analyzers are external collaborators.  [spotify_analysis token
    baseline_data] stands for the body of the first [try] block (the
    [SpotifyTool] calls and the metrics dictionary built from their answers),
    [calendar_analysis] for the second; either may raise. *)
Variable spotify_analysis :
  string -> option (gmap string Q) -> result (gmap string Q).
Variable calendar_analysis :
  string -> option (gmap string Q) -> result (gmap string Q).

Definition calculate_loneliness_risk_score
    (user_id : string) (spotify_metrics calendar_metrics : gmap string Q)
    (baseline_data : option (gmap string Q)) : result Assessment :=
  risk_result ←
    RiskCalculator.calculate_risk fmt spotify_metrics calendar_metrics baseline_data;
  mret {| user_id := user_id;
          score := RiskCalculator.score risk_result;
          level := RiskCalculator.level risk_result;
          factors := RiskCalculator.factors risk_result;
          explanation := RiskCalculator.explanation risk_result |}.

Definition run_detection
    (user_id : string) (calendar_token spotify_token : option string)
    (baseline_data : option (gmap string Q)) : result Detected :=
  let spotify_metrics :=
    match truthy_token spotify_token with
    | Some token =>
        match spotify_analysis token baseline_data with
        | Ok metrics => metrics
        | Raise _ => DEFAULT_SPOTIFY_METRICS
        end
    | None => DEFAULT_SPOTIFY_METRICS
    end in
  let calendar_metrics :=
    match truthy_token calendar_token with
    | Some token =>
        match calendar_analysis token baseline_data with
        | Ok metrics => metrics
        | Raise _ => DEFAULT_CALENDAR_METRICS
        end
    | None => DEFAULT_CALENDAR_METRICS
    end in
  risk_assessment ←
    calculate_loneliness_risk_score
      user_id spotify_metrics calendar_metrics baseline_data;
  mret {| risk_assessment := risk_assessment;
          spotify_metrics := spotify_metrics;
          calendar_metrics := calendar_metrics |}.

End RunDetection.

End Detection.

(** ** [core/prompts]: the two templates used by the intervention agent *)

Module Prompts.

(** [INTERVENTION_PROMPT.format(...)]: the template applied to its fields. *)
Definition INTERVENTION_PROMPT
    (risk_score risk_explanation user_message friend_list
       days_since_social_event : string) : string :=
  "
You are a compassionate friend helping someone who may be experiencing social isolation.

Risk Level: "
  +:+ risk_score
  +:+ "/100
Contributing Factors:
"
  +:+ risk_explanation
  +:+ "

User's Message: "
  +:+ user_message
  +:+ "

Friend Context:
- Recurring contacts: "
  +:+ friend_list
  +:+ "
- Last social event: "
  +:+ days_since_social_event
  +:+ " days ago

Guidelines:
- Be empathetic and non-judgmental
- Acknowledge their feelings as valid
- Provide ONE specific, actionable suggestion (e.g., text a specific friend)
- Keep tone casual (like a caring friend, not a therapist)
- For risk 76-100: Include crisis resources (988 Suicide & Crisis Lifeline)

Generate a supportive response:
".

(** [CRISIS_ESCALATION_PROMPT.format(...)]. *)
Definition CRISIS_ESCALATION_PROMPT
    (risk_score risk_factors user_message : string) : string :=
  "
URGENT: User showing signs of severe isolation (Risk Score: "
  +:+ risk_score
  +:+ "/100)

Contributing Factors:
"
  +:+ risk_factors
  +:+ "

User's Recent Message: "
  +:+ dquote +:+ user_message +:+ dquote
  +:+ "

Generate an IMMEDIATE intervention response that:
1. Expresses genuine concern and care
2. Validates their struggle without minimizing it
3. Provides IMMEDIATE crisis resources prominently:
   - National Suicide Prevention Lifeline: 988
   - Crisis Text Line: Text HOME to 741741
   - TAMU Counseling & Psychological Services: (979) 845-4427
4. Encourages reaching out to someone RIGHT NOW
5. Emphasizes they are not alone and help is available
6. Tone: urgent but caring, serious but non-judgmental

Generate the crisis intervention response:
".

Section Format.

(** [str(v)] on a dictionary value is Python's own. *)
Variable str_of : pyval -> string.

Definition format_intervention_prompt
    (risk_score : Z) (risk_explanation user_message : string)
    (friend_list days_since_social_event : pyval) : result string :=
  friend_str ←
    (if truthy friend_list then join_value ", " friend_list
     else mret "No recurring contacts identified");
  let days_str :=
    match days_since_social_event with
    | PNone => "Unknown"
    | v => str_of v
    end in
  mret (INTERVENTION_PROMPT (pretty risk_score) risk_explanation user_message
          friend_str days_str).

Definition format_crisis_prompt
    (risk_score : Z) (risk_factors : list string) (user_message : string)
    : string :=
  let factors_str :=
    join newline (map (fun factor => "- " +:+ factor) risk_factors) in
  CRISIS_ESCALATION_PROMPT (pretty risk_score) factors_str
    (str_or (Some user_message) "No recent message").

End Format.

End Prompts.

(** ** [intervention_agent] *)

Module Intervention.

(** An event record of the recommender: read through [.get("id")] and
    [.get("source")]. *)
Abbreviation Activity := (gmap string string).

(** Calls that leave the engine, in the order they are made. *)
Inductive event : Type :=
| Recommend (location anxiety_level : string) (interests : list string) (limit : Z)
| Generate (contents : string)
| Store (user_id : string) (risk_score : Z) (suggestion : string)
        (event_id event_source : option string).

(** A computation that may call collaborators: it extends the log of calls
    and returns a value or raises. *)
Definition io (A : Type) : Type := list event -> result A * list event.

#[global] Instance io_ret : MRet io := fun A a log => (Ok a, log).
#[global] Instance io_bind : MBind io := fun A B k m log =>
  match m log with
  | (Ok a, log') => k a log'
  | (Raise e, log') => (Raise e, log')
  end.

(** A call to a collaborator: logged, then its answer. *)
Definition call {A : Type} (e : event) (answer : result A) : io A :=
  fun log => (answer, append log e).

Definition lift {A : Type} (r : result A) : io A := fun log => (r, log).

(** [try: body  except Exception: handler]. *)
Definition try_except {A : Type} (body : io A) (handler : exn -> io A) : io A :=
  fun log =>
    match body log with
    | (Ok a, log') => (Ok a, log')
    | (Raise e, log') => handler e log'
    end.

(** The [factors] entry of an assessment: a dictionary or something else. *)
Inductive factors_value : Type :=
| FDict (items : list (string * pyval))
| FOther (v : pyval).

(** The assessment dictionary handed to the agent, read through
    [.get("level", ...)], [.get("score", ...)] and [.get("factors", ...)];
    [None] is an absent key. *)
Record RiskAssessment : Type := {
  level : option string;
  score : option Z;
  factors : option factors_value
}.

(** The dictionary returned by [generate_intervention_strategy]. *)
Record Strategy : Type := {
  s_risk_level : string;
  s_risk_score : Z;
  s_message : string;
  s_activities : list Activity;
  s_action_items : list string
}.

(** The dictionary returned by [run_intervention]. *)
Record Intervention : Type := {
  risk_level : string;
  risk_score : Z;
  message : string;
  activities : list Activity;
  action_items : list string;
  intervention_id : option string
}.

(** [d.get(key)] on a dictionary kept as its items. *)
Fixpoint lookup_item {A : Type} (key : string) (items : list (string * A))
    : option A :=
  match items with
  | [] => None
  | (k, v) :: rest => if String.eqb k key then Some v else lookup_item key rest
  end.

Definition messages : list (string * string) :=
  [
    ("low",
"
        Hey! I've been keeping an eye on your patterns, and things look pretty steady.
        You're doing a great job maintaining your social connections. Keep it up!
        ");
    ("moderate",
"
        I noticed you've been spending a bit more time solo lately - totally normal,
        especially if you're in the middle of exams or busy season. Just wanted to
        check in. How are you feeling about your social energy lately?
        ");
    ("elevated",
"
        I've noticed some patterns that caught my attention. You used to hang out
        with people more often, and your recent listening history suggests you might
        be feeling a bit down. Not judging at all - we all go through phases. But I
        wanted to check in because I care about you. Would you be open to reconnecting
        with someone or trying a low-key social activity?
        ");
    ("high",
"
        Hey, I want to be real with you. I've noticed some concerning patterns -
        you've been isolating more than usual, and your mood seems to have shifted.
        I'm not here to diagnose anything, but as someone who cares about you, I think
        it might be time to reach out to someone. Whether that's a friend, a counselor,
        or just getting out of the house for a bit. You don't have to go through this alone.
        ");
    ("critical",
"
        I'm genuinely worried about you. The patterns I'm seeing suggest you might be
        struggling with serious isolation and possibly depression. Please, please reach
        out to someone you trust or a mental health professional. This is not something
        you should handle alone. There are people who care about you and want to help.

        Crisis Resources:
        - National Suicide Prevention Lifeline: 988
        - Crisis Text Line: Text HOME to 741741
        - TAMU Counseling & Psychological Services: (979) 845-4427
        ")
  ].

(** [messages["moderate"]]: the key is in the literal. *)
Definition moderate_message : string :=
  default EmptyString (lookup_item "moderate" messages).

Definition generate_empathetic_message (risk_level : string) (risk_score : Z)
    : string :=
  strip (default moderate_message (lookup_item risk_level messages)).

Definition anxiety_mapping : list (string * string) :=
  [ ("low", "low");
    ("moderate", "low");
    ("elevated", "medium");
    ("high", "high");
    ("critical", "high") ].

(** [not interests] and [not location]. *)
Definition no_interests (interests : option (list string)) : bool :=
  match interests with
  | Some (_ :: _) => false
  | _ => true
  end.

Definition no_location (location : option string) : bool :=
  match location with
  | Some l => String.eqb l ""
  | None => true
  end.

(** The chain of [if]/[elif] that both [generate_intervention_strategy] and
    [run_intervention] spell out, starting from the empty list. *)
Definition action_items_for (risk_level : string) : list string :=
  let action_items := [] in
  if String.eqb risk_level "low" || String.eqb risk_level "moderate" then
    [ "Continue maintaining your current social connections";
      "Consider trying one new social activity this week" ]
  else if String.eqb risk_level "elevated" then
    [ "Reach out to a friend you haven't talked to in a while";
      "Join one small group activity (see recommendations below)";
      "Spend 10 minutes outside in a social space (coffee shop, park)" ]
  else if String.eqb risk_level "high" then
    [ "Text or call one person you trust today";
      "Schedule a low-pressure social activity within 3 days";
      "Consider talking to a counselor or therapist";
      "Join a structured group activity (less awkward than 'just hanging out')" ]
  else if String.eqb risk_level "critical" then
    [ "Call or text someone you trust RIGHT NOW";
      "Contact TAMU Counseling Services: (979) 845-4427";
      "Call National Suicide Prevention Lifeline: 988";
      "Go to a public place (don't stay isolated)" ]
  else action_items.

Section Agent.

(** [str(v)] on a dictionary value. *)
Variable str_of : pyval -> string.

(** The collaborators.  [recommend_events location anxiety_level interests
    limit] is [EventMatchingTool().recommend_events(...)], [generate_content
    contents] the text of the Gemini answer, [store_intervention] the
    persistence call yielding the stored row's id; each may raise. *)
Variable recommend_events :
  string -> string -> list string -> Z -> result (list Activity).
Variable generate_content : string -> result string.
Variable DbSession : Type.
Variable store_intervention :
  DbSession -> string -> Z -> string -> option string -> option string ->
  result string.

Definition recommend_activities
    (risk_level : string) (interests : option (list string))
    (location : option string) : io (list Activity) :=
  if no_interests interests || no_location location then mret []
  else
    let interests := default [] interests in
    let location := default EmptyString location in
    let anxiety_level :=
      default "medium" (lookup_item risk_level anxiety_mapping) in
    try_except
      (call (Recommend location anxiety_level interests 5)
            (recommend_events location anxiety_level interests 5))
      (fun _ => mret []).

Definition generate_intervention_strategy
    (risk_assessment : RiskAssessment)
    (user_interests : option (list string)) (user_location : option string)
    : io Strategy :=
  let risk_level := default "moderate" (level risk_assessment) in
  let risk_score := default 50%Z (score risk_assessment) in
  let message := generate_empathetic_message risk_level risk_score in
  activities ←
    (if negb (String.eqb risk_level "critical")
     then recommend_activities risk_level user_interests user_location
     else mret []);
  let action_items := action_items_for risk_level in
  mret {| s_risk_level := risk_level;
          s_risk_score := risk_score;
          s_message := message;
          s_activities := activities;
          s_action_items := action_items |}.

(** [f"{k}: {v}"] for an item of [factors]. *)
Definition item_line (kv : string * pyval) : string :=
  fst kv +:+ ": " +:+ str_of (snd kv).

(** The prompt handed to the model. *)
Definition build_user_context
    (risk_score : Z) (factors : factors_value)
    (user_interests : option (list string)) (user_location : option string)
    (user_message : option string) (activities : list Activity)
    : result string :=
  let friend_list :=
    match factors with
    | FDict items => default (PList []) (lookup_item "recurring_contacts" items)
    | FOther _ => PList []
    end in
  let days_since_social :=
    match factors with
    | FDict items => default PNone (lookup_item "days_since_social_event" items)
    | FOther _ => PNone
    end in
  let risk_explanation :=
    match factors with
    | FDict items =>
        join newline (map (fun kv => "- " +:+ item_line kv) items)
    | FOther v => str_of v
    end in
  if (76 <=? risk_score)%Z then
    let risk_factors_list :=
      match factors with
      | FDict items => map item_line items
      | FOther v => [str_of v]
      end in
    mret (Prompts.format_crisis_prompt risk_score risk_factors_list
            (str_or user_message "User is checking in"))
  else
    user_context ←
      Prompts.format_intervention_prompt str_of risk_score risk_explanation
        (str_or user_message "User is checking in")
        friend_list days_since_social;
    let user_context :=
      user_context +:+ newline +:+ newline +:+ "Additional Context:" +:+ newline in
    let user_context :=
      user_context +:+ "- User Interests: "
      +:+ (if no_interests user_interests then "Not specified"
           else join ", " (default [] user_interests))
      +:+ newline in
    let user_context :=
      user_context +:+ "- Location: " +:+ default "None" user_location
      +:+ newline in
    let user_context :=
      user_context +:+ "- Available Activities: "
      +:+ pretty (length activities)
      +:+ " events found matching their anxiety level and interests"
      +:+ newline in
    mret user_context.

Definition run_intervention
    (risk_assessment : RiskAssessment)
    (user_id : option string)
    (user_interests : option (list string)) (user_location : option string)
    (user_message : option string) (db_session : option DbSession)
    : io Intervention :=
  let risk_level := default "moderate" (level risk_assessment) in
  let risk_score := default 50%Z (score risk_assessment) in
  let factors := default (FDict []) (factors risk_assessment) in
  activities ←
    (if negb (String.eqb risk_level "critical")
     then recommend_activities risk_level user_interests user_location
     else mret []);
  let action_items := action_items_for risk_level in
  user_context ←
    lift (build_user_context risk_score factors user_interests user_location
            user_message activities);
  llm_message ←
    try_except
      (call (Generate user_context) (generate_content user_context))
      (fun _ => mret (generate_empathetic_message risk_level risk_score));
  intervention_id ←
    match db_session, user_id with
    | Some db, Some uid =>
        if String.eqb uid "" then mret None
        else
          let event_id := match activities with a :: _ => a !! "id" | [] => None end in
          let event_source :=
            match activities with a :: _ => a !! "source" | [] => None end in
          try_except
            (id ← call (Store uid risk_score llm_message event_id event_source)
                       (store_intervention db uid risk_score llm_message
                          event_id event_source);
             mret (Some id))
            (fun _ => mret None)
    | _, _ => mret None
    end;
  mret {| risk_level := risk_level;
          risk_score := risk_score;
          message := llm_message;
          activities := activities;
          action_items := action_items;
          intervention_id := intervention_id |}.

End Agent.

End Intervention.

(** ** The explanation list as the specification words it

    Seven candidate statements in a fixed order, each with its trigger over
    the raw metrics; the statements whose trigger holds are kept in order,
    and a single neutral statement stands in when none holds. *)

Module Spec.

Import RiskCalculator.

Section Candidates.

Variable fmt : Format.
Variables spotify_metrics calendar_metrics : gmap string Q.

Let baseline_hours := get spotify_metrics "baseline_listening_hours" 15.
Let current_hours := get spotify_metrics "current_listening_hours" 15.
Let late_night_pct := get spotify_metrics "late_night_percentage" 0.
Let baseline_valence := get spotify_metrics "baseline_valence" (5 # 10).
Let current_valence := get spotify_metrics "current_valence" (5 # 10).
Let repeat_pct := get spotify_metrics "repeat_listening_percentage" 0.
Let baseline_events := get calendar_metrics "baseline_social_events" 8.
Let current_events := get calendar_metrics "current_social_events" 8.
Let declined_invitations := get calendar_metrics "declined_invitations_count" 0.
Let baseline_contacts := get calendar_metrics "baseline_unique_contacts" 5.
Let current_contacts := get calendar_metrics "current_unique_contacts" 5.

(** Trigger 5, on its own: it is the one whose statement divides. *)
Definition events_trigger : bool := ltb current_events baseline_events.

(** The decline percentage of statement 5 is defined unless the trigger holds
    with a zero baseline. *)
Definition decline_defined : bool :=
  negb (events_trigger && Qeq_bool baseline_events 0).

Definition candidates : list (bool * string) :=
  [ (gtb current_hours (baseline_hours * (15 # 10)),
     listening_statement fmt baseline_hours current_hours);
    (gtb late_night_pct 40,
     late_night_statement fmt late_night_pct);
    (gtb (baseline_valence - current_valence) (2 # 10),
     valence_statement fmt baseline_valence current_valence);
    (gtb repeat_pct 30,
     repeat_statement fmt repeat_pct);
    (events_trigger,
     events_statement fmt
       (((baseline_events - current_events) / baseline_events) * 100)
       baseline_events current_events);
    (gtb declined_invitations 0,
     declined_statement fmt declined_invitations);
    (ltb current_contacts (baseline_contacts * (7 # 10)),
     contacts_statement fmt baseline_contacts current_contacts) ].

Definition triggered : list string := map snd (List.filter fst candidates).

Definition spec_explanation : list string :=
  match triggered with
  | [] => [NO_PATTERNS]
  | statements => statements
  end.

End Candidates.

(** The fusion as the specification words it: the weighted sum of the three
    subscores, then a clamp to [0,100]. *)
Definition composite (s c : gmap string Q) (b : option (gmap string Q)) : Q :=
  calculate_spotify_score s * (4 # 10)
  + calculate_calendar_score c * (5 # 10)
  + calculate_baseline_risk b * (1 # 10).

Definition clamp (x : Q) : Q := Qmin 100 (Qmax 0 x).

End Spec.

(** ** What is observed of a run of the intervention agent *)

Module Observe.

Import Intervention.

Definition is_recommend (e : event) : bool :=
  match e with Recommend _ _ _ _ => true | _ => false end.

Definition is_store (e : event) : bool :=
  match e with Store _ _ _ _ _ => true | _ => false end.

(** The recommender was called. *)
Definition recommender_called (log : list event) : bool :=
  existsb is_recommend log.

(** The prompts handed to the model, in order. *)
Fixpoint prompts (log : list event) : list string :=
  match log with
  | [] => []
  | Generate contents :: rest => contents :: prompts rest
  | _ :: rest => prompts rest
  end.

(** The two templates are told apart by their first line. *)
Definition is_crisis_prompt (contents : string) : bool :=
  String.prefix (newline +:+ "URGENT: User showing signs of severe isolation")
    contents.

Definition is_standard_prompt (contents : string) : bool :=
  String.prefix (newline +:+ "You are a compassionate friend") contents.

(** The condition under which the agent asks for activities. *)
Definition gate (risk_level : string) (interests : option (list string))
    (location : option string) : bool :=
  negb (String.eqb risk_level "critical")
  && negb (no_interests interests) && negb (no_location location).

(** [recurring_contacts], when it is in [factors], is what
    [format_intervention_prompt] declares for [friend_list]: a list of
    strings or a string to join, or a value that counts as false. *)
Definition joinable (v : pyval) : bool :=
  match v with
  | PNum q => Qeq_bool q 0
  | _ => true
  end.

Definition contacts_typed (f : factors_value) : bool :=
  match f with
  | FDict items =>
      match lookup_item "recurring_contacts" items with
      | Some v => joinable v
      | None => true
      end
  | FOther _ => true
  end.

(** The activities of a run and the call that fetches them. *)
Definition recommend_call (risk_level : string)
    (interests : option (list string)) (location : option string) : event :=
  Recommend (default EmptyString location)
    (default "medium" (lookup_item risk_level anxiety_mapping))
    (default [] interests) 5.

Definition fetched
    (recommend_events :
       string -> string -> list string -> Z -> result (list Activity))
    (risk_level : string) (interests : option (list string))
    (location : option string) : list Activity :=
  if gate risk_level interests location then
    match recommend_events (default EmptyString location)
            (default "medium" (lookup_item risk_level anxiety_mapping))
            (default [] interests) 5%Z with
    | Ok found => found
    | Raise _ => []
    end
  else [].

(** The five labels of the escalation policy. *)
Definition policy_levels : list string :=
  [ "low"; "moderate"; "elevated"; "high"; "critical" ].

End Observe.

(** ** Inputs used in the examples *)

Module Scenario.


Definition plain_str (v : pyval) : string :=
  match v with
  | PStr s => s
  | PNum _ => "#"
  | PList l => join ", " l
  | PNone => "None"
  end.

(** Severe isolation: events 8 to 0, every invitation declined, contacts 5 to
    0, listening 15h to 45h, 85% late at night, valence 0.70 to 0.25, 65%
    repeats. *)
Definition severe_spotify : gmap string Q :=
  list_to_map
    [ ("baseline_listening_hours", 15);
      ("current_listening_hours", 45);
      ("late_night_percentage", 85);
      ("baseline_valence", 70 # 100);
      ("current_valence", 25 # 100);
      ("repeat_listening_percentage", 65) ].

Definition severe_calendar : gmap string Q :=
  list_to_map
    [ ("baseline_social_events", 8);
      ("current_social_events", 0);
      ("declined_invitation_rate", 100);
      ("baseline_unique_contacts", 5);
      ("current_unique_contacts", 0) ].

(** Half of the invitations declined and contacts 40 to 21: the calendar
    subscore is 49 and the composite 25.5. *)
Definition between_levels_calendar : gmap string Q :=
  list_to_map
    [ ("declined_invitation_rate", 50);
      ("baseline_unique_contacts", 40);
      ("current_unique_contacts", 21) ].

(** Twice as many social events as the baseline. *)
Definition sociable_calendar : gmap string Q :=
  list_to_map
    [ ("baseline_social_events", 8);
      ("current_social_events", 16) ].

(** A negative percentage. *)
Definition negative_late_night : gmap string Q :=
  list_to_map [ ("late_night_percentage", -100) ].

(** No baseline of events and a negative count of current events. *)
Definition zero_baseline_calendar : gmap string Q :=
  list_to_map
    [ ("baseline_social_events", 0);
      ("current_social_events", -1) ].

(** Collaborators that are unreachable: every call raises. *)
Definition offline_recommender
    (location anxiety_level : string) (interests : list string) (limit : Z)
    : result (list (gmap string string)) :=
  Raise (Exception "recommender unavailable").

Definition offline_model (contents : string) : result string :=
  Raise (Exception "model unavailable").

Definition offline_store
    (db : unit) (user_id : string) (risk_score : Z) (suggestion : string)
    (event_id event_source : option string) : result string :=
  Raise (Exception "database unavailable").

(** A recommender that answers with one event. *)
Definition one_event : gmap string string :=
  list_to_map [ ("id", "e1"); ("source", "eventbrite"); ("name", "Board games") ].

Definition online_recommender
    (location anxiety_level : string) (interests : list string) (limit : Z)
    : result (list (gmap string string)) :=
  Ok [one_event].

(** The assessment dictionary the route handler passes on: the score, level
    and factors of a detection. *)
Definition assessment_of (a : Detection.Assessment) : Intervention.RiskAssessment :=
  let f := Detection.factors a in
  {| Intervention.level := Some (Detection.level a);
     Intervention.score := Some (Detection.score a);
     Intervention.factors :=
       Some (Intervention.FDict
               [ ("spotify_score", PNum (RiskCalculator.spotify_score f));
                 ("calendar_score", PNum (RiskCalculator.calendar_score f));
                 ("baseline_score", PNum (RiskCalculator.baseline_score f));
                 ("total_score", PNum (RiskCalculator.total_score f)) ]) |}.

(** Assessments handed to the agent in the examples. *)
Definition low_assessment : Intervention.RiskAssessment :=
  {| Intervention.level := Some "low";
     Intervention.score := Some 15%Z;
     Intervention.factors := None |}.

Definition mild_assessment : Intervention.RiskAssessment :=
  {| Intervention.level := Some "mild";
     Intervention.score := Some 40%Z;
     Intervention.factors :=
       Some (Intervention.FDict [ ("recurring_contacts", PList ["Sarah"; "Mike"]) ]) |}.

Definition high_assessment : Intervention.RiskAssessment :=
  {| Intervention.level := Some "high";
     Intervention.score := Some 82%Z;
     Intervention.factors :=
       Some (Intervention.FDict [ ("recurring_contacts", PList ["Mom"]) ]) |}.

Definition interests : option (list string) := Some ["music"; "hiking"].
Definition location : option string := Some "College Station, TX".

(** The agent with every collaborator unreachable. *)
Definition run_offline
    (str_of : pyval -> string) (ra : Intervention.RiskAssessment)
    (user_interests : option (list string)) (user_location : option string)
    : result Intervention.Intervention * list Intervention.event :=
  Intervention.run_intervention str_of offline_recommender offline_model unit
    offline_store ra None user_interests user_location None None [].

End Scenario.

(** ** More of Python's built-ins *)

Module Builtins.

(** [int(x)] on a number: truncation towards zero. *)
Definition int (x : Q) : Z :=
  if ltb x 0 then Qceiling x else Qfloor x.

(** [l[:n]]: the first [n] items, and for a negative [n] all but the last
    [-n]. *)
Definition slice_to {A : Type} (l : list A) (n : Z) : list A :=
  if (0 <=? n)%Z then firstn (Z.to_nat n) l
  else firstn (length l - Z.to_nat (- n)) l.


(** [sum(1 for x in l if p(x))]. *)
Definition count {A : Type} (p : A -> bool) (l : list A) : Z :=
  Z.of_nat (length (List.filter p l)).

End Builtins.

(** ** [core/config] and [core/utils]: the five-level label of a score *)

Module Config.

(** The settings the engine reads.  They come from the environment;
    [default_settings] holds the defaults of the class. *)
Record Settings : Type := {
  risk_score_low_threshold : Z;
  risk_score_moderate_threshold : Z;
  risk_score_elevated_threshold : Z;
  meetup_api_key : string;
  eventbrite_token : string
}.

Definition default_settings : Settings :=
  {| risk_score_low_threshold := 25;
     risk_score_moderate_threshold := 50;
     risk_score_elevated_threshold := 75;
     meetup_api_key := EmptyString;
     eventbrite_token := EmptyString |}.

Definition calculate_risk_level (settings : Settings) (score : Z) : string :=
  if (score <? risk_score_low_threshold settings)%Z then "low"
  else if (score <? risk_score_moderate_threshold settings)%Z then "moderate"
  else if (score <? risk_score_elevated_threshold settings)%Z then "elevated"
  else if (score <? 90)%Z then "high"
  else "critical".

(** The place of a label on the scale of five. *)
Definition rank (level : string) : nat :=
  if String.eqb level "low" then 0
  else if String.eqb level "moderate" then 1
  else if String.eqb level "elevated" then 2
  else if String.eqb level "high" then 3
  else 4.

End Config.

(** ** [api/routes]: the wellness view of a stored assessment *)

Module Wellness.



End Wellness.

(** ** [models/permissions] and [core/encryption] *)

Module Permissions.

(** A row of the permissions table: the five switches, kept as the strings
    "true" and "false", and the four stored tokens. *)
Record Permission : Type := {
  user_id : string;
  calendar_enabled : string;
  spotify_enabled : string;
  github_enabled : string;
  weather_enabled : string;
  discord_enabled : string;
  google_access_token : option string;
  google_refresh_token : option string;
  spotify_access_token : option string;
  spotify_refresh_token : option string
}.

(** A new row: every switch has the column default "false", no token. *)
Definition new_permission (user : string) : Permission :=
  {| user_id := user;
     calendar_enabled := "false";
     spotify_enabled := "false";
     github_enabled := "false";
     weather_enabled := "false";
     discord_enabled := "false";
     google_access_token := None;
     google_refresh_token := None;
     spotify_access_token := None;
     spotify_refresh_token := None |}.

(** [getattr(self, field)] for the attributes whose name ends in
    [_enabled]; [None] when [hasattr] is false. *)
Definition getattr_enabled (p : Permission) (field : string) : option string :=
  if String.eqb field "calendar_enabled" then Some (calendar_enabled p)
  else if String.eqb field "spotify_enabled" then Some (spotify_enabled p)
  else if String.eqb field "github_enabled" then Some (github_enabled p)
  else if String.eqb field "weather_enabled" then Some (weather_enabled p)
  else if String.eqb field "discord_enabled" then Some (discord_enabled p)
  else None.

(** [setattr(self, field, value)] for the same attributes. *)
Definition setattr_enabled (p : Permission) (field value : string) : Permission :=
  let set c s g w d :=
    {| user_id := user_id p;
       calendar_enabled := c;
       spotify_enabled := s;
       github_enabled := g;
       weather_enabled := w;
       discord_enabled := d;
       google_access_token := google_access_token p;
       google_refresh_token := google_refresh_token p;
       spotify_access_token := spotify_access_token p;
       spotify_refresh_token := spotify_refresh_token p |} in
  if String.eqb field "calendar_enabled"
  then set value (spotify_enabled p) (github_enabled p) (weather_enabled p)
         (discord_enabled p)
  else if String.eqb field "spotify_enabled"
  then set (calendar_enabled p) value (github_enabled p) (weather_enabled p)
         (discord_enabled p)
  else if String.eqb field "github_enabled"
  then set (calendar_enabled p) (spotify_enabled p) value (weather_enabled p)
         (discord_enabled p)
  else if String.eqb field "weather_enabled"
  then set (calendar_enabled p) (spotify_enabled p) (github_enabled p) value
         (discord_enabled p)
  else if String.eqb field "discord_enabled"
  then set (calendar_enabled p) (spotify_enabled p) (github_enabled p)
         (weather_enabled p) value
  else p.

Definition has_permission (p : Permission) (source : string) : bool :=
  let field := source +:+ "_enabled" in
  match getattr_enabled p field with
  | Some value => String.eqb value "true"
  | None => false
  end.

Definition set_permission (p : Permission) (source : string) (enabled : bool)
    : Permission :=
  let field := source +:+ "_enabled" in
  match getattr_enabled p field with
  | Some _ => setattr_enabled p field (if enabled then "true" else "false")
  | None => p
  end.

Section Tokens.

(** The Fernet cipher built from the secret key: [cipher_encrypt] yields the
    text of the token, [cipher_decrypt] the clear text or an exception. *)
Variable cipher_encrypt : string -> string.
Variable cipher_decrypt : string -> result string.

Definition encrypt_token (token : string) : string :=
  if String.eqb token "" then EmptyString else cipher_encrypt token.

Definition decrypt_token (encrypted_token : string) : string :=
  if String.eqb encrypted_token "" then EmptyString
  else
    match cipher_decrypt encrypted_token with
    | Ok decrypted => decrypted
    | Raise _ => EmptyString
    end.

Definition with_google_access_token (p : Permission) (t : option string)
    : Permission :=
  {| user_id := user_id p;
     calendar_enabled := calendar_enabled p;
     spotify_enabled := spotify_enabled p;
     github_enabled := github_enabled p;
     weather_enabled := weather_enabled p;
     discord_enabled := discord_enabled p;
     google_access_token := t;
     google_refresh_token := google_refresh_token p;
     spotify_access_token := spotify_access_token p;
     spotify_refresh_token := spotify_refresh_token p |}.

Definition with_spotify_access_token (p : Permission) (t : option string)
    : Permission :=
  {| user_id := user_id p;
     calendar_enabled := calendar_enabled p;
     spotify_enabled := spotify_enabled p;
     github_enabled := github_enabled p;
     weather_enabled := weather_enabled p;
     discord_enabled := discord_enabled p;
     google_access_token := google_access_token p;
     google_refresh_token := google_refresh_token p;
     spotify_access_token := t;
     spotify_refresh_token := spotify_refresh_token p |}.

Definition set_google_token (p : Permission) (token : string) : Permission :=
  with_google_access_token p
    (if String.eqb token "" then None else Some (encrypt_token token)).

Definition get_google_token (p : Permission) : string :=
  match google_access_token p with
  | Some stored =>
      if String.eqb stored "" then EmptyString else decrypt_token stored
  | None => EmptyString
  end.

Definition set_spotify_token (p : Permission) (token : string) : Permission :=
  with_spotify_access_token p
    (if String.eqb token "" then None else Some (encrypt_token token)).

Definition get_spotify_token (p : Permission) : string :=
  match spotify_access_token p with
  | Some stored =>
      if String.eqb stored "" then EmptyString else decrypt_token stored
  | None => EmptyString
  end.

End Tokens.

End Permissions.

(** ** Decoded JSON and loosely typed records *)

Module Json.

#[warnings="-register-all"]
Inductive json : Type :=
| JNull
| JBool (b : bool)
| JNum (q : Q)
| JStr (s : string)
| JArr (items : list json)
| JObj (fields : list (string * json)).

Definition AttributeError : exn := Exception "AttributeError".

(** [v.get(key, dflt)]: only a dictionary has [get]. *)
Definition jget (v : json) (key : string) (dflt : json) : result json :=
  match v with
  | JObj fields => Ok (default dflt (Intervention.lookup_item key fields))
  | _ => Raise AttributeError
  end.

(** [v[:n]]: strings and lists can be sliced. *)
Definition jslice (v : json) (n : nat) : result json :=
  match v with
  | JStr s => Ok (JStr (String.substring 0 n s))
  | JArr items => Ok (JArr (firstn n items))
  | _ => Raise TypeError
  end.

(** [for x in v]: a list yields its items, a string its characters, a
    dictionary its keys; nothing else can be iterated. *)
Definition jiter (v : json) : result (list json) :=
  match v with
  | JArr items => Ok items
  | JStr s => Ok (map JStr (chars s))
  | JObj fields => Ok (map (fun kv => JStr (fst kv)) fields)
  | _ => Raise TypeError
  end.

(** [len(v)]. *)
Definition jlen (v : json) : result Z :=
  match v with
  | JArr items => Ok (Z.of_nat (length items))
  | JStr s => Ok (Z.of_nat (String.length s))
  | JObj fields => Ok (Z.of_nat (length fields))
  | _ => Raise TypeError
  end.

(** Truth value in a condition. *)
Definition jtruthy (v : json) : bool :=
  match v with
  | JNull => false
  | JBool b => b
  | JNum q => negb (Qeq_bool q 0)
  | JStr s => negb (String.eqb s "")
  | JArr items => match items with [] => false | _ => true end
  | JObj fields => match fields with [] => false | _ => true end
  end.

(** [v < n] against a number: numbers and booleans compare, anything else
    raises. *)
Definition jlt (v : json) (n : Q) : result bool :=
  match v with
  | JNum q => Ok (ltb q n)
  | JBool b => Ok (ltb (if b then 1 else 0) n)
  | _ => Raise TypeError
  end.

(** [v == s] against a string. *)
Definition jeq_str (v : json) (s : string) : bool :=
  match v with
  | JStr t => String.eqb t s
  | _ => false
  end.

(** [a or b] on conditions that may raise: [b] is evaluated only when [a]
    is false. *)
Definition or_else (a : result bool) (b : result bool) : result bool :=
  x ← a; if (x : bool) then Ok true else b.

(** [[x for x in l if p(x)]] with a condition that may raise. *)
Fixpoint filter_r {A : Type} (p : A -> result bool) (l : list A)
    : result (list A) :=
  match l with
  | [] => Ok []
  | x :: rest =>
      keep ← p x;
      kept ← filter_r p rest;
      Ok (if (keep : bool) then x :: kept else kept)
  end.

(** [[f(x) for x in l]] with an [f] that may raise. *)
Fixpoint map_r {A B : Type} (f : A -> result B) (l : list A) : result (list B) :=
  match l with
  | [] => Ok []
  | x :: rest =>
      y ← f x;
      ys ← map_r f rest;
      Ok (y :: ys)
  end.

End Json.

(** ** [tools/event_matching_tool] *)

Module EventMatching.

Import Json.

(** An event as the tool builds it: a dictionary of decoded values. *)
Abbreviation Event := (gmap string json).

(** [e.get(key, dflt)] on an event. *)
Definition eget (e : Event) (key : string) (dflt : json) : json :=
  default dflt (e !! key).

(** One event of the Meetup answer, rebuilt with the tool's nine keys. *)
Definition meetup_event (event : json) : result Event :=
  id ← jget event "id" JNull;
  name ← jget event "name" JNull;
  description ← (d ← jget event "description" (JStr EmptyString); jslice d 200);
  time ← jget event "time" JNull;
  venue ← (v ← jget event "venue" (JObj []); jget v "name" JNull);
  group ← (g ← jget event "group" (JObj []); jget g "name" JNull);
  rsvp_count ← jget event "yes_rsvp_count" (JNum 0);
  link ← jget event "link" JNull;
  Ok (list_to_map
        [ ("id", id); ("name", name); ("description", description);
          ("time", time); ("venue", venue); ("group", group);
          ("rsvp_count", rsvp_count); ("link", link);
          ("source", JStr "meetup") ]).

(** One event of the Eventbrite answer, rebuilt with the tool's nine keys. *)
Definition eventbrite_event (event : json) : result Event :=
  id ← jget event "id" JNull;
  name ← (n ← jget event "name" (JObj []); jget n "text" JNull);
  description ←
    (d ← jget event "description" (JObj []);
     t ← jget d "text" (JStr EmptyString);
     jslice t 200);
  start ← (s ← jget event "start" (JObj []); jget s "local" JNull);
  end_ ← (s ← jget event "end" (JObj []); jget s "local" JNull);
  venue ←
    (v ← jget event "venue" JNull;
     if jtruthy v
     then (w ← jget event "venue" (JObj []); jget w "name" JNull)
     else Ok JNull);
  capacity ← jget event "capacity" JNull;
  link ← jget event "url" JNull;
  Ok (list_to_map
        [ ("id", id); ("name", name); ("description", description);
          ("start", start); ("end", end_); ("venue", venue);
          ("capacity", capacity); ("link", link);
          ("source", JStr "eventbrite") ]).

Section Tool.

Variable settings : Config.Settings.

(** The HTTP client: [http_get url headers params] is the decoded body of a
    successful answer; a failed request, a bad status and an undecodable
    body raise. *)
Variable http_get :
  string -> list (string * string) -> list (string * json) -> result json.

(** [str(v)] inside an f-string and [s.lower()] are Python's own. *)
Variable str_of : json -> string.
Variable lower : string -> string.

Definition search_meetup_events (location : string) (radius : Z)
    : list Event :=
  if String.eqb (Config.meetup_api_key settings) "" then []
  else
    let url := "https://api.meetup.com/find/upcoming_events" in
    let params :=
      [ ("key", JStr (Config.meetup_api_key settings));
        ("text", JStr location);
        ("radius", JNum (inject_Z radius));
        ("page", JNum 20) ] in
    match (data ← http_get url [] params;
           listed ← jget data "events" (JArr []);
           items ← jiter listed;
           map_r meetup_event items) with
    | Ok events => events
    | Raise _ => []
    end.

Definition search_eventbrite_events (location : string) : list Event :=
  if String.eqb (Config.eventbrite_token settings) "" then []
  else
    let url := "https://www.eventbriteapi.com/v3/events/search/" in
    let headers :=
      [ ("Authorization", "Bearer " +:+ Config.eventbrite_token settings) ] in
    let params :=
      [ ("location.address", JStr location);
        ("location.within", JStr "10mi");
        ("expand", JStr "venue");
        ("page_size", JNum 20) ] in
    match (data ← http_get url headers params;
           listed ← jget data "events" (JArr []);
           items ← jiter listed;
           map_r eventbrite_event items) with
    | Ok events => events
    | Raise _ => []
    end.

Definition search_tamu_events : list Event := [].

Definition get_all_events (location : string) : list Event :=
  let meetup_events := search_meetup_events location 10 in
  let eventbrite_events := search_eventbrite_events location in
  let tamu_events := search_tamu_events in
  (meetup_events ++ eventbrite_events ++ tamu_events)%list.

(** The condition of the two comprehensions, for the bound [n]. *)
Definition small_enough (n : Q) (e : Event) : result bool :=
  or_else (jlt (eget e "rsvp_count" (JNum 0)) n)
          (jlt (eget e "capacity" (JNum 0)) n).

Definition filter_by_anxiety_level (events : list Event) (anxiety_level : string)
    : result (list Event) :=
  if String.eqb anxiety_level "low" then Ok events
  else if String.eqb anxiety_level "medium"
  then filter_r (small_enough 30) events
  else if String.eqb anxiety_level "high"
  then filter_r (small_enough 15) events
  else Ok events.

(** The text an event is matched against; a missing key reads as the empty
    string. *)
Definition event_text (event : Event) : string :=
  let field key :=
    match event !! key with
    | Some v => str_of v
    | None => EmptyString
    end in
  lower (field "name" +:+ " " +:+ field "description" +:+ " " +:+ field "group").

(** The inner loop: the first interest found in the text ends it. *)
Fixpoint any_interest (interests : list string) (text : string) : bool :=
  match interests with
  | [] => false
  | interest :: rest =>
      if contains (lower interest) text then true else any_interest rest text
  end.

(** The outer loop, appending to [matched_events]. *)
Fixpoint match_loop (events : list Event) (interests : list string)
    (matched_events : list Event) : list Event :=
  match events with
  | [] => matched_events
  | event :: rest =>
      match_loop rest interests
        (if any_interest interests (event_text event)
         then append matched_events event
         else matched_events)
  end.

Definition match_interests (events : list Event) (interests : list string)
    : list Event :=
  match interests with
  | [] => events
  | _ => match_loop events interests []
  end.

Definition recommend_events
    (location anxiety_level : string) (interests : option (list string))
    (limit : Z) : result (list Event) :=
  let all_events := get_all_events location in
  filtered_events ← filter_by_anxiety_level all_events anxiety_level;
  let filtered_events :=
    if Intervention.no_interests interests then filtered_events
    else match_interests filtered_events (default [] interests) in
  Ok (Builtins.slice_to filtered_events limit).

End Tool.

End EventMatching.

(** ** [models/interventions]: the interventions table *)

Module Interventions.

(** A row of the table.  Times are instants on the clock of the database,
    in microseconds. *)
Record Row : Type := {
  id : string;
  user_id : string;
  risk_score : Z;
  suggestion : string;
  event_id : option string;
  event_source : option string;
  accepted : option string;
  feedback : option string;
  created_at : Z;
  responded_at : option Z
}.

(** The session: the rows of the table, in insertion order. *)
Abbreviation Table := (list Row).

(** [timedelta(days=n)]. *)
Definition days (n : Z) : Z := (n * 86400000000)%Z.

(** [store_intervention]: [new_id] is the fresh primary key and [now] the
    clock, both column defaults. *)
Definition store_intervention
    (db : Table) (new_id : string) (now : Z)
    (user_id : string) (risk_score : Z) (suggestion : string)
    (event_id event_source : option string) : Table * Row :=
  let intervention :=
    {| id := new_id;
       user_id := user_id;
       risk_score := risk_score;
       suggestion := suggestion;
       event_id := event_id;
       event_source := event_source;
       accepted := None;
       feedback := None;
       created_at := now;
       responded_at := None |} in
  (append db intervention, intervention).

(** [db.query(Intervention).filter(Intervention.id == key).first()]. *)
Fixpoint find_by_id (db : Table) (key : string) : option Row :=
  match db with
  | [] => None
  | row :: rest => if String.eqb (id row) key then Some row else find_by_id rest key
  end.

(** Writing the changed attributes of the row found by [find_by_id] back to
    the table. *)
Fixpoint update_by_id (db : Table) (key : string) (change : Row -> Row) : Table :=
  match db with
  | [] => []
  | row :: rest =>
      if String.eqb (id row) key then change row :: rest
      else row :: update_by_id rest key change
  end.

Definition respond (accepted_value : string) (feedback_value : option string)
    (now : Z) (row : Row) : Row :=
  {| id := id row;
     user_id := user_id row;
     risk_score := risk_score row;
     suggestion := suggestion row;
     event_id := event_id row;
     event_source := event_source row;
     accepted := Some accepted_value;
     feedback := feedback_value;
     created_at := created_at row;
     responded_at := Some now |}.

Definition track_user_engagement
    (db : Table) (now : Z) (intervention_id : string) (accepted : bool)
    (feedback : option string) : Table * option Row :=
  match find_by_id db intervention_id with
  | None => (db, None)
  | Some intervention =>
      let change := respond (if accepted then "true" else "false") feedback now in
      (update_by_id db intervention_id change, Some (change intervention))
  end.







End Interventions.

(** ** Calls with keyword arguments *)

Module Calls.

(** A call [f(k1=..., k2=...)] binds each keyword to a parameter of [f];
    a keyword that [f] does not declare raises [TypeError] before the body
    runs. *)
Definition unexpected_keyword (parameters keywords : list string)
    : option string :=
  List.find (fun k => negb (existsb (String.eqb k) parameters)) keywords.

Definition call_keywords {A : Type} (parameters keywords : list string)
    (body : result A) : result A :=
  match unexpected_keyword parameters keywords with
  | Some _ => Raise TypeError
  | None => body
  end.

End Calls.

(** ** [tools/calendar_tool] *)

Module Calendar.

Import Json.

(** The answer of the Google Calendar client: the decoded body, an
    [HttpError], or any other exception. *)
Inductive api (A : Type) : Type :=
| Answer (a : A)
| HttpError
| Failure (e : exn).

Arguments Answer {A} a.
Arguments HttpError {A}.
Arguments Failure {A} e.

(** The dictionary returned by [detect_social_decline]. *)
Record Decline : Type := {
  baseline_frequency : Q;
  current_frequency : Q;
  decline_percentage : Q;
  is_declining : bool;
  period_days : Z
}.

(** The dictionary returned by [get_declined_invitations]; after an
    [HttpError] it has three keys only. *)
Record Declined : Type := {
  total_invitations : Z;
  declined_count : Z;
  decline_rate : Q;
  is_concerning : option bool;
  declined_events : option (list (gmap string json))
}.

(** Parameter names of the methods, as declared ([self] apart). *)
Definition analyze_social_patterns_parameters : list string := [ "days_back" ].
Definition get_declined_invitations_parameters : list string := [ "days_back" ].
Definition identify_recurring_contacts_parameters : list string := [ "days_back" ].

Section Tool.

(** [events().list(...).execute()] for the window from [days_back] days ago
    to [days_ahead] days ahead, with [max_results] and the ordering flag. *)
Variable events_list : Z -> Z -> Z -> bool -> api json.

(** A social event of the past, rebuilt with six keys. *)
Definition social_event (event attendees : json) (count : Z)
    : result (gmap string json) :=
  id ← jget event "id" JNull;
  summary ← jget event "summary" (JStr "Untitled Event");
  start ← (s ← jget event "start" (JObj []); jget s "dateTime" JNull);
  end_ ← (s ← jget event "end" (JObj []); jget s "dateTime" JNull);
  description ← jget event "description" (JStr EmptyString);
  Ok (list_to_map
        [ ("id", id); ("summary", summary); ("start", start); ("end", end_);
          ("attendees_count", JNum (inject_Z count));
          ("description", description) ]).

(** The loop over the listed events. *)
Fixpoint social_loop (events : list json) (min_attendees : Z)
    (social_events : list (gmap string json))
    : result (list (gmap string json)) :=
  match events with
  | [] => Ok social_events
  | event :: rest =>
      attendees ← jget event "attendees" (JArr []);
      count ← jlen attendees;
      if (min_attendees <=? count)%Z then
        built ← social_event event attendees count;
        social_loop rest min_attendees (append social_events built)
      else social_loop rest min_attendees social_events
  end.

Definition get_social_events (days_back min_attendees : Z)
    : result (list (gmap string json)) :=
  match events_list days_back 0 100 true with
  | HttpError => Ok []
  | Failure e => Raise e
  | Answer events_result =>
      listed ← jget events_result "items" (JArr []);
      events ← jiter listed;
      social_loop events min_attendees []
  end.

Definition calculate_social_frequency (days_back : Z) : result Q :=
  social_events ← get_social_events days_back 2;
  let weeks := inject_Z days_back / 7 in
  Ok (if gtb weeks 0
      then inject_Z (Z.of_nat (length social_events)) / weeks
      else 0).

Definition detect_social_decline (baseline_frequency : Q)
    (current_period_days : Z) : result Decline :=
  current_frequency ← calculate_social_frequency current_period_days;
  let decline_percentage :=
    if gtb baseline_frequency 0
    then (baseline_frequency - current_frequency) / baseline_frequency * 100
    else 0 in
  Ok {| baseline_frequency := baseline_frequency;
        current_frequency := current_frequency;
        decline_percentage := decline_percentage;
        is_declining := gtb decline_percentage 25;
        period_days := current_period_days |}.

(** The state of the counting loop of [get_declined_invitations]. *)
Record Tally : Type := {
  t_total : Z;
  t_declined : Z;
  t_events : list (gmap string json)
}.

Definition declined_event (event attendees : json) (count : Z)
    : result (gmap string json) :=
  summary ← jget event "summary" (JStr "Untitled Event");
  start ← (s ← jget event "start" (JObj []); jget s "dateTime" JNull);
  Ok (list_to_map
        [ ("summary", summary); ("start", start);
          ("attendees_count", JNum (inject_Z count)) ]).

(** The inner loop: every attendee marked [self] is an invitation, and a
    declined one adds the event to the list. *)
Fixpoint attendee_loop (event attendees : json) (remaining : list json)
    (t : Tally) : result Tally :=
  match remaining with
  | [] => Ok t
  | attendee :: rest =>
      self ← jget attendee "self" (JBool false);
      if jtruthy self then
        response_status ← jget attendee "responseStatus" JNull;
        if jeq_str response_status "declined" then
          count ← jlen attendees;
          built ← declined_event event attendees count;
          attendee_loop event attendees rest
            {| t_total := t_total t + 1;
               t_declined := t_declined t + 1;
               t_events := append (t_events t) built |}
        else
          attendee_loop event attendees rest
            {| t_total := t_total t + 1;
               t_declined := t_declined t;
               t_events := t_events t |}
      else attendee_loop event attendees rest t
  end.

Fixpoint invitation_loop (events : list json) (t : Tally) : result Tally :=
  match events with
  | [] => Ok t
  | event :: rest =>
      attendees ← jget event "attendees" (JArr []);
      each ← jiter attendees;
      t' ← attendee_loop event attendees each t;
      invitation_loop rest t'
  end.

Definition get_declined_invitations (days_back : Z) : result Declined :=
  match events_list days_back 0 100 false with
  | HttpError =>
      Ok {| total_invitations := 0;
            declined_count := 0;
            decline_rate := 0;
            is_concerning := None;
            declined_events := None |}
  | Failure e => Raise e
  | Answer events_result =>
      listed ← jget events_result "items" (JArr []);
      events ← jiter listed;
      t ← invitation_loop events
             {| t_total := 0; t_declined := 0; t_events := [] |};
      let decline_rate :=
        if (0 <? t_total t)%Z
        then inject_Z (t_declined t) / inject_Z (t_total t) * 100
        else 0 in
      Ok {| total_invitations := t_total t;
            declined_count := t_declined t;
            decline_rate := round2 decline_rate;
            is_concerning := Some (gtb decline_rate 40);
            declined_events := Some (Builtins.slice_to (t_events t) 5) |}
  end.

End Tool.

End Calendar.

(** ** [detection_agent]: the calendar analysis *)

Module SocialAnalysis.

(** The dictionary returned by [analyze_social_patterns]: without access it
    only has [available], [risk_contribution] and a [message] or an
    [error]. *)
Record Analysis : Type := {
  available : bool;
  baseline_frequency : option Q;
  current_frequency : option Q;
  decline_percentage : option Q;
  is_declining : option bool;
  risk_contribution : Z;
  message : option string;
  error : option exn
}.

Definition not_granted : Analysis :=
  {| available := false;
     baseline_frequency := None;
     current_frequency := None;
     decline_percentage := None;
     is_declining := None;
     risk_contribution := 0;
     message := Some "Calendar access not granted";
     error := None |}.

Definition failed (e : exn) : Analysis :=
  {| available := false;
     baseline_frequency := None;
     current_frequency := None;
     decline_percentage := None;
     is_declining := None;
     risk_contribution := 0;
     message := None;
     error := Some e |}.

Section Agent.

(** [CalendarTool(token)]: building the client may raise; the client then
    answers [events_list]. *)
Variable connect : string -> result unit.
Variable events_list : string -> Z -> Z -> Z -> bool -> Calendar.api Json.json.

Definition analyze_social_patterns
    (user_id : string) (calendar_token : option string)
    (baseline_frequency : Q) : Analysis :=
  match Detection.truthy_token calendar_token with
  | None => not_granted
  | Some token =>
      match (_ ← connect token;
             decline_analysis ←
               Calendar.detect_social_decline (events_list token)
                 baseline_frequency 14;
             let decline_percentage :=
               Calendar.decline_percentage decline_analysis in
             let risk_contribution :=
               Z.min 40 (Builtins.int (decline_percentage * (8 # 10))) in
             Ok {| available := true;
                   baseline_frequency := Some baseline_frequency;
                   current_frequency :=
                     Some (Calendar.current_frequency decline_analysis);
                   decline_percentage := Some decline_percentage;
                   is_declining :=
                     Some (Calendar.is_declining decline_analysis);
                   risk_contribution := risk_contribution;
                   message := None;
                   error := None |}) with
      | Ok analysis => analysis
      | Raise e => failed e
      end
  end.

End Agent.

End SocialAnalysis.

(** ** [run_detection]: the calendar block as it is written *)

Module CalendarBlock.

(** The keywords of the call [calendar_tool.analyze_social_patterns(...)]
    made by [run_detection]. *)
Definition analyze_social_patterns_keywords : list string :=
  [ "days_back"; "baseline_frequency" ].

Section Block.

(** [CalendarTool(token)] may raise.  The bodies of the three methods and
    the dictionary built from their answers are the tool's own. *)
Variable connect : string -> result unit.
Variable Patterns : Type.
Variable analyze_social_patterns : string -> Z -> Q -> result Patterns.
Variable build_metrics :
  string -> option (gmap string Q) -> Patterns -> result (gmap string Q).

(** The body of the second [try] block of [run_detection]. *)
Definition calendar_analysis
    (token : string) (baseline_data : option (gmap string Q))
    : result (gmap string Q) :=
  _ ← connect token;
  let baseline_frequency :=
    match baseline_data with
    | Some d =>
        if decide (d = ∅) then 8 else get d "social_event_frequency" 8
    | None => 8
    end in
  social_patterns ←
    Calls.call_keywords Calendar.analyze_social_patterns_parameters
      analyze_social_patterns_keywords
      (analyze_social_patterns token 30 baseline_frequency);
  build_metrics token baseline_data social_patterns.

End Block.

End CalendarBlock.

(** ** What is observed of the persistence step *)

Module Tracking.

Import Intervention.

(** The calls to the store, in order. *)
Definition stores (log : list event) : list event :=
  List.filter Observe.is_store log.

(** [if db_session and user_id]: the session and the user a row is stored
    for. *)
Definition storing {DbSession : Type}
    (db_session : option DbSession) (user_id : option string)
    : option (DbSession * string) :=
  match db_session, user_id with
  | Some db, Some uid => if String.eqb uid "" then None else Some (db, uid)
  | _, _ => None
  end.

(** The event the row refers to: the first activity, when there is one. *)
Definition first_id (activities : list Activity) : option string :=
  match activities with a :: _ => a !! "id" | [] => None end.

Definition first_source (activities : list Activity) : option string :=
  match activities with a :: _ => a !! "source" | [] => None end.

End Tracking.

(** ** [mcp_server/server]: two of the tools *)

Module McpServer.

Import Intervention.

(** Parameter names of [run_detection], and the keywords its callers in the
    server and in the chat route pass. *)
Definition run_detection_parameters : list string :=
  [ "user_id"; "calendar_token"; "spotify_token"; "baseline_data" ].

Definition run_detection_keywords : list string :=
  [ "user_id"; "calendar_token"; "spotify_token";
    "baseline_social_frequency"; "baseline_valence"; "baseline_energy" ].

(** What a tool answers: its result, or the dictionary with the single key
    [error]. *)
Inductive Reply (A : Type) : Type :=
| Result (a : A)
| Error (message : string).

Arguments Result {A} a.
Arguments Error {A} message.

Section Tools.

Variable str_of : pyval -> string.
Variable recommend_events :
  string -> string -> list string -> Z -> result (list Activity).
Variable generate_content : string -> result string.
Variable DbSession : Type.
Variable store_intervention :
  DbSession -> string -> Z -> string -> option string -> option string ->
  result string.

(** [str(e)] on an exception. *)
Variable str_exn : exn -> string.

Definition generate_intervention
    (user_id : string) (risk_score : Z) (risk_level : string)
    (interests : option (list string)) : io (Reply Intervention) :=
  try_except
    (let risk_assessment :=
       {| level := Some risk_level;
          score := Some risk_score;
          factors := None |} in
     result ←
       run_intervention str_of recommend_events generate_content DbSession
         store_intervention risk_assessment None interests None None None;
     mret (Result result))
    (fun e => mret (Error (str_exn e))).

Variable fmt : Format.
Variable spotify_analysis :
  string -> option (gmap string Q) -> result (gmap string Q).
Variable calendar_analysis :
  string -> option (gmap string Q) -> result (gmap string Q).
Variable cipher_decrypt : string -> result string.

(** The three queries: the user row, the permissions row and the three
    baseline values, each of which may raise. *)
Variable User : Type.
Variable query_user : string -> result (option User).
Variable query_permission : string -> result (option Permissions.Permission).
Variable query_baseline : string -> result (Q * Q * Q).

Definition analyze_loneliness_risk
    (user_id : string) (calendar_enabled spotify_enabled : bool)
    : Reply Detection.Detected :=
  match
    (user ← query_user user_id;
     match user with
     | None => Ok (Error "User not found")
     | Some _ =>
         permission ← query_permission user_id;
         match permission with
         | None => Ok (Error "User permissions not set")
         | Some permission =>
             baseline ← query_baseline user_id;
             let calendar_token :=
               if calendar_enabled
                  && String.eqb (Permissions.calendar_enabled permission) "true"
               then Some (Permissions.get_google_token cipher_decrypt permission)
               else None in
             let spotify_token :=
               if spotify_enabled
                  && String.eqb (Permissions.spotify_enabled permission) "true"
               then Some (Permissions.get_spotify_token cipher_decrypt permission)
               else None in
             result ←
               Calls.call_keywords run_detection_parameters
                 run_detection_keywords
                 (Detection.run_detection fmt spotify_analysis
                    calendar_analysis user_id calendar_token spotify_token
                    None);
             Ok (Result result)
         end
     end)
  with
  | Ok reply => reply
  | Raise e => Error (str_exn e)
  end.

End Tools.

End McpServer.

(** ** Rows as the engine writes them *)

Module Responses.

Import Interventions.

(** The [accepted] column holds [None], "true" or "false". *)
Definition recorded (row : Row) : bool :=
  match accepted row with
  | None => true
  | Some a => String.eqb a "true" || String.eqb a "false"
  end.

End Responses.

(** ** The data sources a user can switch on *)

Module Switches.

Definition sources : list string :=
  [ "calendar"; "spotify"; "github"; "weather"; "discord" ].

End Switches.

(** ** Events as the tool fetches them *)

Module Fetched.

(** An event that lacks one of the two sizes the anxiety filter reads. *)
Definition one_sided (e : EventMatching.Event) : Prop :=
  e !! "capacity" = None \/ e !! "rsvp_count" = None.

End Fetched.

(** ** More inputs used in the examples *)

Module Examples.

Import Json.

(** A model and a store that answer. *)
Definition online_model (contents : string) : result string :=
  Ok "Thinking of you.".

Definition online_store
    (db : unit) (user_id : string) (risk_score : Z) (suggestion : string)
    (event_id event_source : option string) : result string :=
  Ok "row-1".

(** A cipher for the examples: a mark put in front of the clear text. *)
Definition mark_encrypt (token : string) : string := String "#"%char token.

Definition mark_decrypt (encrypted : string) : result string :=
  match encrypted with
  | String "#"%char token => Ok token
  | _ => Raise (Exception "InvalidToken")
  end.

(** Settings with both keys, and a client that answers the Meetup search
    with two events, one of sixty people and one without a count. *)
Definition keyed_settings : Config.Settings :=
  {| Config.risk_score_low_threshold := 25;
     Config.risk_score_moderate_threshold := 50;
     Config.risk_score_elevated_threshold := 75;
     Config.meetup_api_key := "key";
     Config.eventbrite_token := "token" |}.

Definition meetup_body : json :=
  JObj [ ("events",
          JArr [ JObj [ ("id", JStr "m1"); ("name", JStr "Board games");
                        ("yes_rsvp_count", JNum 60) ];
                 JObj [ ("id", JStr "m2"); ("name", JStr "Trail run") ] ]) ].

Definition http_get
    (url : string) (headers : list (string * string))
    (params : list (string * json)) : result json :=
  if String.prefix "https://api.meetup.com" url then Ok meetup_body
  else Raise (Exception "ConnectError").

Definition str_json (v : json) : string :=
  match v with
  | JStr s => s
  | _ => "None"
  end.

Definition same_case (s : string) : string := s.

(** A table of three interventions for one user: one accepted, one declined
    and one without an answer, at risk 80, 70 and 60. *)
Definition row (key : string) (risk : Z) (answer : option string) (at_ : Z)
    : Interventions.Row :=
  {| Interventions.id := key;
     Interventions.user_id := "u1";
     Interventions.risk_score := risk;
     Interventions.suggestion := "Call a friend";
     Interventions.event_id := None;
     Interventions.event_source := None;
     Interventions.accepted := answer;
     Interventions.feedback := None;
     Interventions.created_at := at_;
     Interventions.responded_at := None |}.

Definition table : list Interventions.Row :=
  [ row "a" 80 (Some "true") 10;
    row "b" 70 (Some "false") 20;
    row "c" 60 None 30 ].

(** A calendar whose API fails, and one that lists a dinner of three that
    the user declined and a note without attendees. *)
Definition connected (token : string) : result unit := Ok tt.

Definition failing_calendar
    (token : string) (days_back days_ahead max_results : Z) (ordered : bool)
    : Calendar.api json :=
  Calendar.HttpError.

Definition dinner : json :=
  JObj [ ("id", JStr "e1"); ("summary", JStr "Dinner");
         ("attendees",
          JArr [ JObj [ ("email", JStr "me@tamu.edu"); ("self", JBool true);
                        ("responseStatus", JStr "declined") ];
                 JObj [ ("email", JStr "sarah@tamu.edu") ];
                 JObj [ ("email", JStr "mike@tamu.edu") ] ]) ].

Definition note : json := JObj [ ("id", JStr "e2"); ("summary", JStr "Note") ].

Definition listed_calendar
    (days_back days_ahead max_results : Z) (ordered : bool)
    : Calendar.api json :=
  Calendar.Answer (JObj [ ("items", JArr [ dinner; note ]) ]).

(** The social events of that calendar. *)
Definition found_events : list (gmap string json) :=
  match Calendar.get_social_events listed_calendar 30 2 with
  | Ok found => found
  | Raise _ => []
  end.

End Examples.

(** ** [tools/spotify_tool] *)

Module Spotify.


(** A track as [get_recent_tracks] hands it on: five keys, each value a
    string of the API or [None]. *)
Record Track : Type := {
  track_id : option string;
  name : option string;
  artist : option string;
  played_at : option string;
  duration_ms : option Z
}.

(** The dictionary returned by [detect_late_night_listening]. *)
Record LateNight : Type := {
  late_night_count : Z;
  total_count : Z;
  late_night_percentage : Q;
  is_concerning : bool
}.

(** The dictionary returned by [detect_mood_shift]: with too little data it
    only has [shift_detected] and a reason. *)
Record Shift : Type := {
  baseline_valence : Q;
  current_valence : Q;
  valence_change : Q;
  baseline_energy : Q;
  current_energy : Q;
  energy_change : Q;
  shift_is_concerning : bool
}.

Record MoodShift : Type := {
  shift_detected : bool;
  shift : option Shift
}.


Section Tool.

(** [get_recent_tracks(limit)] answers with the tracks of the API, or with
    the empty list after any exception.  [get_audio_features(track_ids)]
    does the same for the features.  Reading the time a track was played is
    the work of [datetime]: [played_after days_back track] is the test
    against the cutoff and [hour_of track] the hour, and both raise on a
    value that is not a time. *)
Variable get_recent_tracks : Z -> list Track.
Variable get_audio_features : list string -> list (gmap string Q).
Variable played_after : Z -> Track -> result bool.
Variable hour_of : Track -> result Z.





(** The counting loop of [detect_late_night_listening]. *)
Fixpoint late_night_loop (tracks : list Track) (late_night_count : Z)
    : result Z :=
  match tracks with
  | [] => Ok late_night_count
  | track :: rest =>
      hour ← hour_of track;
      if (23 <=? hour)%Z || (hour <? 4)%Z
      then late_night_loop rest (late_night_count + 1)
      else late_night_loop rest late_night_count
  end.

Definition detect_late_night_listening (days_back : Z) : result LateNight :=
  let tracks := get_recent_tracks 50 in
  let total_count := Z.of_nat (length tracks) in
  late_night_count ← late_night_loop tracks 0;
  let late_night_percentage :=
    if (0 <? total_count)%Z
    then inject_Z late_night_count / inject_Z total_count * 100
    else 0 in
  Ok {| late_night_count := late_night_count;
        total_count := total_count;
        late_night_percentage := round2 late_night_percentage;
        is_concerning := gtb late_night_percentage 40 |}.

End Tool.

End Spotify.

(** ** [detection_agent]: the mood analysis *)

Module MoodAnalysis.

(** The dictionary returned by [analyze_mood_patterns]. *)
Record Analysis : Type := {
  available : bool;
  mood_shift : option Spotify.MoodShift;
  late_night_analysis : option Spotify.LateNight;
  risk_contribution : Z;
  message : option string;
  error : option exn
}.

Definition not_granted : Analysis :=
  {| available := false;
     mood_shift := None;
     late_night_analysis := None;
     risk_contribution := 0;
     message := Some "Spotify access not granted";
     error := None |}.

Definition failed (e : exn) : Analysis :=
  {| available := false;
     mood_shift := None;
     late_night_analysis := None;
     risk_contribution := 0;
     message := None;
     error := Some e |}.

Section Agent.

(** [SpotifyTool(token)] may raise; the tool then works on what the client
    of that token answers. *)
Variable connect : string -> result unit.
Variable get_recent_tracks : string -> Z -> list Spotify.Track.
Variable get_audio_features : string -> list string -> list (gmap string Q).
Variable played_after : Z -> Spotify.Track -> result bool.
Variable hour_of : Spotify.Track -> result Z.


End Agent.

End MoodAnalysis.

(** ** Tracks used in the examples *)

Module Listened.

(** Three tracks, played at 23h, 2h and 15h; the hour is read off the
    text of the time. *)
Definition track (at_ : string) : Spotify.Track :=
  {| Spotify.track_id := Some "t1";
     Spotify.name := Some "Song";
     Spotify.artist := Some "Artist";
     Spotify.played_at := Some at_;
     Spotify.duration_ms := Some 200000%Z |}.

Definition tracks (limit : Z) : list Spotify.Track :=
  [ track "23:10"; track "02:30"; track "15:00" ].

Definition hour_of (t : Spotify.Track) : result Z :=
  match Spotify.played_at t with
  | Some at_ =>
      if String.prefix "23" at_ then Ok 23%Z
      else if String.prefix "02" at_ then Ok 2%Z
      else if String.prefix "15" at_ then Ok 15%Z
      else Raise (Exception "ValueError")
  | None => Raise (Exception "AttributeError")
  end.

End Listened.

(** * Properties *)

(** ** Numbers *)

Section Numbers.

Lemma ltb_lt (x y : Q) : ltb x y = true <-> x < y.
Proof.
  unfold ltb. rewrite Qlt_alt.
  destruct (Qcompare x y); split; congruence.
Qed.

Lemma leb_le (x y : Q) : leb x y = true <-> x <= y.
Proof.
  unfold leb. rewrite Qle_alt.
  destruct (Qcompare x y); split; congruence.
Qed.

Lemma gtb_gt (x y : Q) : gtb x y = true <-> y < x.
Proof. apply ltb_lt. Qed.

Lemma ltb_ge (x y : Q) : ltb x y = false <-> y <= x.
Proof.
  rewrite <- not_true_iff_false, ltb_lt. split.
  - apply Qnot_lt_le.
  - apply Qle_not_lt.
Qed.

Lemma leb_gt (x y : Q) : leb x y = false <-> y < x.
Proof.
  rewrite <- not_true_iff_false, leb_le. split.
  - apply Qnot_le_lt.
  - apply Qlt_not_le.
Qed.

(** [round] picks the floor or its successor. *)
Lemma round_cases (x : Q) :
  (round x = Qfloor x /\ x - inject_Z (Qfloor x) <= 1 # 2)
  \/ (round x = (Qfloor x + 1)%Z /\ 1 # 2 <= x - inject_Z (Qfloor x)).
Proof.
  unfold round.
  destruct (Qcompare (x - inject_Z (Qfloor x)) (1 # 2)) eqn:E.
  - apply Qeq_alt in E.
    destruct (Z.even (Qfloor x)); [left | right]; split; auto; rewrite E;
      apply Qle_refl.
  - apply Qlt_alt in E. left. split; auto. apply Qlt_le_weak, E.
  - apply Qgt_alt in E. right. split; auto. apply Qlt_le_weak, E.
Qed.





End Numbers.

(** ** Strings *)

Section Strings.

Lemma prefix_nil (s : string) : String.prefix EmptyString s = true.
Proof. destruct s; reflexivity. Qed.

Lemma prefix_append (s t : string) : String.prefix s (s +:+ t) = true.
Proof.
  induction s as [| a s IH]; [apply prefix_nil |].
  change (String a s +:+ t) with (String a (s +:+ t)). simpl.
  destruct (ascii_dec a a); [exact IH | contradiction].
Qed.

Lemma prefix_append_r (a b c : string) :
  String.prefix a b = true -> String.prefix a (b +:+ c) = true.
Proof.
  revert a. induction b as [| x b IH]; intros a H.
  - destruct a; [apply prefix_nil | discriminate].
  - destruct a as [| y a]; [reflexivity |].
    change (String x b +:+ c) with (String x (b +:+ c)). simpl in *.
    destruct (ascii_dec y x); [apply IH, H | discriminate].
Qed.

End Strings.

(** ** Level classification *)

Section Levels.

Import RiskCalculator.

Lemma leb_inject_Z (a b : Z) : leb (inject_Z a) (inject_Z b) = (a <=? b)%Z.
Proof.
  unfold leb, Qcompare, Z.leb. simpl. now rewrite !Z.mul_1_r.
Qed.

(** On integer scores the four ranges leave no gap and do not overlap. *)
Lemma get_risk_level_integer (n : Z) :
  get_risk_level (inject_Z n) =
    if ((0 <=? n) && (n <=? 25))%Z then "low"
    else if ((26 <=? n) && (n <=? 50))%Z then "mild"
    else if ((51 <=? n) && (n <=? 75))%Z then "moderate"
    else if ((76 <=? n) && (n <=? 100))%Z then "high"
    else "unknown".
Proof.
  unfold get_risk_level, RISK_CATEGORIES, first_level.
  change 0 with (inject_Z 0). change 25 with (inject_Z 25).
  change 26 with (inject_Z 26). change 50 with (inject_Z 50).
  change 51 with (inject_Z 51). change 75 with (inject_Z 75).
  change 76 with (inject_Z 76). change 100 with (inject_Z 100).
  now rewrite !leb_inject_Z.
Qed.

Lemma get_risk_level_integer_total (n : Z) :
  (0 <= n <= 100)%Z ->
  (get_risk_level (inject_Z n) = "low" /\ (n <= 25)%Z)
  \/ (get_risk_level (inject_Z n) = "mild" /\ (26 <= n <= 50)%Z)
  \/ (get_risk_level (inject_Z n) = "moderate" /\ (51 <= n <= 75)%Z)
  \/ (get_risk_level (inject_Z n) = "high" /\ (76 <= n)%Z).
Proof.
  intros H. rewrite get_risk_level_integer.
  destruct (Z.leb_spec 0 n); [| lia].
  destruct (Z.leb_spec n 25); simpl; [left; split; [reflexivity | lia] |].
  destruct (Z.leb_spec 26 n); [| lia].
  destruct (Z.leb_spec n 50); simpl; [right; left; split; [reflexivity | lia] |].
  destruct (Z.leb_spec 51 n); [| lia].
  destruct (Z.leb_spec n 75); simpl;
    [right; right; left; split; [reflexivity | lia] |].
  destruct (Z.leb_spec 76 n); [| lia].
  destruct (Z.leb_spec n 100); simpl; [| lia].
  right; right; right; split; [reflexivity | lia].
Qed.

Lemma get_risk_level_boundaries :
  get_risk_level 0 = "low" /\ get_risk_level 25 = "low"
  /\ get_risk_level 26 = "mild" /\ get_risk_level 50 = "mild"
  /\ get_risk_level 51 = "moderate" /\ get_risk_level 75 = "moderate"
  /\ get_risk_level 76 = "high" /\ get_risk_level 100 = "high".
Proof. repeat split; reflexivity. Qed.

(** A score strictly between two ranges has no level. *)
Lemma get_risk_level_between (q : Q) :
  (25 < q /\ q < 26) \/ (50 < q /\ q < 51) \/ (75 < q /\ q < 76) ->
  get_risk_level q = "unknown".
Proof.
  intros H. unfold get_risk_level, RISK_CATEGORIES, first_level.
  assert (L : forall a b, a < b -> leb b a = false) by (intros; now apply leb_gt).
  assert (T : forall a b, a <= b -> leb a b = true) by (intros; now apply leb_le).
  destruct H as [[H1 H2] | [[H1 H2] | [H1 H2]]].
  - rewrite (L 25 q H1), (L q 26 H2), andb_false_r. simpl.
    rewrite (L q 51), (L q 76) by lra. reflexivity.
  - rewrite (L 25 q), (L 50 q H1), (L q 51 H2), !andb_false_r by lra. simpl.
    rewrite (L q 76) by lra. reflexivity.
  - rewrite (L 25 q), (L 50 q), (L 75 q H1), (L q 76 H2), !andb_false_r by lra.
    reflexivity.
Qed.

(** C1, evaluated where the code departs from it.  The composite 25.5 lies
    between the ranges of low and mild: [get_risk_level] answers "unknown",
    and [calculate_risk] reports that level (with score 26) for a calendar
    subscore of 49 and neutral listening metrics. *)
Theorem get_risk_level_gap :
  get_risk_level (51 # 2) = "unknown"
  /\ forall fmt : Format,
       exists r,
         calculate_risk fmt ∅ Scenario.between_levels_calendar None = Ok r
         /\ total_score (factors r) == 51 # 2
         /\ level r = "unknown"
         /\ score r = 26%Z.
Proof.
  split; [reflexivity |].
  intros fmt. eexists. split; [vm_compute; reflexivity |].
  repeat split.
Qed.

End Levels.

(** ** Subscores *)

Section Subscores.

Import RiskCalculator.




(** C2, evaluated where the code departs from it.  No term is floored at 0:
    twice as many events as the baseline give the calendar subscore -66.67,
    and a late-night percentage of -100 gives the listening subscore -50,
    both below the subscore 0 of the neutral metrics. *)
Theorem subscores_not_floored :
  calculate_calendar_score Scenario.sociable_calendar == - (6667 # 100)
  /\ calculate_calendar_score Scenario.sociable_calendar < 0
  /\ calculate_spotify_score Scenario.negative_late_night == - 50
  /\ calculate_spotify_score Scenario.negative_late_night < 0
  /\ calculate_calendar_score Detection.DEFAULT_CALENDAR_METRICS == 0
  /\ calculate_spotify_score Detection.DEFAULT_SPOTIFY_METRICS == 0.
Proof. repeat split. Qed.

End Subscores.

(** ** The explanation list *)

Section ExplanationProperties.

Import RiskCalculator.

Variable fmt : Format.

(** The code against the specification's wording: on every input the code
    either raises at the decline percentage (trigger 5 with a zero baseline)
    or returns the list the seven ordered candidates give. *)
Lemma generate_risk_explanation_refines
    (spotify_metrics calendar_metrics : gmap string Q) (f : Factors) :
  generate_risk_explanation fmt spotify_metrics calendar_metrics f =
    if Spec.decline_defined calendar_metrics
    then Ok (Spec.spec_explanation fmt spotify_metrics calendar_metrics)
    else Raise ZeroDivisionError.
Proof.
  unfold generate_risk_explanation, Spec.decline_defined, Spec.spec_explanation,
    Spec.triggered, Spec.candidates, Spec.events_trigger, div.
  cbv zeta.
  destruct (ltb (get calendar_metrics "current_social_events" 8)
                (get calendar_metrics "baseline_social_events" 8));
    [destruct (Qeq_bool (get calendar_metrics "baseline_social_events" 8) 0) |];
    cbn [andb negb mbind result_bind rbind mret result_ret];
    try reflexivity;
    destruct (gtb _ (_ * _)), (gtb _ 40), (gtb (_ - _) _), (gtb _ 30),
      (gtb _ 0), (ltb _ (_ * _)); reflexivity.
Qed.

Lemma spec_explanation_nonempty (s c : gmap string Q) :
  Spec.spec_explanation fmt s c <> [].
Proof.
  unfold Spec.spec_explanation.
  destruct (Spec.triggered fmt s c); discriminate.
Qed.

(** Whenever a list is returned it is not empty. *)
Lemma generate_risk_explanation_nonempty
    (s c : gmap string Q) (f : Factors) (l : list string) :
  generate_risk_explanation fmt s c f = Ok l -> l <> [].
Proof.
  rewrite generate_risk_explanation_refines.
  destruct (Spec.decline_defined c); [| discriminate].
  intros [= <-]. apply spec_explanation_nonempty.
Qed.

(** When no trigger holds the list is the neutral statement alone. *)
Lemma generate_risk_explanation_neutral
    (s c : gmap string Q) (f : Factors) :
  Forall (fun cand => fst cand = false) (Spec.candidates fmt s c) ->
  generate_risk_explanation fmt s c f = Ok [NO_PATTERNS].
Proof.
  intros H. rewrite generate_risk_explanation_refines.
  unfold Spec.decline_defined, Spec.spec_explanation, Spec.triggered.
  assert (E : Spec.events_trigger c = false).
  { unfold Spec.candidates in H.
    repeat (apply Forall_cons_iff in H; destruct H as [? H]). assumption. }
  rewrite E. cbn [andb negb].
  replace (List.filter fst (Spec.candidates fmt s c)) with (@nil (bool * string));
    [reflexivity |].
  symmetry. induction H as [| [b t] rest Hb _ IH]; [reflexivity |].
  cbn in *. rewrite Hb. exact IH.
Qed.

End ExplanationProperties.

(** C6, evaluated where the code departs from it.  With no baseline of
    events and a negative current count, trigger 5 holds; the code raises at
    the decline percentage instead of appending a statement, so no list is
    produced, although the specification's list for this input has
    statement 5 in it. *)
Theorem generate_risk_explanation_raises :
  forall (fmt : Format) (f : RiskCalculator.Factors),
    Spec.events_trigger Scenario.zero_baseline_calendar = true
    /\ RiskCalculator.generate_risk_explanation fmt ∅
         Scenario.zero_baseline_calendar f = Raise ZeroDivisionError
    /\ length (Spec.spec_explanation fmt ∅ Scenario.zero_baseline_calendar) = 1%nat.
Proof.
  intros fmt f. split; [reflexivity |]. split.
  - rewrite generate_risk_explanation_refines. reflexivity.
  - reflexivity.
Qed.

(** ** Fusion *)

Section Fusion.

Import RiskCalculator.

Variable fmt : Format.



(** What [calculate_risk] returns, and when. *)
Lemma calculate_risk_unfold
    (s c : gmap string Q) (b : option (gmap string Q)) :
  calculate_risk fmt s c b =
    if Spec.decline_defined c then
      Ok {| score := round (Spec.clamp (Spec.composite s c b));
            level := get_risk_level (Spec.clamp (Spec.composite s c b));
            factors :=
              {| spotify_score := round2 (calculate_spotify_score s);
                 calendar_score := round2 (calculate_calendar_score c);
                 baseline_score := round2 (calculate_baseline_risk b);
                 total_score := round2 (Spec.clamp (Spec.composite s c b)) |};
            explanation := Spec.spec_explanation fmt s c |}
    else Raise ZeroDivisionError.
Proof.
  unfold calculate_risk. cbv zeta.
  rewrite generate_risk_explanation_refines.
  destruct (Spec.decline_defined c); reflexivity.
Qed.

End Fusion.

(** C3, evaluated where the code departs from it.  The calendar subscore
    guards its division by [baseline_events > 0]; the explanation generator
    divides by the baseline whenever the current count is below it.  With a
    baseline of 0 events and a current count of -1, [calculate_risk] raises
    [ZeroDivisionError] and returns no assessment. *)
Theorem calculate_risk_raises :
  forall (fmt : Format) (s : gmap string Q) (b : option (gmap string Q)),
    RiskCalculator.calculate_risk fmt s Scenario.zero_baseline_calendar b
    = Raise ZeroDivisionError.
Proof.
  intros fmt s b. rewrite calculate_risk_unfold. reflexivity.
Qed.



(** ** Detection with no data *)

(** A source falls back to its neutral dictionary when there is no token and
    when its analysis raises. *)
Lemma run_detection_metrics_default
    (fmt : Format)
    (spotify_analysis calendar_analysis :
       string -> option (gmap string Q) -> result (gmap string Q))
    (user_id : string) (calendar_token spotify_token : option string)
    (baseline_data : option (gmap string Q)) (d : Detection.Detected) :
  Detection.run_detection fmt spotify_analysis calendar_analysis user_id
    calendar_token spotify_token baseline_data = Ok d ->
  (match Detection.truthy_token spotify_token with
   | Some t => is_ok (spotify_analysis t baseline_data) = false
   | None => True
   end -> Detection.spotify_metrics d = Detection.DEFAULT_SPOTIFY_METRICS)
  /\ (match Detection.truthy_token calendar_token with
      | Some t => is_ok (calendar_analysis t baseline_data) = false
      | None => True
      end -> Detection.calendar_metrics d = Detection.DEFAULT_CALENDAR_METRICS).
Proof.
  unfold Detection.run_detection. cbv zeta.
  destruct (Detection.calculate_loneliness_risk_score _ _ _ _ _) as [a | e];
    [| discriminate].
  intros [= <-]. cbn [Detection.spotify_metrics Detection.calendar_metrics].
  split.
  - destruct (Detection.truthy_token spotify_token) as [t |]; [| reflexivity].
    destruct (spotify_analysis t baseline_data); [discriminate | reflexivity].
  - destruct (Detection.truthy_token calendar_token) as [t |]; [| reflexivity].
    destruct (calendar_analysis t baseline_data); [discriminate | reflexivity].
Qed.

(** C9.  With no token for either source and no baseline, detection runs on
    the two neutral dictionaries: both subscores are 0, the composite is
    exactly [10 * 0.1 = 1], the reported score is 1 (above 0 and at most 10)
    and the level is low.  The same holds for [calculate_risk] on two empty
    dictionaries. *)
Theorem run_detection_no_data :
  forall (fmt : Format)
         (spotify_analysis calendar_analysis :
            string -> option (gmap string Q) -> result (gmap string Q))
         (user_id : string),
    (exists d,
       Detection.run_detection fmt spotify_analysis calendar_analysis user_id
         None None None = Ok d
       /\ Detection.spotify_metrics d = Detection.DEFAULT_SPOTIFY_METRICS
       /\ Detection.calendar_metrics d = Detection.DEFAULT_CALENDAR_METRICS
       /\ Detection.score (Detection.risk_assessment d) = 1%Z
       /\ (0 < Detection.score (Detection.risk_assessment d) <= 10)%Z
       /\ Detection.level (Detection.risk_assessment d) = "low"
       /\ RiskCalculator.total_score
            (Detection.factors (Detection.risk_assessment d)) == 1)
    /\ Spec.composite Detection.DEFAULT_SPOTIFY_METRICS
         Detection.DEFAULT_CALENDAR_METRICS None
       == RiskCalculator.calculate_baseline_risk None
          * RiskCalculator.BASELINE_WEIGHT
    /\ Spec.composite Detection.DEFAULT_SPOTIFY_METRICS
         Detection.DEFAULT_CALENDAR_METRICS None == 1
    /\ (exists r,
          RiskCalculator.calculate_risk fmt ∅ ∅ None = Ok r
          /\ RiskCalculator.score r = 1%Z
          /\ RiskCalculator.level r = "low").
Proof.
  intros fmt sa ca uid. split; [| split; [| split]].
  - eexists. split; [vm_compute; reflexivity |].
    repeat split; vm_compute; first [reflexivity | discriminate].
  - reflexivity.
  - reflexivity.
  - eexists. split; [vm_compute; reflexivity |]. split; reflexivity.
Qed.

(** ** The intervention agent *)

Section AgentProperties.

Import Intervention Observe.

Variable str_of : pyval -> string.
Variable recommend_events :
  string -> string -> list string -> Z -> result (list Activity).
Variable generate_content : string -> result string.
Variable DbSession : Type.
Variable store_intervention :
  DbSession -> string -> Z -> string -> option string -> option string ->
  result string.

Local Ltac run_io :=
  unfold mbind, io_bind, mret, io_ret, lift, try_except, call in *.

(** Interests are there when the list is not empty, a location when the
    string is not empty. *)
Lemma no_interests_false (ui : option (list string)) :
  no_interests ui = false <-> exists x rest, ui = Some (x :: rest).
Proof.
  split.
  - destruct ui as [[| x rest] |]; try discriminate. eauto.
  - intros (x & rest & ->). reflexivity.
Qed.

Lemma no_location_false (ul : option string) :
  no_location ul = false <-> exists l, ul = Some l /\ l <> EmptyString.
Proof.
  split.
  - destruct ul as [l |]; [| discriminate]. cbn. intros H.
    exists l. split; [reflexivity |]. now apply String.eqb_neq.
  - intros (l & -> & H). cbn. now apply String.eqb_neq.
Qed.

(** Asking for activities: the recommender is called exactly when both
    interests and location are there, and a raise yields the empty list. *)
Lemma recommend_activities_run
    (risk_level : string) (interests : option (list string))
    (location : option string) (log : list event) :
  recommend_activities recommend_events risk_level interests location log
  = if no_interests interests || no_location location then (Ok [], log)
    else
      let anxiety_level :=
        default "medium" (lookup_item risk_level anxiety_mapping) in
      (Ok match recommend_events (default EmptyString location) anxiety_level
                  (default [] interests) 5 with
          | Ok found => found
          | Raise _ => []
          end,
       append log
         (Recommend (default EmptyString location) anxiety_level
            (default [] interests) 5)).
Proof.
  unfold recommend_activities. run_io.
  destruct (no_interests interests || no_location location); [reflexivity |].
  cbv zeta. destruct (recommend_events _ _ _ _); reflexivity.
Qed.

Lemma fetch_run
    (risk_level : string) (interests : option (list string))
    (location : option string) (log : list event) :
  (if negb (String.eqb risk_level "critical")
   then recommend_activities recommend_events risk_level interests location
   else mret []) log
  = (Ok (fetched recommend_events risk_level interests location),
     if gate risk_level interests location
     then append log (recommend_call risk_level interests location)
     else log).
Proof.
  unfold fetched, gate, recommend_call.
  destruct (String.eqb risk_level "critical"); [reflexivity |].
  cbn [negb andb]. rewrite recommend_activities_run.
  destruct (no_interests interests), (no_location location); reflexivity.
Qed.

(** A run whose prompt can be built: the payload and the calls made. *)
Lemma run_intervention_run
    (ra : RiskAssessment) (uid : option string)
    (ui : option (list string)) (ul um : option string)
    (db : option DbSession) (log : list event) (ctx : string) :
  let lvl := default "moderate" (level ra) in
  let sc := default 50%Z (score ra) in
  let acts := fetched recommend_events lvl ui ul in
  build_user_context str_of sc (default (FDict []) (factors ra)) ui ul um acts
  = Ok ctx ->
  exists iid tail,
    run_intervention str_of recommend_events generate_content DbSession
      store_intervention ra uid ui ul um db log
    = (Ok {| risk_level := lvl;
             risk_score := sc;
             message :=
               match generate_content ctx with
               | Ok text => text
               | Raise _ => generate_empathetic_message lvl sc
               end;
             activities := acts;
             action_items := action_items_for lvl;
             intervention_id := iid |},
       ((if gate lvl ui ul then append log (recommend_call lvl ui ul) else log)
        ++ Generate ctx :: tail)%list)
    /\ Forall (fun e => is_store e = true) tail.
Proof.
  intros lvl sc acts Hctx.
  unfold run_intervention.
  change (default "moderate" (level ra)) with lvl.
  change (default 50%Z (score ra)) with sc.
  cbv zeta. unfold mbind at 1. unfold io_bind at 1.
  rewrite fetch_run. fold acts.
  set (log1 := if gate lvl ui ul then _ else log).
  unfold mbind at 1. unfold io_bind at 1. unfold lift at 1.
  rewrite Hctx.
  unfold mbind at 1. unfold io_bind at 1.
  unfold try_except at 1. unfold call at 1.
  set (msg := match generate_content ctx with
              | Ok text => text
              | Raise _ => generate_empathetic_message lvl sc
              end).
  assert (Hmsg :
    (let (r, log') := (generate_content ctx, append log1 (Generate ctx)) in
     match r with
     | Ok a => (Ok a, log')
     | Raise e => (mret (generate_empathetic_message lvl sc) : io string) log'
     end) = (Ok msg, append log1 (Generate ctx))).
  { unfold msg. destruct (generate_content ctx); reflexivity. }
  cbv beta iota in Hmsg. rewrite Hmsg. clear Hmsg.
  destruct db as [db0 |]; [destruct uid as [uid0 |] |];
    [destruct (String.eqb uid0 "") | |];
    try (exists None, []; split; [reflexivity | constructor]).
  run_io. unfold append.
  destruct (store_intervention db0 uid0 sc msg _ _) as [id | e].
  - exists (Some id). eexists. split.
    + rewrite <- app_assoc. reflexivity.
    + repeat constructor.
  - exists None. eexists. split.
    + rewrite <- app_assoc. reflexivity.
    + repeat constructor.
Qed.

(** A run whose prompt cannot be built raises after the activities were
    fetched. *)
Lemma run_intervention_raise
    (ra : RiskAssessment) (uid : option string)
    (ui : option (list string)) (ul um : option string)
    (db : option DbSession) (log : list event) (e : exn) :
  let lvl := default "moderate" (level ra) in
  let sc := default 50%Z (score ra) in
  build_user_context str_of sc (default (FDict []) (factors ra)) ui ul um
    (fetched recommend_events lvl ui ul) = Raise e ->
  run_intervention str_of recommend_events generate_content DbSession
    store_intervention ra uid ui ul um db log
  = (Raise e,
     if gate lvl ui ul then append log (recommend_call lvl ui ul) else log).
Proof.
  intros lvl sc Hctx.
  unfold run_intervention.
  change (default "moderate" (level ra)) with lvl.
  change (default 50%Z (score ra)) with sc.
  cbv zeta. unfold mbind at 1. unfold io_bind at 1.
  rewrite fetch_run.
  unfold mbind at 1. unfold io_bind at 1. unfold lift at 1.
  rewrite Hctx. reflexivity.
Qed.

(** The recommender is called exactly when the gate holds. *)
Lemma recommender_called_app (l1 l2 : list event) :
  recommender_called (l1 ++ l2)%list
  = recommender_called l1 || recommender_called l2.
Proof. unfold recommender_called. apply existsb_app. Qed.

Lemma recommender_called_stores (tail : list event) :
  Forall (fun e => is_store e = true) tail -> recommender_called tail = false.
Proof.
  unfold recommender_called. induction 1 as [| e tail He _ IH]; [reflexivity |].
  cbn. rewrite IH. destruct e; cbn in *; congruence.
Qed.

Lemma prompts_app (l1 l2 : list event) :
  prompts (l1 ++ l2)%list = (prompts l1 ++ prompts l2)%list.
Proof.
  induction l1 as [| e l1 IH]; [reflexivity |].
  destruct e; cbn; rewrite IH; reflexivity.
Qed.

Lemma prompts_stores (tail : list event) :
  Forall (fun e => is_store e = true) tail -> prompts tail = [].
Proof.
  induction 1 as [| e tail He _ IH]; [reflexivity |].
  destruct e; cbn in *; congruence.
Qed.

(** The prompt of a score of 76 or more is the crisis template, whatever the
    factors. *)
Lemma build_user_context_crisis
    (sc : Z) (f : factors_value) (ui : option (list string))
    (ul um : option string) (acts : list Activity) :
  (76 <= sc)%Z ->
  exists ctx,
    build_user_context str_of sc f ui ul um acts = Ok ctx
    /\ ctx = Prompts.format_crisis_prompt sc
               match f with
               | FDict items => map (item_line str_of) items
               | FOther v => [str_of v]
               end
               (str_or um "User is checking in")
    /\ is_crisis_prompt ctx = true
    /\ is_standard_prompt ctx = false.
Proof.
  intros H. unfold build_user_context. cbv zeta.
  destruct (Z.leb_spec 76 sc); [| lia].
  eexists. split; [reflexivity |]. split; [reflexivity |].
  split; reflexivity.
Qed.

(** The prompt of a score below 76 is the standard template followed by the
    additional context, provided the contacts can be joined. *)
Lemma build_user_context_standard
    (sc : Z) (f : factors_value) (ui : option (list string))
    (ul um : option string) (acts : list Activity) :
  (sc < 76)%Z ->
  contacts_typed f = true ->
  exists ctx friends days explanation,
    build_user_context str_of sc f ui ul um acts = Ok ctx
    /\ String.prefix
         (Prompts.INTERVENTION_PROMPT (pretty sc) explanation
            (str_or um "User is checking in") friends days) ctx = true
    /\ is_standard_prompt ctx = true
    /\ is_crisis_prompt ctx = false.
Proof.
  intros Hsc Htyped. unfold build_user_context. cbv zeta.
  destruct (Z.leb_spec 76 sc); [lia |].
  unfold Prompts.format_intervention_prompt.
  set (v := match f with
            | FDict items =>
                default (PList []) (lookup_item "recurring_contacts" items)
            | FOther _ => PList []
            end).
  assert (Hv : exists friends,
             (if truthy v then join_value ", " v
              else mret "No recurring contacts identified") = Ok friends).
  { subst v. unfold contacts_typed in Htyped.
    destruct f as [items | w]; [| eexists; reflexivity].
    destruct (lookup_item "recurring_contacts" items) as [w |];
      [| eexists; reflexivity].
    destruct w as [q | t | l |]; cbn in *.
    - rewrite Htyped. eexists; reflexivity.
    - destruct (negb (String.eqb t EmptyString)); eexists; reflexivity.
    - destruct l; eexists; reflexivity.
    - eexists; reflexivity. }
  destruct Hv as [friends ->].
  cbn [mbind result_bind rbind mret result_ret].
  do 4 eexists. split; [reflexivity |]. split; [| split].
  - do 3 apply prefix_append_r. apply prefix_append.
  - unfold is_standard_prompt. do 4 apply prefix_append_r. reflexivity.
  - reflexivity.
Qed.

Lemma build_user_context_total
    (sc : Z) (f : factors_value) (ui : option (list string))
    (ul um : option string) (acts : list Activity) :
  (76 <=? sc)%Z || contacts_typed f = true ->
  exists ctx,
    build_user_context str_of sc f ui ul um acts = Ok ctx
    /\ is_crisis_prompt ctx = (76 <=? sc)%Z
    /\ is_standard_prompt ctx = negb (76 <=? sc)%Z.
Proof.
  intros H. destruct (Z.leb_spec 76 sc) as [Hsc | Hsc].
  - destruct (build_user_context_crisis sc f ui ul um acts Hsc)
      as (ctx & E & _ & C & S).
    exists ctx. auto.
  - cbn in H.
    destruct (build_user_context_standard sc f ui ul um acts Hsc H)
      as (ctx & ? & ? & ? & E & _ & S & C).
    exists ctx. auto.
Qed.

(** The calls and the outcome of any run, with or without a prompt. *)
Lemma run_intervention_log
    (ra : RiskAssessment) (uid : option string)
    (ui : option (list string)) (ul um : option string)
    (db : option DbSession) :
  let lvl := default "moderate" (level ra) in
  let sc := default 50%Z (score ra) in
  let out :=
    run_intervention str_of recommend_events generate_content DbSession
      store_intervention ra uid ui ul um db [] in
  recommender_called (snd out) = gate lvl ui ul
  /\ (forall ctx, In ctx (prompts (snd out)) ->
        build_user_context str_of sc (default (FDict []) (factors ra)) ui ul um
          (fetched recommend_events lvl ui ul) = Ok ctx
        /\ prompts (snd out) = [ctx]).
Proof.
  intros lvl sc out. subst out lvl sc.
  assert (Hgate : forall l, recommender_called
            (if gate l ui ul then append [] (recommend_call l ui ul) else [])
          = gate l ui ul) by (intros l; destruct (gate l ui ul); reflexivity).
  assert (Hprompts : forall l, prompts
            (if gate l ui ul then append [] (recommend_call l ui ul) else [])
          = []) by (intros l; destruct (gate l ui ul); reflexivity).
  destruct (build_user_context str_of (default 50%Z (score ra))
              (default (FDict []) (factors ra)) ui ul um
              (fetched recommend_events (default "moderate" (level ra)) ui ul))
    as [ctx | e] eqn:Hctx.
  - destruct (run_intervention_run ra uid ui ul um db [] ctx Hctx)
      as (iid & tail & -> & Htail).
    cbn [snd]. split.
    + rewrite recommender_called_app, Hgate.
      change (Generate ctx :: tail) with ([Generate ctx] ++ tail)%list.
      rewrite recommender_called_app, (recommender_called_stores tail Htail).
      cbn. now rewrite !orb_false_r.
    + rewrite prompts_app, Hprompts. cbn [prompts app].
      rewrite (prompts_stores tail Htail).
      intros c [<- | []]. auto.
  - rewrite (run_intervention_raise ra uid ui ul um db [] e Hctx).
    cbn [snd]. split; [apply Hgate |].
    rewrite Hprompts. intros c [].
Qed.

(** C7.  The recommender is called exactly when the level is not critical
    and interests and location are both there (a non-empty list and a
    non-empty string).  When one of them is missing, or the call that the
    run makes to the recommender raises, the run still returns a payload
    (the contacts being joinable, or the score at least 76): its activities
    are the empty list, its action items are those of the level, and its
    message is the model's answer to the one prompt or, if the model raises,
    the template. *)
Theorem recommender_gate :
  forall (ra : RiskAssessment) (uid : option string)
         (ui : option (list string)) (ul um : option string)
         (db : option DbSession),
    let lvl := default "moderate" (level ra) in
    let sc := default 50%Z (score ra) in
    let out :=
      run_intervention str_of recommend_events generate_content DbSession
        store_intervention ra uid ui ul um db [] in
    (recommender_called (snd out) = true
     <-> lvl <> "critical" /\ no_interests ui = false /\ no_location ul = false)
    /\ ((76 <=? sc)%Z || contacts_typed (default (FDict []) (factors ra)) = true ->
        no_interests ui = true \/ no_location ul = true
        \/ is_ok (recommend_events (default EmptyString ul)
                    (default "medium" (lookup_item lvl anxiety_mapping))
                    (default [] ui) 5%Z) = false ->
        exists p ctx,
          fst out = Ok p
          /\ activities p = []
          /\ action_items p = action_items_for lvl
          /\ prompts (snd out) = [ctx]
          /\ message p =
               match generate_content ctx with
               | Ok text => text
               | Raise _ => generate_empathetic_message lvl sc
               end).
Proof.
  intros ra uid ui ul um db lvl sc out.
  destruct (run_intervention_log ra uid ui ul um db) as [Hcalled Hprompts].
  fold lvl sc out in Hcalled, Hprompts.
  split.
  - rewrite Hcalled. unfold gate.
    rewrite !andb_true_iff, !negb_true_iff, String.eqb_neq. tauto.
  - intros Htyped Hnone.
    assert (Hacts : fetched recommend_events lvl ui ul = []).
    { unfold fetched, gate.
      destruct (String.eqb lvl "critical"); [reflexivity |].
      destruct (no_interests ui) eqn:Ei; [reflexivity |].
      destruct (no_location ul) eqn:El; [reflexivity |].
      cbn [negb andb].
      destruct Hnone as [? | [? | Hr]]; try discriminate.
      destruct (recommend_events _ _ _ _); [discriminate | reflexivity]. }
    destruct (build_user_context_total sc (default (FDict []) (factors ra))
                ui ul um (fetched recommend_events lvl ui ul) Htyped)
      as (ctx & Hctx & _).
    destruct (run_intervention_run ra uid ui ul um db [] ctx Hctx)
      as (iid & tail & Hrun & Htail).
    fold lvl sc out in Hrun.
    eexists. exists ctx. rewrite Hrun. cbn [fst snd activities action_items message].
    split; [reflexivity |]. split; [exact Hacts |]. split; [reflexivity |].
    split; [| reflexivity].
    rewrite prompts_app. cbn [prompts].
    rewrite (prompts_stores tail Htail).
    destruct (gate lvl ui ul); reflexivity.
Qed.

(** C8.  The one prompt of a run is the crisis template exactly when the
    score is at least 76, and the standard template otherwise; the level
    label, which is any string here, plays no part.  A run with a score of
    at least 76 always reaches the model; one below 76 does when the
    contacts can be joined. *)
Theorem crisis_prompt_by_score :
  forall (ra : RiskAssessment) (uid : option string)
         (ui : option (list string)) (ul um : option string)
         (db : option DbSession),
    let sc := default 50%Z (score ra) in
    let out :=
      run_intervention str_of recommend_events generate_content DbSession
        store_intervention ra uid ui ul um db [] in
    (forall ctx, In ctx (prompts (snd out)) ->
       (is_crisis_prompt ctx = true <-> (76 <= sc)%Z)
       /\ (is_standard_prompt ctx = true <-> (sc < 76)%Z))
    /\ ((76 <= sc)%Z ->
        exists ctx,
          prompts (snd out) = [ctx]
          /\ ctx = Prompts.format_crisis_prompt sc
                     match default (FDict []) (factors ra) with
                     | FDict items => map (item_line str_of) items
                     | FOther v => [str_of v]
                     end
                     (str_or um "User is checking in")
          /\ is_crisis_prompt ctx = true
          /\ is_ok (fst out) = true)
    /\ ((sc < 76)%Z ->
        contacts_typed (default (FDict []) (factors ra)) = true ->
        exists ctx,
          prompts (snd out) = [ctx]
          /\ is_standard_prompt ctx = true
          /\ is_crisis_prompt ctx = false
          /\ is_ok (fst out) = true).
Proof.
  intros ra uid ui ul um db sc out.
  set (lvl := default "moderate" (level ra)).
  set (f := default (FDict []) (factors ra)).
  destruct (run_intervention_log ra uid ui ul um db) as [_ Hprompts].
  fold lvl sc out f in Hprompts.
  assert (Hrun : forall ctx,
            build_user_context str_of sc f ui ul um
              (fetched recommend_events lvl ui ul) = Ok ctx ->
            prompts (snd out) = [ctx] /\ is_ok (fst out) = true).
  { intros ctx Hctx.
    destruct (run_intervention_run ra uid ui ul um db [] ctx Hctx)
      as (iid & tail & Hrun & Htail).
    fold lvl sc out in Hrun. rewrite Hrun. cbn [fst snd is_ok].
    split; [| reflexivity].
    rewrite prompts_app. cbn [prompts]. rewrite (prompts_stores tail Htail).
    destruct (gate lvl ui ul); reflexivity. }
  split; [| split].
  - intros ctx Hin. destruct (Hprompts ctx Hin) as [Hctx _].
    destruct (Z.leb_spec 76 sc) as [Hsc | Hsc].
    + destruct (build_user_context_crisis sc f ui ul um
                  (fetched recommend_events lvl ui ul) Hsc)
        as (c & E & _ & C & S).
      rewrite Hctx in E. injection E as <-. rewrite C, S.
      split; split; try tauto; try discriminate; lia.
    + assert (Htyped : contacts_typed f = true).
      { unfold build_user_context, Prompts.format_intervention_prompt in Hctx.
        cbv zeta in Hctx.
        destruct (Z.leb_spec 76 sc); [lia |].
        unfold contacts_typed. destruct f as [items | w]; [| reflexivity].
        destruct (lookup_item "recurring_contacts" items) as [w |];
          [| reflexivity].
        destruct w as [q | t | l |]; try reflexivity.
        cbn in Hctx |- *. destruct (Qeq_bool q 0); [reflexivity | discriminate]. }
      destruct (build_user_context_standard sc f ui ul um
                  (fetched recommend_events lvl ui ul) Hsc Htyped)
        as (c & ? & ? & ? & E & _ & S & C).
      rewrite Hctx in E. injection E as <-. rewrite C, S.
      split; split; try tauto; try discriminate; lia.
  - intros Hsc.
    destruct (build_user_context_crisis sc f ui ul um
                (fetched recommend_events lvl ui ul) Hsc)
      as (ctx & E & Hshape & C & _).
    destruct (Hrun ctx E) as [Hp Hok].
    exists ctx. auto.
  - intros Hsc Htyped.
    destruct (build_user_context_standard sc f ui ul um
                (fetched recommend_events lvl ui ul) Hsc Htyped)
      as (ctx & ? & ? & ? & E & _ & S & C).
    destruct (Hrun ctx E) as [Hp Hok].
    exists ctx. auto.
Qed.

(** A label outside the policy's five has no action items and no message of
    its own. *)
Lemma unlisted_level
    (lvl : string) (sc : Z) :
  ~ In lvl policy_levels ->
  action_items_for lvl = []
  /\ generate_empathetic_message lvl sc = strip moderate_message.
Proof.
  unfold policy_levels. intros H.
  assert (H1 : lvl <> "low") by (intros ->; apply H; cbn; tauto).
  assert (H2 : lvl <> "moderate") by (intros ->; apply H; cbn; tauto).
  assert (H3 : lvl <> "elevated") by (intros ->; apply H; cbn; tauto).
  assert (H4 : lvl <> "high") by (intros ->; apply H; cbn; tauto).
  assert (H5 : lvl <> "critical") by (intros ->; apply H; cbn; tauto).
  split.
  - unfold action_items_for.
    apply String.eqb_neq in H1, H2, H3, H4, H5.
    now rewrite H1, H2, H3, H4, H5.
  - unfold generate_empathetic_message. f_equal.
    assert (E : forall k : string, k <> lvl -> String.eqb k lvl = false)
      by (intros k; apply String.eqb_neq).
    unfold messages, lookup_item.
    rewrite !E by congruence. reflexivity.
Qed.

(** C10.  For a level outside low, moderate, elevated, high and critical,
    and "mild" is such a level that the classifier gives to every score from
    26 to 50, both entry points return an empty list of action items, and
    the template message is the one of "moderate". *)
Theorem unlisted_level_policy :
  forall (ra : RiskAssessment) (uid : option string)
         (ui : option (list string)) (ul um : option string)
         (db : option DbSession),
    let lvl := default "moderate" (level ra) in
    let sc := default 50%Z (score ra) in
    let out :=
      run_intervention str_of recommend_events generate_content DbSession
        store_intervention ra uid ui ul um db [] in
    ~ In lvl policy_levels ->
    generate_empathetic_message lvl sc = generate_empathetic_message "moderate" sc
    /\ (exists st,
          fst (generate_intervention_strategy recommend_events ra ui ul [])
          = Ok st
          /\ s_action_items st = []
          /\ s_message st = generate_empathetic_message "moderate" sc)
    /\ ((76 <=? sc)%Z || contacts_typed (default (FDict []) (factors ra)) = true ->
        exists p ctx,
          fst out = Ok p
          /\ action_items p = []
          /\ prompts (snd out) = [ctx]
          /\ (is_ok (generate_content ctx) = false ->
              message p = generate_empathetic_message "moderate" sc))
    /\ ~ In "mild" policy_levels
    /\ (forall q : Q, 26 <= q -> q <= 50 ->
          RiskCalculator.get_risk_level q = "mild").
Proof.
  intros ra uid ui ul um db lvl sc out Hlvl.
  destruct (unlisted_level lvl sc Hlvl) as [Hitems Hmsg].
  assert (Hmod : generate_empathetic_message "moderate" sc = strip moderate_message)
    by reflexivity.
  split; [congruence |]. split; [| split; [| split]].
  - unfold generate_intervention_strategy. fold lvl sc. cbv zeta.
    unfold mbind at 1. unfold io_bind at 1. rewrite fetch_run.
    eexists. split; [reflexivity |].
    cbn [s_action_items s_message]. split; congruence.
  - intros Htyped.
    destruct (build_user_context_total sc (default (FDict []) (factors ra))
                ui ul um (fetched recommend_events lvl ui ul) Htyped)
      as (ctx & Hctx & _).
    destruct (run_intervention_run ra uid ui ul um db [] ctx Hctx)
      as (iid & tail & Hrun & Htail).
    fold lvl sc out in Hrun.
    eexists. exists ctx. rewrite Hrun. cbn [fst snd action_items message].
    split; [reflexivity |]. split; [exact Hitems |]. split.
    + rewrite prompts_app. cbn [prompts]. rewrite (prompts_stores tail Htail).
      destruct (gate lvl ui ul); reflexivity.
    + destruct (generate_content ctx); cbn [is_ok];
        [discriminate | intros _; rewrite Hmod; exact Hmsg].
  - unfold policy_levels. cbn. intros [H | [H | [H | [H | [H | []]]]]];
      discriminate.
  - intros q H26 H50.
    unfold RiskCalculator.get_risk_level, RiskCalculator.RISK_CATEGORIES,
      RiskCalculator.first_level.
    assert (L : leb q 25 = false) by (apply leb_gt; lra).
    assert (T1 : leb 26 q = true) by now apply leb_le.
    assert (T2 : leb q 50 = true) by now apply leb_le.
    now rewrite L, andb_false_r, T1, T2.
Qed.

End AgentProperties.

Lemma recommender_gate_example :
  (76 <=? 40)%Z
  || Observe.contacts_typed
       (Intervention.FDict [ ("recurring_contacts", PList ["Sarah"; "Mike"]) ])
  = true
  /\ is_ok (Scenario.offline_recommender "College Station, TX" "medium"
              ["music"; "hiking"] 5) = false
  /\ exists p,
       fst (Scenario.run_offline Scenario.plain_str Scenario.mild_assessment
              Scenario.interests Scenario.location) = Ok p
       /\ Intervention.activities p = []
       /\ Intervention.action_items p = Intervention.action_items_for "mild".
Proof.
  split; [reflexivity |]. split; [reflexivity |].
  destruct (recommender_gate Scenario.plain_str Scenario.offline_recommender
              Scenario.offline_model unit Scenario.offline_store
              Scenario.mild_assessment None Scenario.interests
              Scenario.location None None)
    as [_ H].
  destruct (H eq_refl (or_intror (or_intror eq_refl)))
    as (p & ctx & Hp & Ha & Hi & _).
  exists p. auto.
Defined.

Lemma crisis_prompt_by_score_example :
  (76 <= 82)%Z
  /\ exists ctx,
       Observe.prompts
         (snd (Scenario.run_offline Scenario.plain_str Scenario.high_assessment
                 Scenario.interests Scenario.location)) = [ctx]
       /\ Observe.is_crisis_prompt ctx = true.
Proof.
  split; [lia |].
  destruct (crisis_prompt_by_score Scenario.plain_str
              Scenario.offline_recommender Scenario.offline_model unit
              Scenario.offline_store Scenario.high_assessment None
              Scenario.interests Scenario.location None None)
    as (_ & H & _).
  destruct H as (ctx & Hp & _ & Hc & _); [cbn; lia |].
  exists ctx. auto.
Defined.

Lemma unlisted_level_policy_example :
  ~ In "mild" Observe.policy_levels
  /\ exists p,
       fst (Scenario.run_offline Scenario.plain_str Scenario.mild_assessment
              Scenario.interests Scenario.location) = Ok p
       /\ Intervention.action_items p = []
       /\ Intervention.message p
          = Intervention.generate_empathetic_message "moderate" 40.
Proof.
  assert (Hmild : ~ In "mild" Observe.policy_levels).
  { cbn. intros [H | [H | [H | [H | [H | []]]]]]; discriminate. }
  split; [exact Hmild |].
  destruct (unlisted_level_policy Scenario.plain_str
              Scenario.offline_recommender Scenario.offline_model unit
              Scenario.offline_store Scenario.mild_assessment None
              Scenario.interests Scenario.location None None Hmild)
    as (_ & _ & H & _).
  destruct (H eq_refl) as (p & ctx & Hp & Hi & _ & Hm).
  exists p. split; [exact Hp |]. split; [exact Hi |].
  apply Hm. reflexivity.
Defined.

(** C4, evaluated where the code departs from it.  The severe scenario is
    scored 91 and classified "high", a label the classifier never turns into
    "critical".  The agent builds the crisis prompt for it, yet when the
    model is unreachable the message is the template of "high", which names
    no crisis resource: "988" occurs neither in the message nor in the
    action items.  Only the template of "critical" carries it. *)
Theorem severe_scenario_fallback :
  forall (fmt : Format) (str_of : pyval -> string),
    exists a p log ctx,
      Detection.calculate_loneliness_risk_score fmt "user"
        Scenario.severe_spotify Scenario.severe_calendar None = Ok a
      /\ Detection.score a = 91%Z
      /\ (76 <= Detection.score a)%Z
      /\ Detection.level a = "high"
      /\ Scenario.run_offline str_of (Scenario.assessment_of a)
           Scenario.interests Scenario.location = (Ok p, log)
      /\ Observe.prompts log = [ctx]
      /\ Observe.is_crisis_prompt ctx = true
      /\ Intervention.risk_level p = "high"
      /\ Intervention.risk_score p = 91%Z
      /\ Intervention.message p
         = Intervention.generate_empathetic_message "high" 91
      /\ contains "988" (Intervention.message p) = false
      /\ existsb (contains "988") (Intervention.action_items p) = false
      /\ contains "988" (Intervention.generate_empathetic_message "critical" 91)
         = true.
Proof.
  intros fmt str_of.
  eexists. eexists. eexists. eexists.
  split; [vm_compute; reflexivity |].
  split; [reflexivity |]. split; [cbn; lia |]. split; [reflexivity |].
  split; [vm_compute; reflexivity |].
  split; [cbn; reflexivity |].
  repeat split; vm_compute; reflexivity.
Qed.

(** The gate at work: with interests and a location the recommender is
    called once, with the anxiety level of the label, and its events are
    returned; for the label "critical" it is not called. *)
Example recommender_called_example :
  let run ra :=
    Intervention.run_intervention Scenario.plain_str Scenario.online_recommender
      Scenario.offline_model unit Scenario.offline_store ra None
      Scenario.interests Scenario.location None None [] in
  List.filter Observe.is_recommend (snd (run Scenario.high_assessment))
  = [ Intervention.Recommend "College Station, TX" "high" ["music"; "hiking"] 5 ]
  /\ (exists p, fst (run Scenario.high_assessment) = Ok p
                /\ Intervention.activities p = [Scenario.one_event])
  /\ Observe.recommender_called
       (snd (run {| Intervention.level := Some "critical";
                    Intervention.score := Some 95%Z;
                    Intervention.factors := None |})) = false.
Proof.
  cbv zeta. split; [vm_compute; reflexivity |]. split.
  - eexists. split; [vm_compute; reflexivity |]. vm_compute; reflexivity.
  - vm_compute; reflexivity.
Qed.

(** * Further properties *)

(** ** Subscores on metrics that are in range *)

Section ValidMetrics.

Import RiskCalculator.







End ValidMetrics.


(** ** The classifier on every number, and the score it goes with *)

Section Classifier.

Import RiskCalculator.

Lemma round_ge (n : Z) (x : Q) : inject_Z n <= x -> (n <= round x)%Z.
Proof.
  intros H. pose proof (Qfloor_resp_le _ _ H) as Hf. rewrite Qfloor_Z in Hf.
  destruct (round_cases x) as [[-> _] | [-> _]]; lia.
Qed.

Lemma round_le (n : Z) (x : Q) : x <= inject_Z n -> (round x <= n)%Z.
Proof.
  intros H. pose proof (Qfloor_resp_le _ _ H) as Hf. rewrite Qfloor_Z in Hf.
  destruct (round_cases x) as [[-> _] | [-> Hhalf]]; [lia |].
  assert (Hlt : inject_Z (Qfloor x) < inject_Z n) by lra.
  rewrite <- Zlt_Qlt in Hlt. lia.
Qed.

Lemma get_risk_level_in (lo hi : Q) (level : string) (q : Q) :
  In (level, (lo, hi)) RISK_CATEGORIES -> lo <= q -> q <= hi ->
  get_risk_level q = level.
Proof.
  assert (L : forall a b, a < b -> leb b a = false) by (intros; now apply leb_gt).
  assert (T : forall a b, a <= b -> leb a b = true) by (intros; now apply leb_le).
  unfold get_risk_level, RISK_CATEGORIES, first_level.
  intros [H | [H | [H | [H | []]]]] Hlo Hhi; injection H as <- <- <-.
  - now rewrite (T 0 q), (T q 25).
  - rewrite (L 25 q), andb_false_r by lra. now rewrite (T 26 q), (T q 50).
  - rewrite (L 25 q), (L 50 q), !andb_false_r by lra.
    now rewrite (T 51 q), (T q 75).
  - rewrite (L 25 q), (L 50 q), (L 75 q), !andb_false_r by lra.
    now rewrite (T 76 q), (T q 100).
Qed.

Lemma get_risk_level_outside (q : Q) :
  q < 0 \/ 100 < q -> get_risk_level q = "unknown".
Proof.
  assert (L : forall a b, a < b -> leb b a = false) by (intros; now apply leb_gt).
  unfold get_risk_level, RISK_CATEGORIES, first_level.
  intros [H | H].
  - now rewrite (L q 0), (L q 26), (L q 51), (L q 76) by lra.
  - now rewrite (L 25 q), (L 50 q), (L 75 q), (L 100 q), !andb_false_r by lra.
Qed.

(** The classifier on every number, as a case analysis. *)
Lemma get_risk_level_cases (q : Q) :
  (get_risk_level q = "low" /\ 0 <= q /\ q <= 25)
  \/ (get_risk_level q = "mild" /\ 26 <= q /\ q <= 50)
  \/ (get_risk_level q = "moderate" /\ 51 <= q /\ q <= 75)
  \/ (get_risk_level q = "high" /\ 76 <= q /\ q <= 100)
  \/ (get_risk_level q = "unknown"
      /\ (q < 0 \/ (25 < q /\ q < 26) \/ (50 < q /\ q < 51)
          \/ (75 < q /\ q < 76) \/ 100 < q)).
Proof.
  destruct (Qlt_le_dec q 0) as [H0 | H0].
  { do 4 right. split; [apply get_risk_level_outside |]; auto. }
  destruct (Qlt_le_dec 25 q) as [H25 | H25].
  2:{ left. split; [| auto].
      apply (get_risk_level_in 0 25); cbn; auto. }
  destruct (Qlt_le_dec q 26) as [H26 | H26].
  { do 4 right. split; [apply get_risk_level_between |]; auto. }
  destruct (Qlt_le_dec 50 q) as [H50 | H50].
  2:{ right; left. split; [| auto].
      apply (get_risk_level_in 26 50); cbn; auto. }
  destruct (Qlt_le_dec q 51) as [H51 | H51].
  { do 4 right. split; [apply get_risk_level_between |]; auto. }
  destruct (Qlt_le_dec 75 q) as [H75 | H75].
  2:{ do 2 right; left. split; [| auto].
      apply (get_risk_level_in 51 75); cbn; auto. }
  destruct (Qlt_le_dec q 76) as [H76 | H76].
  { do 4 right. split; [apply get_risk_level_between |]; auto 6. }
  destruct (Qlt_le_dec 100 q) as [H100 | H100].
  { do 4 right. split; [apply get_risk_level_outside |]; auto 6. }
  do 3 right; left. split; [| auto].
  apply (get_risk_level_in 76 100); cbn; auto 6.
Qed.

(** X2.  The classifier on every number, not only on integers: each of the
    four labels is returned exactly on its closed range, and the label
    unknown exactly below 0, above 100 and strictly between two ranges. *)
Theorem get_risk_level_ranges :
  forall q : Q,
    (get_risk_level q = "low" <-> 0 <= q /\ q <= 25)
    /\ (get_risk_level q = "mild" <-> 26 <= q /\ q <= 50)
    /\ (get_risk_level q = "moderate" <-> 51 <= q /\ q <= 75)
    /\ (get_risk_level q = "high" <-> 76 <= q /\ q <= 100)
    /\ (get_risk_level q = "unknown"
        <-> q < 0 \/ (25 < q /\ q < 26) \/ (50 < q /\ q < 51)
            \/ (75 < q /\ q < 76) \/ 100 < q).
Proof.
  intros q.
  destruct (get_risk_level_cases q)
    as [(E & Ha & Hb) | [(E & Ha & Hb) | [(E & Ha & Hb) | [(E & Ha & Hb)
        | (E & Hgap)]]]];
    rewrite E; (split; [| split; [| split; [| split]]]);
    (split; intros G);
    first [ discriminate G | reflexivity | assumption | split; assumption
          | exfalso; clear E; intuition lra ].
Qed.

Variable fmt : Format.




End Classifier.




(** ** The calendar block of the detection pipeline *)

Section CalendarWiring.

Import RiskCalculator.

Variable fmt : Format.
Variable spotify_analysis :
  string -> option (gmap string Q) -> result (gmap string Q).
Variable connect : string -> result unit.
Variable Patterns : Type.
Variable analyze_social_patterns : string -> Z -> Q -> result Patterns.
Variable build_metrics :
  string -> option (gmap string Q) -> Patterns -> result (gmap string Q).




End CalendarWiring.

(** ** Text search in concatenations *)

Section Search.

Lemma contains_prefix (needle hay : string) :
  String.prefix needle hay = true -> contains needle hay = true.
Proof. intros H. destruct hay; cbn [contains]; rewrite H; reflexivity. Qed.

Lemma contains_append_r (needle a b : string) :
  contains needle b = true -> contains needle (a +:+ b) = true.
Proof.
  intros H. induction a as [| c a IH]; [exact H |].
  change (String c a +:+ b) with (String c (a +:+ b)).
  cbn [contains]. rewrite IH. apply orb_true_r.
Qed.

Lemma contains_append_l (needle a b : string) :
  contains needle a = true -> contains needle (a +:+ b) = true.
Proof.
  induction a as [| c a IH]; intros H.
  - cbn [contains] in H. rewrite orb_false_r in H.
    apply contains_prefix. now apply (prefix_append_r needle EmptyString b).
  - change (String c a +:+ b) with (String c (a +:+ b)).
    cbn [contains] in *. apply orb_true_iff in H. apply orb_true_iff.
    destruct H as [H | H].
    + left. now apply (prefix_append_r needle (String c a) b).
    + right. now apply IH.
Qed.

End Search.

(** ** The agent: persistence, crisis resources, and its callers *)

Section AgentExtras.

Import Intervention Observe.

Variable str_of : pyval -> string.
Variable recommend_events :
  string -> string -> list string -> Z -> result (list Activity).
Variable generate_content : string -> result string.
Variable DbSession : Type.
Variable store_intervention :
  DbSession -> string -> Z -> string -> option string -> option string ->
  result string.

(** A run whose prompt can be built, in full: the payload, the stored row
    and every call made. *)
Lemma run_intervention_exact
    (ra : RiskAssessment) (uid : option string)
    (ui : option (list string)) (ul um : option string)
    (db : option DbSession) (log : list event) (ctx : string) :
  let lvl := default "moderate" (level ra) in
  let sc := default 50%Z (score ra) in
  let acts := fetched recommend_events lvl ui ul in
  let msg :=
    match generate_content ctx with
    | Ok text => text
    | Raise _ => generate_empathetic_message lvl sc
    end in
  build_user_context str_of sc (default (FDict []) (factors ra)) ui ul um acts
  = Ok ctx ->
  run_intervention str_of recommend_events generate_content DbSession
    store_intervention ra uid ui ul um db log
  = (Ok {| risk_level := lvl;
           risk_score := sc;
           message := msg;
           activities := acts;
           action_items := action_items_for lvl;
           intervention_id :=
             match Tracking.storing db uid with
             | Some (d, u) =>
                 match store_intervention d u sc msg (Tracking.first_id acts)
                         (Tracking.first_source acts) with
                 | Ok id => Some id
                 | Raise _ => None
                 end
             | None => None
             end |},
     ((if gate lvl ui ul then append log (recommend_call lvl ui ul) else log)
      ++ Generate ctx
         :: match Tracking.storing db uid with
            | Some (d, u) =>
                [ Store u sc msg (Tracking.first_id acts)
                    (Tracking.first_source acts) ]
            | None => []
            end)%list).
Proof.
  intros lvl sc acts msg Hctx.
  unfold run_intervention.
  change (default "moderate" (level ra)) with lvl.
  change (default 50%Z (score ra)) with sc.
  cbv zeta. unfold mbind at 1. unfold io_bind at 1.
  rewrite fetch_run. fold acts.
  set (log1 := if gate lvl ui ul then _ else log).
  unfold mbind at 1. unfold io_bind at 1. unfold lift at 1.
  rewrite Hctx.
  unfold mbind at 1. unfold io_bind at 1.
  unfold try_except at 1. unfold call at 1.
  assert (Hmsg :
    (let (r, log') := (generate_content ctx, append log1 (Generate ctx)) in
     match r with
     | Ok a => (Ok a, log')
     | Raise e => (mret (generate_empathetic_message lvl sc) : io string) log'
     end) = (Ok msg, append log1 (Generate ctx))).
  { unfold msg. destruct (generate_content ctx); reflexivity. }
  cbv beta iota in Hmsg. rewrite Hmsg. clear Hmsg.
  unfold Tracking.storing, Tracking.first_id, Tracking.first_source.
  destruct db as [db0 |]; [destruct uid as [uid0 |] |];
    [destruct (String.eqb uid0 "") | |];
    try reflexivity.
  unfold mbind, io_bind, mret, io_ret, try_except, call, append.
  destruct (store_intervention db0 uid0 sc msg _ _) as [id | e];
    rewrite <- app_assoc; reflexivity.
Qed.

Lemma stores_app (l1 l2 : list event) :
  Tracking.stores (l1 ++ l2)%list
  = (Tracking.stores l1 ++ Tracking.stores l2)%list.
Proof. unfold Tracking.stores. apply List.filter_app. Qed.

(** X7.  Persistence: when the prompt can be built the run returns, and the
    store is called exactly when there are a session and a non-empty user
    id, once, with the score and the message that are returned and the id
    and source of the first activity.  The id of the stored row is returned;
    a failing store leaves it empty and does not fail the run. *)
Theorem storage_step :
  forall (ra : RiskAssessment) (uid : option string)
         (ui : option (list string)) (ul um : option string)
         (db : option DbSession),
    let sc := default 50%Z (score ra) in
    let out :=
      run_intervention str_of recommend_events generate_content DbSession
        store_intervention ra uid ui ul um db [] in
    (76 <=? sc)%Z || contacts_typed (default (FDict []) (factors ra)) = true ->
    exists p,
      fst out = Ok p
      /\ match Tracking.storing db uid with
         | None =>
             Tracking.stores (snd out) = [] /\ intervention_id p = None
         | Some (d, u) =>
             let event_id := Tracking.first_id (activities p) in
             let event_source := Tracking.first_source (activities p) in
             Tracking.stores (snd out)
             = [ Store u (risk_score p) (message p) event_id event_source ]
             /\ intervention_id p
                = match store_intervention d u (risk_score p) (message p)
                          event_id event_source with
                  | Ok id => Some id
                  | Raise _ => None
                  end
         end.
Proof.
  intros ra uid ui ul um db sc out Htot.
  destruct (build_user_context_total str_of sc (default (FDict []) (factors ra))
              ui ul um
              (fetched recommend_events (default "moderate" (level ra)) ui ul)
              Htot) as (ctx & Hctx & _).
  pose proof (run_intervention_exact ra uid ui ul um db [] ctx Hctx) as Hrun.
  cbv zeta in Hrun. unfold out. rewrite Hrun. clear Hrun.
  eexists. split; [reflexivity |].
  cbn [fst snd intervention_id activities risk_score message].
  assert (Hpre : forall l : list event,
            Tracking.stores
              ((if gate (default "moderate" (level ra)) ui ul
                then append [] (recommend_call (default "moderate" (level ra)) ui ul)
                else []) ++ Generate ctx :: l)%list
            = Tracking.stores l).
  { intros l. rewrite stores_app.
    destruct (gate _ ui ul); reflexivity. }
  rewrite Hpre.
  destruct (Tracking.storing db uid) as [[d u] |]; split; reflexivity.
Qed.

(** The three crisis resources named by the crisis prompt. *)
Lemma format_crisis_prompt_resources
    (sc : Z) (risk_factors : list string) (user_message : string) :
  let ctx := Prompts.format_crisis_prompt sc risk_factors user_message in
  contains "988" ctx = true
  /\ contains "741741" ctx = true
  /\ contains "(979) 845-4427" ctx = true.
Proof.
  cbv zeta. unfold Prompts.format_crisis_prompt, Prompts.CRISIS_ESCALATION_PROMPT.
  repeat split; do 8 apply contains_append_r; vm_compute; reflexivity.
Qed.

(** X8.  From a score of 76 on, the one prompt handed to the model names
    the three crisis resources (988, the text line 741741 and the campus
    counselling number), whatever the level, the factors and the message of
    the user. *)
Theorem crisis_prompt_resources :
  forall (ra : RiskAssessment) (uid : option string)
         (ui : option (list string)) (ul um : option string)
         (db : option DbSession),
    let out :=
      run_intervention str_of recommend_events generate_content DbSession
        store_intervention ra uid ui ul um db [] in
    (76 <= default 50 (score ra))%Z ->
    exists ctx,
      prompts (snd out) = [ctx]
      /\ contains "988" ctx = true
      /\ contains "741741" ctx = true
      /\ contains "(979) 845-4427" ctx = true.
Proof.
  intros ra uid ui ul um db out Hsc.
  destruct (build_user_context_crisis str_of (default 50%Z (score ra))
              (default (FDict []) (factors ra)) ui ul um
              (fetched recommend_events (default "moderate" (level ra)) ui ul)
              Hsc) as (ctx & Hctx & Heq & _).
  pose proof (run_intervention_exact ra uid ui ul um db [] ctx Hctx) as Hrun.
  cbv zeta in Hrun. exists ctx. split.
  - unfold out. rewrite Hrun. cbn [snd]. rewrite prompts_app.
    assert (Hpre : prompts
              (if gate (default "moderate" (level ra)) ui ul
               then append [] (recommend_call (default "moderate" (level ra)) ui ul)
               else []) = []) by (destruct (gate _ ui ul); reflexivity).
    rewrite Hpre. cbn [prompts app].
    destruct (Tracking.storing db uid) as [[d u] |]; reflexivity.
  - rewrite Heq. apply format_crisis_prompt_resources.
Qed.

End AgentExtras.

Section AgentCallers.

Import Intervention Observe.

Variable str_of : pyval -> string.
Variable recommend_events :
  string -> string -> list string -> Z -> result (list Activity).
Variable generate_content : string -> result string.
Variable DbSession : Type.
Variable store_intervention :
  DbSession -> string -> Z -> string -> option string -> option string ->
  result string.
Variable str_exn : exn -> string.

(** The classifier of [RiskCalculator] has five labels, none of them
    critical. *)
Lemma get_risk_level_labels (q : Q) :
  In (RiskCalculator.get_risk_level q)
     [ "low"; "mild"; "moderate"; "high"; "unknown" ].
Proof.
  destruct (get_risk_level_cases q)
    as [(-> & _) | [(-> & _) | [(-> & _) | [(-> & _) | (-> & _)]]]];
    cbn; auto 6.
Qed.

(** X9.  The template message and the action items name the 988 lifeline
    for the level critical and for no other level, and the classifier of
    [RiskCalculator] never yields that level: without an answer from the
    model no score, however high, brings the lifeline into the reply. *)
Theorem template_crisis_resources :
  forall (level : string) (sc : Z),
    (contains "988" (generate_empathetic_message level sc) = true
     <-> level = "critical")
    /\ (existsb (contains "988") (action_items_for level) = true
        <-> level = "critical")
    /\ (forall q : Q, RiskCalculator.get_risk_level q <> "critical").
Proof.
  intros level sc. split; [| split].
  - unfold generate_empathetic_message, messages.
    cbn [lookup_item].
    destruct (String.eqb "low" level) eqn:E1;
      [apply String.eqb_eq in E1; subst level; vm_compute; split; discriminate |].
    destruct (String.eqb "moderate" level) eqn:E2;
      [apply String.eqb_eq in E2; subst level; vm_compute; split; discriminate |].
    destruct (String.eqb "elevated" level) eqn:E3;
      [apply String.eqb_eq in E3; subst level; vm_compute; split; discriminate |].
    destruct (String.eqb "high" level) eqn:E4;
      [apply String.eqb_eq in E4; subst level; vm_compute; split; discriminate |].
    destruct (String.eqb "critical" level) eqn:E5;
      [apply String.eqb_eq in E5; subst level; vm_compute; split; reflexivity |].
    apply String.eqb_neq in E5. cbn [default].
    assert (H : contains "988" (strip moderate_message) = false)
      by (vm_compute; reflexivity).
    rewrite H. split; [discriminate | congruence].
  - unfold action_items_for.
    destruct (String.eqb level "low") eqn:E1;
      [apply String.eqb_eq in E1; subst level; vm_compute; split; discriminate |].
    destruct (String.eqb level "moderate") eqn:E2;
      [apply String.eqb_eq in E2; subst level; vm_compute; split; discriminate |].
    destruct (String.eqb level "elevated") eqn:E3;
      [apply String.eqb_eq in E3; subst level; vm_compute; split; discriminate |].
    destruct (String.eqb level "high") eqn:E4;
      [apply String.eqb_eq in E4; subst level; vm_compute; split; discriminate |].
    destruct (String.eqb level "critical") eqn:E5;
      [apply String.eqb_eq in E5; subst level; vm_compute; split; reflexivity |].
    apply String.eqb_neq in E5. cbn. split; [discriminate | congruence].
  - intros q H. pose proof (get_risk_level_labels q) as L. rewrite H in L.
    cbn in L. intuition discriminate.
Qed.

(** X10.  The strategy without the model and the run with it agree: the
    same call to the recommender, the same level, score, activities and
    action items; the message of the run is the answer of the model to its
    one prompt, and the template message of the strategy when the model
    fails. *)
Theorem strategy_agrees_with_run :
  forall (ra : RiskAssessment) (uid : option string)
         (ui : option (list string)) (ul um : option string)
         (db : option DbSession),
    let st := generate_intervention_strategy recommend_events ra ui ul [] in
    let out :=
      run_intervention str_of recommend_events generate_content DbSession
        store_intervention ra uid ui ul um db [] in
    (76 <=? default 50 (score ra))%Z
    || contacts_typed (default (FDict []) (factors ra)) = true ->
    exists s p ctx,
      fst st = Ok s
      /\ fst out = Ok p
      /\ List.filter is_recommend (snd out) = snd st
      /\ prompts (snd out) = [ctx]
      /\ risk_level p = s_risk_level s
      /\ risk_score p = s_risk_score s
      /\ activities p = s_activities s
      /\ action_items p = s_action_items s
      /\ message p = match generate_content ctx with
                     | Ok text => text
                     | Raise _ => s_message s
                     end.
Proof.
  intros ra uid ui ul um db st out Htot.
  destruct (build_user_context_total str_of (default 50%Z (score ra))
              (default (FDict []) (factors ra)) ui ul um
              (fetched recommend_events (default "moderate" (level ra)) ui ul)
              Htot) as (ctx & Hctx & _).
  pose proof (run_intervention_exact str_of recommend_events generate_content
                DbSession store_intervention ra uid ui ul um db [] ctx Hctx)
    as Hrun.
  cbv zeta in Hrun.
  assert (Hst : st =
    (Ok {| s_risk_level := default "moderate" (level ra);
           s_risk_score := default 50%Z (score ra);
           s_message :=
             generate_empathetic_message (default "moderate" (level ra))
               (default 50%Z (score ra));
           s_activities :=
             fetched recommend_events (default "moderate" (level ra)) ui ul;
           s_action_items := action_items_for (default "moderate" (level ra)) |},
     if gate (default "moderate" (level ra)) ui ul
     then append [] (recommend_call (default "moderate" (level ra)) ui ul)
     else [])).
  { unfold st, generate_intervention_strategy. cbv zeta.
    unfold mbind at 1. unfold io_bind at 1. rewrite fetch_run. reflexivity. }
  do 2 eexists. exists ctx.
  rewrite Hst. unfold out. rewrite Hrun. cbn [fst snd].
  split; [reflexivity |]. split; [reflexivity |].
  split.
  { rewrite List.filter_app.
    destruct (gate _ ui ul); cbn;
      destruct (Tracking.storing db uid) as [[d u] |]; reflexivity. }
  split.
  { rewrite prompts_app.
    destruct (gate _ ui ul); cbn;
      destruct (Tracking.storing db uid) as [[d u] |]; reflexivity. }
  cbn. repeat split; reflexivity.
Qed.

(** X11.  The tool [generate_intervention] of the MCP server passes no
    location, no user and no session: it never reaches the recommender or
    the store, never answers with an error, and makes one call to the model,
    with the crisis prompt exactly from a score of 76 on. *)
Theorem mcp_generate_intervention :
  forall (user_id : string) (risk_score : Z) (risk_level : string)
         (interests : option (list string)),
    let out :=
      McpServer.generate_intervention str_of recommend_events generate_content
        DbSession store_intervention str_exn user_id risk_score risk_level
        interests [] in
    exists p ctx,
      out = (Ok (McpServer.Result p), [Generate ctx])
      /\ Intervention.risk_level p = risk_level
      /\ Intervention.risk_score p = risk_score
      /\ activities p = []
      /\ action_items p = action_items_for risk_level
      /\ intervention_id p = None
      /\ is_crisis_prompt ctx = (76 <=? risk_score)%Z
      /\ message p = match generate_content ctx with
                     | Ok text => text
                     | Raise _ =>
                         generate_empathetic_message risk_level risk_score
                     end.
Proof.
  intros user_id risk_score risk_level interests out.
  set (ra := {| level := Some risk_level;
                score := Some risk_score;
                factors := None |}).
  assert (Htot : (76 <=? default 50 (score ra))%Z
                 || contacts_typed (default (FDict []) (factors ra)) = true)
    by (cbn; apply orb_true_r).
  destruct (build_user_context_total str_of (default 50%Z (score ra))
              (default (FDict []) (factors ra)) interests None None
              (fetched recommend_events (default "moderate" (level ra))
                 interests None)
              Htot) as (ctx & Hctx & Hcrisis & _).
  pose proof (run_intervention_exact str_of recommend_events generate_content
                DbSession store_intervention ra None interests None None None
                [] ctx Hctx) as Hrun.
  cbv zeta in Hrun.
  assert (Hgate : gate (default "moderate" (level ra)) interests None = false).
  { unfold gate. cbn [no_location negb]. apply andb_false_r. }
  assert (Hacts : fetched recommend_events (default "moderate" (level ra))
                    interests None = []).
  { unfold fetched. now rewrite Hgate. }
  rewrite Hgate, Hacts in Hrun. cbn [Tracking.storing app] in Hrun.
  eexists. exists ctx. split.
  - unfold out, McpServer.generate_intervention. cbv zeta. fold ra.
    unfold try_except, mbind, io_bind. rewrite Hrun. reflexivity.
  - cbn. repeat split; try reflexivity. exact Hcrisis.
Qed.

End AgentCallers.

Section DetectionCallers.

Variable fmt : Format.
Variable spotify_analysis :
  string -> option (gmap string Q) -> result (gmap string Q).
Variable calendar_analysis :
  string -> option (gmap string Q) -> result (gmap string Q).
Variable cipher_decrypt : string -> result string.
Variable str_exn : exn -> string.
Variable User : Type.
Variable query_user : string -> result (option User).
Variable query_permission : string -> result (option Permissions.Permission).
Variable query_baseline : string -> result (Q * Q * Q).

(** X12.  The tool [analyze_loneliness_risk] of the MCP server never
    answers with an assessment: it calls [run_detection] with three keywords
    the function does not declare, so whatever the user, the permissions and
    the tokens, its answer is an error. *)
Theorem mcp_analyze_never_answers :
  forall (user_id : string) (calendar_enabled spotify_enabled : bool),
    exists message,
      McpServer.analyze_loneliness_risk str_exn fmt spotify_analysis
        calendar_analysis cipher_decrypt User query_user query_permission
        query_baseline user_id calendar_enabled spotify_enabled
      = McpServer.Error message.
Proof.
  intros user_id calendar_enabled spotify_enabled.
  unfold McpServer.analyze_loneliness_risk.
  destruct (query_user user_id) as [[u |] | e]; cbn; eauto.
  destruct (query_permission user_id) as [[p |] | e]; cbn; eauto.
  destruct (query_baseline user_id) as [b | e]; cbn; eauto.
Qed.

End DetectionCallers.

(** ** The five-level label and the wellness view *)

Section FiveLevels.

Import Config.

Lemma rank_labels :
  rank "low" = 0%nat /\ rank "moderate" = 1%nat /\ rank "elevated" = 2%nat
  /\ rank "high" = 3%nat /\ rank "critical" = 4%nat.
Proof. repeat split; reflexivity. Qed.

(** X13.  The five-level label of [core/utils] never goes down when the
    score goes up, whatever the three thresholds of the settings are; the
    label is critical exactly from 90 on when no threshold is above the
    score. *)
Theorem calculate_risk_level_monotone :
  forall (settings : Settings) (s1 s2 : Z),
    (s1 <= s2)%Z ->
    (rank (calculate_risk_level settings s1)
     <= rank (calculate_risk_level settings s2))%nat
    /\ (calculate_risk_level settings s2 = "critical"
        <-> (risk_score_low_threshold settings <= s2
             /\ risk_score_moderate_threshold settings <= s2
             /\ risk_score_elevated_threshold settings <= s2
             /\ 90 <= s2)%Z).
Proof.
  intros settings s1 s2 Hle. unfold calculate_risk_level.
  destruct (Z.ltb_spec s1 (risk_score_low_threshold settings));
    destruct (Z.ltb_spec s2 (risk_score_low_threshold settings));
    destruct (Z.ltb_spec s1 (risk_score_moderate_threshold settings));
    destruct (Z.ltb_spec s2 (risk_score_moderate_threshold settings));
    destruct (Z.ltb_spec s1 (risk_score_elevated_threshold settings));
    destruct (Z.ltb_spec s2 (risk_score_elevated_threshold settings));
    destruct (Z.ltb_spec s1 90);
    destruct (Z.ltb_spec s2 90);
    try lia;
    (split; [cbn; lia | split; [intros G; try discriminate G; lia
                              | intros G; try reflexivity; lia]]).
Qed.

End FiveLevels.

Lemma calculate_risk_level_monotone_example :
  (Config.rank (Config.calculate_risk_level Config.default_settings 49)
   <= Config.rank (Config.calculate_risk_level Config.default_settings 75))%nat
  /\ Config.calculate_risk_level Config.default_settings 89 = "high"
  /\ Config.calculate_risk_level Config.default_settings 90 = "critical".
Proof.
  split.
  - apply (calculate_risk_level_monotone Config.default_settings 49 75). lia.
  - split; reflexivity.
Defined.

Section WellnessView.

Import RiskCalculator.

Variable fmt : Format.


End WellnessView.


Lemma storage_step_example :
  exists p,
    fst (Intervention.run_intervention Scenario.plain_str
           Scenario.online_recommender Scenario.offline_model unit
           Examples.online_store Scenario.mild_assessment (Some "u1")
           Scenario.interests Scenario.location None (Some tt) []) = Ok p
    /\ Intervention.intervention_id p = Some "row-1".
Proof.
  destruct (storage_step Scenario.plain_str Scenario.online_recommender
              Scenario.offline_model unit Examples.online_store
              Scenario.mild_assessment (Some "u1") Scenario.interests
              Scenario.location None (Some tt)) as (p & Hp & Hs).
  { reflexivity. }
  exists p. split; [exact Hp |].
  cbn [Tracking.storing String.eqb Ascii.eqb Bool.eqb] in Hs.
  destruct Hs as [_ Hid]. exact Hid.
Defined.

Lemma crisis_prompt_resources_example :
  exists ctx,
    Observe.prompts
      (snd (Scenario.run_offline Scenario.plain_str Scenario.high_assessment
              Scenario.interests Scenario.location)) = [ctx]
    /\ contains "741741" ctx = true.
Proof.
  destruct (crisis_prompt_resources Scenario.plain_str
              Scenario.offline_recommender Scenario.offline_model unit
              Scenario.offline_store Scenario.high_assessment None
              Scenario.interests Scenario.location None None)
    as (ctx & Hp & _ & H & _).
  { cbn. lia. }
  exists ctx. split; [exact Hp | exact H].
Defined.

Lemma strategy_agrees_with_run_example :
  exists s p,
    fst (Intervention.generate_intervention_strategy
           Scenario.online_recommender Scenario.mild_assessment
           Scenario.interests Scenario.location []) = Ok s
    /\ fst (Intervention.run_intervention Scenario.plain_str
              Scenario.online_recommender Scenario.offline_model unit
              Scenario.offline_store Scenario.mild_assessment None
              Scenario.interests Scenario.location None None []) = Ok p
    /\ Intervention.activities p = Intervention.s_activities s.
Proof.
  destruct (strategy_agrees_with_run Scenario.plain_str
              Scenario.online_recommender Scenario.offline_model unit
              Scenario.offline_store Scenario.mild_assessment None
              Scenario.interests Scenario.location None None)
    as (s & p & ctx & Hs & Hp & _ & _ & _ & _ & Ha & _).
  { reflexivity. }
  exists s, p. repeat split; assumption.
Defined.

(** ** Permissions and stored tokens *)

Section Switches.

Import Permissions Switches.

Lemma list_ascii_append (s t : string) :
  list_ascii_of_string (s +:+ t)
  = (list_ascii_of_string s ++ list_ascii_of_string t)%list.
Proof.
  induction s as [| c s IH]; [reflexivity |].
  change (String c s +:+ t) with (String c (s +:+ t)). cbn. now rewrite IH.
Qed.

Lemma append_inj_l (s s' t : string) : s +:+ t = s' +:+ t -> s = s'.
Proof.
  intros H. apply (f_equal list_ascii_of_string) in H.
  rewrite !list_ascii_append in H. apply app_inv_tail in H.
  rewrite <- (string_of_list_ascii_of_string s),
          <- (string_of_list_ascii_of_string s').
  now rewrite H.
Qed.

(** The attribute exists exactly for the five sources. *)
Lemma getattr_enabled_sources (p : Permission) (source : string) :
  (In source sources <-> getattr_enabled p (source +:+ "_enabled") <> None).
Proof.
  unfold getattr_enabled, sources. split.
  - intros [<- | [<- | [<- | [<- | [<- | []]]]]]; discriminate.
  - intros H.
    destruct (String.eqb_spec (source +:+ "_enabled") "calendar_enabled") as [E | _];
      [apply (append_inj_l source "calendar") in E; subst; cbn; auto |].
    destruct (String.eqb_spec (source +:+ "_enabled") "spotify_enabled") as [E | _];
      [apply (append_inj_l source "spotify") in E; subst; cbn; auto |].
    destruct (String.eqb_spec (source +:+ "_enabled") "github_enabled") as [E | _];
      [apply (append_inj_l source "github") in E; subst; cbn; auto |].
    destruct (String.eqb_spec (source +:+ "_enabled") "weather_enabled") as [E | _];
      [apply (append_inj_l source "weather") in E; subst; cbn; auto 6 |].
    destruct (String.eqb_spec (source +:+ "_enabled") "discord_enabled") as [E | _];
      [apply (append_inj_l source "discord") in E; subst; cbn; auto 6 |].
    contradiction.
Qed.

(** Writing one switch leaves the others as they were. *)
Lemma getattr_setattr_other (p : Permission) (f g v : string) :
  g <> f ->
  getattr_enabled (setattr_enabled p f v) g = getattr_enabled p g.
Proof.
  intros Hf. unfold getattr_enabled, setattr_enabled.
  repeat match goal with
         | |- context [String.eqb ?a ?b] =>
             destruct (String.eqb_spec a b); try subst
         end;
    cbn; try congruence; reflexivity.
Qed.

(** X15.  The five switches: a permission that was set is read back, for
    each of the five sources; setting one source leaves every other source
    as it was; a name that is not one of the five changes nothing and is
    never enabled; and a new row has every source disabled. *)
Theorem permission_round_trip :
  forall (p : Permission) (source : string) (enabled : bool),
    (In source sources ->
     has_permission (set_permission p source enabled) source = enabled)
    /\ (~ In source sources ->
        set_permission p source enabled = p
        /\ has_permission p source = false)
    /\ (forall other,
          other <> source ->
          has_permission (set_permission p source enabled) other
          = has_permission p other)
    /\ (forall user, has_permission (new_permission user) source = false).
Proof.
  intros p source enabled. split; [| split; [| split]].
  - unfold sources.
    intros [<- | [<- | [<- | [<- | [<- | []]]]]]; destruct enabled; reflexivity.
  - intros Hn.
    assert (E : getattr_enabled p (source +:+ "_enabled") = None).
    { destruct (getattr_enabled p (source +:+ "_enabled")) eqn:E; [| reflexivity].
      exfalso. apply Hn. apply (getattr_enabled_sources p). congruence. }
    unfold set_permission, has_permission. now rewrite E.
  - intros other Hne.
    assert (Hf : other +:+ "_enabled" <> source +:+ "_enabled").
    { intros E. apply Hne. now apply append_inj_l in E. }
    unfold set_permission, has_permission.
    destruct (getattr_enabled p (source +:+ "_enabled")); [| reflexivity].
    now rewrite getattr_setattr_other.
  - intros user. unfold has_permission, getattr_enabled, new_permission.
    cbn [calendar_enabled spotify_enabled github_enabled weather_enabled
         discord_enabled].
    repeat (destruct (String.eqb _ _); [reflexivity |]). reflexivity.
Qed.

End Switches.

Lemma permission_round_trip_example :
  Permissions.has_permission
    (Permissions.set_permission (Permissions.new_permission "u1") "spotify" true)
    "spotify" = true
  /\ Permissions.has_permission
       (Permissions.set_permission (Permissions.new_permission "u1") "spotify" true)
       "calendar" = false
  /\ Permissions.set_permission (Permissions.new_permission "u1") "email" true
     = Permissions.new_permission "u1".
Proof.
  destruct (permission_round_trip (Permissions.new_permission "u1") "spotify" true)
    as (H1 & _ & H3 & _).
  destruct (permission_round_trip (Permissions.new_permission "u1") "email" true)
    as (_ & H2 & _).
  split; [apply H1; cbn; auto |].
  split; [rewrite H3; [reflexivity | discriminate] |].
  apply H2. cbn. intuition discriminate.
Defined.

Section StoredTokens.

Import Permissions.

Variable cipher_encrypt : string -> string.
Variable cipher_decrypt : string -> result string.

(** X16.  Stored tokens: with a cipher that decrypts what it encrypted and
    whose cipher text is never empty, the token that was set is the token
    read back, the empty token included, and the other token is untouched.
    With any cipher, an absent, an empty or an undecryptable stored value
    reads as the empty token, which detection takes for no access. *)
Theorem token_round_trip :
  forall (p : Permission) (token : string),
    (forall t, cipher_decrypt (cipher_encrypt t) = Ok t) ->
    (forall t, cipher_encrypt t <> EmptyString) ->
    get_google_token cipher_decrypt (set_google_token cipher_encrypt p token)
    = token
    /\ get_spotify_token cipher_decrypt (set_spotify_token cipher_encrypt p token)
       = token
    /\ get_spotify_token cipher_decrypt (set_google_token cipher_encrypt p token)
       = get_spotify_token cipher_decrypt p
    /\ get_google_token cipher_decrypt (set_spotify_token cipher_encrypt p token)
       = get_google_token cipher_decrypt p
    /\ (forall q : Permission,
          match google_access_token q with
          | None => True
          | Some stored =>
              stored = EmptyString \/ is_ok (cipher_decrypt stored) = false
          end ->
          get_google_token cipher_decrypt q = EmptyString
          /\ Detection.truthy_token (Some (get_google_token cipher_decrypt q))
             = None).
Proof.
  intros p token Hrt Hne.
  assert (Hget : forall t,
            (if String.eqb t "" then None else Some (encrypt_token cipher_encrypt t))
            = if String.eqb t "" then None else Some (cipher_encrypt t)).
  { intros t. unfold encrypt_token. destruct (String.eqb t ""); reflexivity. }
  assert (Hread : forall t,
            match (if String.eqb t "" then None else Some (cipher_encrypt t)) with
            | Some stored =>
                if String.eqb stored "" then EmptyString
                else decrypt_token cipher_decrypt stored
            | None => EmptyString
            end = t).
  { intros t. destruct (String.eqb_spec t "") as [-> | Ht]; [reflexivity |].
    destruct (String.eqb_spec (cipher_encrypt t) "") as [E | _];
      [now apply Hne in E |].
    unfold decrypt_token.
    destruct (String.eqb_spec (cipher_encrypt t) "") as [E | _];
      [now apply Hne in E |].
    now rewrite Hrt. }
  repeat split.
  - unfold get_google_token, set_google_token, with_google_access_token.
    cbn [google_access_token]. rewrite Hget. apply Hread.
  - unfold get_spotify_token, set_spotify_token, with_spotify_access_token.
    cbn [spotify_access_token]. rewrite Hget. apply Hread.
  - unfold get_google_token.
    destruct (google_access_token q) as [stored |]; [| reflexivity].
    destruct H as [-> | H]; [reflexivity |].
    destruct (String.eqb stored ""); [reflexivity |].
    unfold decrypt_token. destruct (String.eqb stored ""); [reflexivity |].
    destruct (cipher_decrypt stored); [discriminate | reflexivity].
  - assert (E : get_google_token cipher_decrypt q = EmptyString).
    { unfold get_google_token.
      destruct (google_access_token q) as [stored |]; [| reflexivity].
      destruct H as [-> | H]; [reflexivity |].
      destruct (String.eqb stored ""); [reflexivity |].
      unfold decrypt_token. destruct (String.eqb stored ""); [reflexivity |].
      destruct (cipher_decrypt stored); [discriminate | reflexivity]. }
    rewrite E. reflexivity.
Qed.

End StoredTokens.

Lemma token_round_trip_example :
  Permissions.get_google_token Examples.mark_decrypt
    (Permissions.set_google_token Examples.mark_encrypt
       (Permissions.new_permission "u1") "ya29.token") = "ya29.token".
Proof.
  apply (token_round_trip Examples.mark_encrypt Examples.mark_decrypt
           (Permissions.new_permission "u1") "ya29.token").
  - intros t. reflexivity.
  - intros t. discriminate.
Defined.

(** ** The event matching tool *)

Section Events.

Import Json EventMatching Fetched.

Variable settings : Config.Settings.
Variable http_get :
  string -> list (string * string) -> list (string * json) -> result json.
Variable str_of : json -> string.
Variable lower : string -> string.

Local Ltac run_result H :=
  unfold mbind, result_bind, rbind in H;
  repeat match type of H with
         | context [match ?r with Ok _ => _ | Raise _ => _ end] =>
             lazymatch r with
             | context [match _ with Ok _ => _ | Raise _ => _ end] => fail
             | _ => destruct r eqn:?; try discriminate H
             end
         end.

Lemma map_r_Forall {A B : Type} (f : A -> result B) (P : B -> Prop)
    (l : list A) (ys : list B) :
  (forall x y, f x = Ok y -> P y) -> map_r f l = Ok ys -> Forall P ys.
Proof.
  intros Hf. revert ys. induction l as [| x l IH]; intros ys H.
  - injection H as <-. constructor.
  - cbn [map_r] in H. run_result H. injection H as <-.
    constructor; [eapply Hf; eassumption | now apply IH].
Qed.

(** A Meetup event has no capacity and an Eventbrite event no count. *)
Lemma meetup_event_keys (event : json) (e : Event) :
  meetup_event event = Ok e -> e !! "capacity" = None.
Proof.
  unfold meetup_event. intros H. run_result H. injection H as <-.
  vm_compute. reflexivity.
Qed.

Lemma eventbrite_event_keys (event : json) (e : Event) :
  eventbrite_event event = Ok e -> e !! "rsvp_count" = None.
Proof.
  unfold eventbrite_event. intros H. run_result H;
    injection H as <-; vm_compute; reflexivity.
Qed.

Lemma get_all_events_one_sided (location : string) :
  Forall one_sided (get_all_events settings http_get location).
Proof.
  unfold get_all_events, search_tamu_events. cbv zeta.
  rewrite app_nil_r. apply Forall_app. split.
  - unfold search_meetup_events.
    destruct (String.eqb _ _); [constructor |]. cbv zeta.
    match goal with
    | |- Forall _ (match ?r with Ok _ => _ | Raise _ => _ end) =>
        destruct r as [events | e] eqn:H; [| constructor]
    end.
    run_result H.
    eapply map_r_Forall; [| exact H].
    intros x y Hy. left. eapply meetup_event_keys, Hy.
  - unfold search_eventbrite_events.
    destruct (String.eqb _ _); [constructor |]. cbv zeta.
    match goal with
    | |- Forall _ (match ?r with Ok _ => _ | Raise _ => _ end) =>
        destruct r as [events | e] eqn:H; [| constructor]
    end.
    run_result H.
    eapply map_r_Forall; [| exact H].
    intros x y Hy. right. eapply eventbrite_event_keys, Hy.
Qed.

Lemma small_enough_one_sided (n : Q) (e : Event) :
  0 < n -> one_sided e ->
  small_enough n e = Ok true \/ small_enough n e = Raise TypeError.
Proof.
  intros Hn Hs. apply ltb_lt in Hn.
  unfold small_enough, or_else, eget, mbind, result_bind, rbind.
  destruct Hs as [Hc | Hr].
  - rewrite Hc. cbn [default jlt]. rewrite Hn.
    destruct (default (JNum 0) (e !! "rsvp_count")) as [| b | q | | |];
      cbn [jlt]; auto.
    + destruct (ltb (if b then 1 else 0) n); auto.
    + destruct (ltb q n); auto.
  - rewrite Hr. cbn [default jlt]. rewrite Hn. auto.
Qed.

Lemma filter_r_keeps {A : Type} (p : A -> result bool) (l : list A) :
  Forall (fun x => p x = Ok true \/ p x = Raise TypeError) l ->
  filter_r p l = Ok l \/ filter_r p l = Raise TypeError.
Proof.
  induction 1 as [| x l Hx _ IH]; [now left |].
  cbn [filter_r]. unfold mbind, result_bind, rbind.
  destruct Hx as [-> | ->]; [| now right].
  destruct IH as [-> | ->]; auto.
Qed.

Lemma filter_by_anxiety_level_one_sided (events : list Event) (level : string) :
  Forall one_sided events ->
  filter_by_anxiety_level events level = Ok events
  \/ filter_by_anxiety_level events level = Raise TypeError.
Proof.
  intros H. unfold filter_by_anxiety_level.
  destruct (String.eqb level "low"); [now left |].
  destruct (String.eqb level "medium").
  { apply filter_r_keeps. eapply Forall_impl; [exact H |].
    intros e He. now apply small_enough_one_sided. }
  destruct (String.eqb level "high"); [| now left].
  apply filter_r_keeps. eapply Forall_impl; [exact H |].
  intros e He. now apply small_enough_one_sided.
Qed.

Lemma match_loop_filter (events : list Event) (interests : list string)
    (matched : list Event) :
  match_loop str_of lower events interests matched
  = (matched
     ++ List.filter
          (fun e => any_interest lower interests (event_text str_of lower e))
          events)%list.
Proof.
  revert matched. induction events as [| e events IH]; intros matched.
  - cbn. now rewrite app_nil_r.
  - cbn [match_loop List.filter]. rewrite IH.
    destruct (any_interest _ _ _); [| reflexivity].
    unfold append. now rewrite <- app_assoc.
Qed.

(** X17.  Without keys for Meetup and Eventbrite, which is how the settings
    start out, the tool makes no request and recommends nothing, whatever
    the location, the anxiety level, the interests and the limit. *)
Theorem recommend_events_without_keys :
  forall (location anxiety_level : string) (interests : option (list string))
         (limit : Z),
    Config.meetup_api_key settings = EmptyString ->
    Config.eventbrite_token settings = EmptyString ->
    get_all_events settings http_get location = []
    /\ recommend_events settings http_get str_of lower location anxiety_level
         interests limit = Ok [].
Proof.
  intros location anxiety_level interests limit Hm He.
  assert (Hall : get_all_events settings http_get location = []).
  { unfold get_all_events, search_meetup_events, search_eventbrite_events,
      search_tamu_events. now rewrite Hm, He. }
  split; [exact Hall |].
  unfold recommend_events. cbv zeta. rewrite Hall.
  assert (Hf : filter_by_anxiety_level [] anxiety_level = Ok []).
  { unfold filter_by_anxiety_level.
    repeat (destruct (String.eqb _ _); [reflexivity |]). reflexivity. }
  rewrite Hf. cbn. f_equal.
  assert (Hi : (if Intervention.no_interests interests then []
                else match_interests str_of lower [] (default [] interests))
               = ([] : list Event)).
  { destruct (Intervention.no_interests interests); [reflexivity |].
    unfold match_interests. destruct (default [] interests); reflexivity. }
  rewrite Hi. unfold Builtins.slice_to.
  destruct (0 <=? limit)%Z; apply firstn_nil.
Qed.

(** X18.  The anxiety filter never drops an event the tool fetched itself:
    a Meetup event carries no capacity and an Eventbrite event no count, and
    a missing number reads as 0, below either bound.  On the events of
    [get_all_events] the filter returns all of them for every level, or
    raises [TypeError] on a count that is not a number. *)
Theorem anxiety_filter_keeps_own_events :
  forall (location anxiety_level : string),
    let all_events := get_all_events settings http_get location in
    filter_by_anxiety_level all_events anxiety_level = Ok all_events
    \/ filter_by_anxiety_level all_events anxiety_level = Raise TypeError.
Proof.
  intros location anxiety_level all_events.
  apply filter_by_anxiety_level_one_sided, get_all_events_one_sided.
Qed.

(** X19.  What [recommend_events] returns: for a limit that is not
    negative, the first [limit] of all fetched events, in the order Meetup
    then Eventbrite, kept only if some interest occurs in their text when
    interests are given; the anxiety level has no effect on the list. *)
Theorem recommend_events_result :
  forall (location anxiety_level : string) (interests : option (list string))
         (limit : Z) (events : list Event),
    (0 <= limit)%Z ->
    recommend_events settings http_get str_of lower location anxiety_level
      interests limit = Ok events ->
    events
    = firstn (Z.to_nat limit)
        (if Intervention.no_interests interests
         then get_all_events settings http_get location
         else List.filter
                (fun e =>
                   any_interest lower (default [] interests)
                     (event_text str_of lower e))
                (get_all_events settings http_get location))
    /\ (length events <= Z.to_nat limit)%nat.
Proof.
  intros location anxiety_level interests limit events Hl H.
  unfold recommend_events in H. cbv zeta in H.
  destruct (filter_by_anxiety_level_one_sided
              (get_all_events settings http_get location) anxiety_level
              (get_all_events_one_sided location)) as [E | E];
    rewrite E in H; [| discriminate H].
  cbn in H. injection H as <-.
  unfold Builtins.slice_to. apply Z.leb_le in Hl. rewrite Hl.
  split; [| apply firstn_le_length].
  f_equal. destruct interests as [[| i rest] |]; try reflexivity.
  cbn [Intervention.no_interests default]. unfold match_interests.
  now rewrite match_loop_filter.
Qed.

End Events.

Lemma recommend_events_without_keys_example :
  EventMatching.recommend_events Config.default_settings Examples.http_get
    Examples.str_json Examples.same_case "College Station, TX" "high"
    (Some ["music"]) 5 = Ok [].
Proof.
  apply (recommend_events_without_keys Config.default_settings
           Examples.http_get Examples.str_json Examples.same_case
           "College Station, TX" "high" (Some ["music"]) 5);
    reflexivity.
Defined.

Lemma recommend_events_result_example :
  EventMatching.recommend_events Examples.keyed_settings Examples.http_get
    Examples.str_json Examples.same_case "College Station, TX" "high"
    None 5
  = Ok (EventMatching.get_all_events Examples.keyed_settings Examples.http_get
          "College Station, TX")
  /\ (length
        (EventMatching.get_all_events Examples.keyed_settings Examples.http_get
           "College Station, TX") <= 5)%nat.
Proof.
  assert (E : EventMatching.recommend_events Examples.keyed_settings
                Examples.http_get Examples.str_json Examples.same_case
                "College Station, TX" "high" None 5
              = Ok (EventMatching.get_all_events Examples.keyed_settings
                      Examples.http_get "College Station, TX"))
    by (vm_compute; reflexivity).
  split; [exact E |].
  apply (recommend_events_result Examples.keyed_settings Examples.http_get
           Examples.str_json Examples.same_case "College Station, TX" "high"
           None 5 _ ltac:(lia) E).
Defined.

(** ** The interventions table *)

Section Table.

Import Interventions Responses.








Lemma find_by_id_append (db : Table) (key : string) (row : Row) :
  find_by_id db key = None ->
  find_by_id (append db row) key
  = if String.eqb (id row) key then Some row else None.
Proof.
  unfold append. induction db as [| r db IH]; [reflexivity |].
  cbn. destruct (String.eqb (id r) key); [discriminate | exact IH].
Qed.

Lemma update_by_id_append (db : Table) (key : string) (row : Row)
    (change : Row -> Row) :
  find_by_id db key = None -> id row = key ->
  update_by_id (append db row) key change = append db (change row).
Proof.
  unfold append. intros H E. induction db as [| r db IH].
  - cbn. rewrite E, String.eqb_refl. reflexivity.
  - cbn in *. destruct (String.eqb (id r) key); [discriminate |].
    now rewrite IH.
Qed.

(** X22.  Storing then answering: an intervention stored under a fresh id
    is found by that id; the answer is written to that row alone, as "true"
    or "false" with the feedback and the time, the table keeps its other
    rows in place and rows with one of the three answers stay so.  An id
    that is not in the table changes nothing and yields no row. *)
Theorem track_after_store :
  forall (db : Table) (new_id : string) (now later : Z)
         (user : string) (risk : Z) (suggestion : string)
         (event_id event_source : option string)
         (accepted : bool) (feedback : option string),
    find_by_id db new_id = None ->
    let stored :=
      store_intervention db new_id now user risk suggestion event_id
        event_source in
    let tracked :=
      track_user_engagement (fst stored) later new_id accepted feedback in
    let answered :=
      respond (if accepted then "true" else "false") feedback later
        (snd stored) in
    track_user_engagement db later new_id accepted feedback = (db, None)
    /\ find_by_id (fst stored) new_id = Some (snd stored)
    /\ Interventions.accepted (snd stored) = None
    /\ tracked = (append db answered, Some answered)
    /\ find_by_id (fst tracked) new_id = Some answered
    /\ (Forall (fun row => recorded row = true) db ->
        Forall (fun row => recorded row = true) (fst stored)
        /\ Forall (fun row => recorded row = true) (fst tracked)).
Proof.
  intros db new_id now later user risk suggestion event_id event_source
    acc fb Hfresh stored tracked answered.
  assert (Hfind : find_by_id (fst stored) new_id = Some (snd stored)).
  { unfold stored, store_intervention. cbn [fst snd].
    rewrite find_by_id_append by exact Hfresh.
    cbn [id]. now rewrite String.eqb_refl. }
  assert (Htracked : tracked = (append db answered, Some answered)).
  { unfold tracked, track_user_engagement. rewrite Hfind.
    unfold stored at 1, store_intervention. cbn [fst].
    rewrite update_by_id_append; [reflexivity | exact Hfresh | reflexivity]. }
  split; [unfold track_user_engagement; now rewrite Hfresh |].
  split; [exact Hfind |]. split; [reflexivity |]. split; [exact Htracked |].
  split.
  { rewrite Htracked. cbn [fst]. rewrite find_by_id_append by exact Hfresh.
    unfold answered, respond, stored, store_intervention. cbn [id snd].
    now rewrite String.eqb_refl. }
  intros HF. rewrite Htracked. unfold stored, store_intervention, append.
  cbn [fst]. split; apply Forall_app; split; try exact HF;
    repeat constructor.
  unfold answered, respond, recorded. cbn [Interventions.accepted].
  destruct acc; reflexivity.
Qed.



Lemma round2_range (x : Q) : 0 <= x -> x <= 100 -> 0 <= round2 x /\ round2 x <= 100.
Proof.
  intros H0 H1. unfold round2.
  assert (Ha : (0 <= round (x * 100))%Z)
    by (apply (round_ge 0); unfold inject_Z; lra).
  assert (Hb : (round (x * 100) <= 10000)%Z)
    by (apply (round_le 10000); unfold inject_Z; lra).
  assert (Ha' : inject_Z 0 <= inject_Z (round (x * 100)))
    by now rewrite <- Zle_Qle.
  assert (Hb' : inject_Z (round (x * 100)) <= inject_Z 10000)
    by now rewrite <- Zle_Qle.
  change (inject_Z 0) with 0 in Ha'. change (inject_Z 10000) with 10000 in Hb'.
  set (r := inject_Z (round (x * 100))) in *.
  split.
  - apply Qle_shift_div_l; [reflexivity | lra].
  - apply Qle_shift_div_r; [reflexivity | lra].
Qed.


End Table.




Lemma track_after_store_example :
  length
    (fst (Interventions.track_user_engagement
            (fst (Interventions.store_intervention Examples.table "d" 40 "u1"
                    65 "Take a walk" None None))
            50 "d" true None)) = 4%nat.
Proof.
  pose proof (track_after_store Examples.table "d" 40 50 "u1" 65 "Take a walk"
                None None true None eq_refl) as H.
  cbv zeta in H. destruct H as (_ & _ & _ & H & _).
  rewrite H. reflexivity.
Defined.


(** ** The calendar tool and the social analysis *)

Section CalendarTool.

Import Json Calendar.

Variable events_list : Z -> Z -> Z -> bool -> api json.

Local Ltac run_result H :=
  unfold mbind, result_bind, rbind in H;
  repeat match type of H with
         | context [match ?r with Ok _ => _ | Raise _ => _ end] =>
             lazymatch r with
             | context [match _ with Ok _ => _ | Raise _ => _ end] => fail
             | _ => destruct r eqn:?; try discriminate H
             end
         end.

Lemma social_event_count (event attendees : json) (count : Z)
    (e : gmap string json) :
  social_event event attendees count = Ok e ->
  e !! "attendees_count" = Some (JNum (inject_Z count)).
Proof.
  unfold social_event. intros H. run_result H. injection H as <-.
  vm_compute. reflexivity.
Qed.

Lemma social_loop_attendees (events : list json) (min_attendees : Z)
    (social_events found : list (gmap string json)) :
  let enough e :=
    exists n : Z,
      e !! "attendees_count" = Some (JNum (inject_Z n))
      /\ (min_attendees <= n)%Z in
  Forall enough social_events ->
  social_loop events min_attendees social_events = Ok found ->
  Forall enough found
  /\ (length found <= length social_events + length events)%nat.
Proof.
  intros enough. revert social_events.
  induction events as [| event events IH]; intros social_events Hacc H.
  - injection H as <-. split; [exact Hacc | lia].
  - cbn [social_loop] in H. unfold mbind, result_bind, rbind in H.
    destruct (jget event "attendees" (JArr [])) as [attendees |];
      [| discriminate H].
    destruct (jlen attendees) as [count |]; [| discriminate H].
    destruct (Z.leb_spec min_attendees count) as [Hle | _].
    + destruct (social_event event attendees count) as [built |] eqn:Hb;
        [| discriminate H].
      apply IH in H.
      * destruct H as [H1 H2]. split; [exact H1 |].
        unfold append in H2. rewrite length_app in H2. cbn in *. lia.
      * unfold append. apply Forall_app. split; [exact Hacc |].
        constructor; [| constructor].
        exists count. split; [now apply (social_event_count event attendees) | exact Hle].
    + apply IH in H; [| exact Hacc].
      destruct H as [H1 H2]. split; [exact H1 | cbn; lia].
Qed.

(** X24.  The social events of the calendar: every event returned has at
    least the asked number of attendees, recorded under [attendees_count],
    and no more events are returned than the calendar lists; a failure of
    the API with [HttpError] is answered with the empty list. *)
Theorem social_events_have_attendees :
  forall (days_back min_attendees : Z) (found : list (gmap string json)),
    get_social_events events_list days_back min_attendees = Ok found ->
    Forall
      (fun e =>
         exists n : Z,
           e !! "attendees_count" = Some (JNum (inject_Z n))
           /\ (min_attendees <= n)%Z)
      found
    /\ match events_list days_back 0 100 true with
       | HttpError => found = []
       | Failure _ => False
       | Answer body =>
           exists items,
             (listed ← jget body "items" (JArr []); jiter listed) = Ok items
             /\ (length found <= length items)%nat
       end.
Proof.
  intros days_back min_attendees found H. unfold get_social_events in H.
  destruct (events_list days_back 0 100 true) as [body | | e].
  - unfold mbind, result_bind, rbind in *.
    destruct (jget body "items" (JArr [])) as [listed |]; [| discriminate H].
    destruct (jiter listed) as [items |]; [| discriminate H].
    apply social_loop_attendees in H; [| constructor].
    destruct H as [H1 H2]. split; [exact H1 |].
    exists items. split; [reflexivity | exact H2].
  - injection H as <-. split; [constructor | reflexivity].
  - discriminate H.
Qed.

Lemma attendee_loop_tally (event attendees : json) (remaining : list json)
    (t t' : Tally) :
  (0 <= t_declined t <= t_total t)%Z ->
  Z.of_nat (length (t_events t)) = t_declined t ->
  attendee_loop event attendees remaining t = Ok t' ->
  (0 <= t_declined t' <= t_total t')%Z
  /\ Z.of_nat (length (t_events t')) = t_declined t'.
Proof.
  revert t. induction remaining as [| attendee rest IH]; intros t Hr Hl H.
  - injection H as <-. split; assumption.
  - cbn [attendee_loop] in H. unfold mbind, result_bind, rbind in H.
    destruct (jget attendee "self" (JBool false)) as [self |];
      [| discriminate H].
    destruct (jtruthy self); [| now apply (IH t)].
    destruct (jget attendee "responseStatus" JNull) as [status |];
      [| discriminate H].
    destruct (jeq_str status "declined").
    + destruct (jlen attendees) as [count |]; [| discriminate H].
      destruct (declined_event event attendees count) as [built |];
        [| discriminate H].
      apply IH in H; [exact H | cbn; lia |].
      cbn. unfold append. rewrite length_app. cbn. lia.
    + apply IH in H; [exact H | cbn; lia | cbn; exact Hl].
Qed.

Lemma invitation_loop_tally (events : list json) (t t' : Tally) :
  (0 <= t_declined t <= t_total t)%Z ->
  Z.of_nat (length (t_events t)) = t_declined t ->
  invitation_loop events t = Ok t' ->
  (0 <= t_declined t' <= t_total t')%Z
  /\ Z.of_nat (length (t_events t')) = t_declined t'.
Proof.
  revert t. induction events as [| event events IH]; intros t Hr Hl H.
  - injection H as <-. split; assumption.
  - cbn [invitation_loop] in H. unfold mbind, result_bind, rbind in H.
    destruct (jget event "attendees" (JArr [])) as [attendees |];
      [| discriminate H].
    destruct (jiter attendees) as [each |]; [| discriminate H].
    destruct (attendee_loop event attendees each t) as [t1 |] eqn:H1;
      [| discriminate H].
    apply attendee_loop_tally in H1; [| assumption | assumption].
    destruct H1 as [Hr1 Hl1]. now apply (IH t1).
Qed.

(** X25.  The declined invitations: the number of declined ones is between
    0 and the number of invitations, the rate lies in 0..100, and at most
    five declined events are listed, never more than were counted. *)
Theorem declined_invitations_counts :
  forall (days_back : Z) (d : Declined),
    get_declined_invitations events_list days_back = Ok d ->
    (0 <= declined_count d <= total_invitations d)%Z
    /\ (0 <= decline_rate d /\ decline_rate d <= 100)
    /\ (forall listed,
          declined_events d = Some listed ->
          (length listed <= 5)%nat
          /\ (Z.of_nat (length listed) <= declined_count d)%Z).
Proof.
  intros days_back d H. unfold get_declined_invitations in H.
  destruct (events_list days_back 0 100 false) as [body | | e].
  - unfold mbind, result_bind, rbind in H.
    destruct (jget body "items" (JArr [])) as [listed |]; [| discriminate H].
    destruct (jiter listed) as [items |]; [| discriminate H].
    destruct (invitation_loop items _) as [t |] eqn:Ht; [| discriminate H].
    apply invitation_loop_tally in Ht; [| cbn; lia | reflexivity].
    destruct Ht as [Hr Hl]. injection H as <-.
    cbn [declined_count total_invitations decline_rate declined_events].
    split; [exact Hr |]. split.
    + destruct (Z.ltb_spec 0 (t_total t)) as [Hpos | _];
        [| split; [discriminate | discriminate]].
      assert (Ht' : 0 < inject_Z (t_total t))
        by (change 0 with (inject_Z 0); now rewrite <- Zlt_Qlt).
      assert (Ha' : 0 <= inject_Z (t_declined t))
        by (change 0 with (inject_Z 0); rewrite <- Zle_Qle; lia).
      assert (Hat' : inject_Z (t_declined t) <= inject_Z (t_total t))
        by (rewrite <- Zle_Qle; lia).
      assert (He0 : 0 <= inject_Z (t_declined t) / inject_Z (t_total t))
        by (apply Qle_shift_div_l; [exact Ht' | lra]).
      assert (He1 : inject_Z (t_declined t) / inject_Z (t_total t) <= 1)
        by (apply Qle_shift_div_r; [exact Ht' | lra]).
      apply round2_range; lra.
    + intros l [= <-]. unfold Builtins.slice_to.
      change (0 <=? 5)%Z with true. cbv iota.
      change (Z.to_nat 5) with 5%nat.
      rewrite List.length_firstn. lia.
  - injection H as <-. cbn. repeat split; try lia; try discriminate.
  - discriminate H.
Qed.

End CalendarTool.

Section Social.

Import Json SocialAnalysis.

Variable connect : string -> result unit.
Variable events_list : string -> Z -> Z -> Z -> bool -> Calendar.api json.



(** X27.  A failure of the calendar API reads as a complete withdrawal:
    with a token, a client that can be built and a positive baseline, an
    [HttpError] of the listing gives a current frequency of 0, a decline of
    100%, the flag of decline and the full contribution of 40 points. *)
Theorem http_error_reads_as_withdrawal :
  forall (user_id token : string) (baseline : Q),
    token <> EmptyString ->
    connect token = Ok tt ->
    events_list token 14%Z 0%Z 100%Z true = Calendar.HttpError ->
    0 < baseline ->
    let a :=
      analyze_social_patterns connect events_list user_id (Some token)
        baseline in
    available a = true
    /\ (exists c, current_frequency a = Some c /\ c == 0)
    /\ (exists d, decline_percentage a = Some d /\ d == 100)
    /\ is_declining a = Some true
    /\ risk_contribution a = 40%Z.
Proof.
  intros user_id token baseline Htok Hconn Hlist Hb a. subst a.
  unfold analyze_social_patterns, Detection.truthy_token.
  destruct (decide (token = "")) as [E | _]; [contradiction |].
  unfold mbind, result_bind, rbind. rewrite Hconn.
  unfold Calendar.detect_social_decline, Calendar.calculate_social_frequency,
    Calendar.get_social_events, mbind, result_bind, rbind.
  rewrite Hlist.
  change (gtb (inject_Z 14 / 7) 0) with true. cbv iota.
  change (inject_Z (Z.of_nat (length (@nil (gmap string json))))
          / (inject_Z 14 / 7)) with (0 / (14 / 7)).
  assert (Eb : gtb baseline 0 = true) by now apply gtb_gt.
  rewrite Eb.
  cbn [available current_frequency decline_percentage is_declining
       risk_contribution Calendar.decline_percentage
       Calendar.current_frequency Calendar.is_declining].
  assert (Hd : (baseline - 0 / (14 / 7)) / baseline * 100 == 100).
  { field. lra. }
  split; [reflexivity |].
  split; [eexists; split; reflexivity |].
  split; [eexists; split; [reflexivity | exact Hd] |].
  split.
  - f_equal. apply gtb_gt. rewrite Hd. reflexivity.
  - assert (Hi : Builtins.int ((baseline - 0 / (14 / 7)) / baseline * 100 * (8 # 10))
                 = 80%Z).
    { unfold Builtins.int.
      assert (Hv : (baseline - 0 / (14 / 7)) / baseline * 100 * (8 # 10) == 80)
        by (rewrite Hd; reflexivity).
      assert (E1 : ltb ((baseline - 0 / (14 / 7)) / baseline * 100 * (8 # 10)) 0
                   = false) by (apply ltb_ge; rewrite Hv; discriminate).
      rewrite E1. rewrite Hv. reflexivity. }
    rewrite Hi. reflexivity.
Qed.

End Social.

Lemma social_events_have_attendees_example :
  Calendar.get_social_events Examples.listed_calendar 30 2
  = Ok Examples.found_events
  /\ Forall
       (fun e =>
          exists n : Z,
            e !! "attendees_count" = Some (Json.JNum (inject_Z n))
            /\ (2 <= n)%Z)
       Examples.found_events.
Proof.
  assert (E : Calendar.get_social_events Examples.listed_calendar 30 2
              = Ok Examples.found_events) by (vm_compute; reflexivity).
  split; [exact E |].
  apply (social_events_have_attendees Examples.listed_calendar 30 2
           Examples.found_events E).
Defined.

Lemma declined_invitations_counts_example :
  exists d,
    Calendar.get_declined_invitations Examples.listed_calendar 30 = Ok d
    /\ (0 <= Calendar.declined_count d <= Calendar.total_invitations d)%Z
    /\ Calendar.declined_count d = 1%Z.
Proof.
  eexists. split; [vm_compute; reflexivity |].
  match goal with
  | |- (0 <= Calendar.declined_count ?d <= _)%Z /\ _ =>
      destruct (declined_invitations_counts Examples.listed_calendar 30 d)
        as [H _]
  end; [vm_compute; reflexivity |].
  split; [exact H | reflexivity].
Defined.


Lemma http_error_reads_as_withdrawal_example :
  SocialAnalysis.risk_contribution
    (SocialAnalysis.analyze_social_patterns Examples.connected
       Examples.failing_calendar "u1" (Some "token") 2) = 40%Z.
Proof.
  apply (http_error_reads_as_withdrawal Examples.connected
           Examples.failing_calendar "u1" "token" 2);
    [discriminate | reflexivity | reflexivity | reflexivity].
Defined.

(** ** When the agent raises *)

Section AgentDomain.

Import Intervention Observe.

Variable str_of : pyval -> string.
Variable recommend_events :
  string -> string -> list string -> Z -> result (list Activity).
Variable generate_content : string -> result string.
Variable DbSession : Type.
Variable store_intervention :
  DbSession -> string -> Z -> string -> option string -> option string ->
  result string.



End AgentDomain.

(** ** The listening tool and the mood analysis *)

Section Listening.

Import Spotify.

Variable get_recent_tracks : Z -> list Track.
Variable hour_of : Track -> result Z.

Lemma late_night_loop_count (tracks : list Track) (c c' : Z) :
  late_night_loop hour_of tracks c = Ok c' ->
  (c <= c' <= c + Z.of_nat (length tracks))%Z.
Proof.
  revert c. induction tracks as [| track rest IH]; intros c H.
  - injection H as <-. cbn. lia.
  - cbn [late_night_loop] in H. unfold mbind, result_bind, rbind in H.
    destruct (hour_of track) as [hour |]; [| discriminate H].
    destruct ((23 <=? hour)%Z || (hour <? 4)%Z); apply IH in H;
      cbn [length]; lia.
Qed.

(** Rounding to hundredths keeps a value above 40 at 40 or more. *)
Lemma round2_above_40 (x : Q) : 40 < x -> 40 <= round2 x.
Proof.
  intros H. unfold round2.
  assert (Ha : (4000 <= round (x * 100))%Z)
    by (apply (round_ge 4000); unfold inject_Z; lra).
  assert (Ha' : inject_Z 4000 <= inject_Z (round (x * 100)))
    by now rewrite <- Zle_Qle.
  change (inject_Z 4000) with 4000 in Ha'.
  apply Qle_shift_div_l; [reflexivity | lra].
Qed.


(** X29.  The late-night report: the count lies between 0 and the number
    of tracks read, the percentage in 0..100, the pattern is concerning
    exactly when more than 40% of the tracks were played from 23h to 4h, and
    a concerning report carries a percentage of 40 or more. *)
Theorem late_night_listening_range :
  forall (days_back : Z) (r : LateNight),
    detect_late_night_listening get_recent_tracks hour_of days_back = Ok r ->
    total_count r = Z.of_nat (length (get_recent_tracks 50))
    /\ (0 <= late_night_count r <= total_count r)%Z
    /\ (0 <= late_night_percentage r /\ late_night_percentage r <= 100)
    /\ (is_concerning r = true
        <-> (40 * total_count r < 100 * late_night_count r)%Z)
    /\ (is_concerning r = true -> 40 <= late_night_percentage r).
Proof.
  intros days_back r.
  unfold detect_late_night_listening. cbv zeta.
  unfold mbind, result_bind, rbind.
  set (tracks := get_recent_tracks 50).
  destruct (late_night_loop hour_of tracks 0) as [c |] eqn:Hc; [| discriminate].
  apply late_night_loop_count in Hc. intros [= <-].
  cbn [total_count late_night_count late_night_percentage is_concerning].
  set (n := Z.of_nat (length tracks)) in *.
  split; [reflexivity |]. split; [lia |].
  destruct (Z.ltb_spec 0 n) as [Hn | Hn].
  - assert (Hn' : 0 < inject_Z n)
      by (change 0 with (inject_Z 0); now rewrite <- Zlt_Qlt).
    assert (Hc0 : 0 <= inject_Z c)
      by (change 0 with (inject_Z 0); rewrite <- Zle_Qle; lia).
    assert (Hcn : inject_Z c <= inject_Z n) by (rewrite <- Zle_Qle; lia).
    assert (He0 : 0 <= inject_Z c / inject_Z n)
      by (apply Qle_shift_div_l; [exact Hn' | lra]).
    assert (He1 : inject_Z c / inject_Z n <= 1)
      by (apply Qle_shift_div_r; [exact Hn' | lra]).
    split; [apply round2_range; lra |].
    assert (Hiff : 40 < inject_Z c / inject_Z n * 100
                   <-> (40 * n < 100 * c)%Z).
    { rewrite Zlt_Qlt, !inject_Z_mult.
      change (inject_Z 40) with 40. change (inject_Z 100) with 100.
      split; intros H.
      - assert (H1 : 40 * inject_Z n < inject_Z c / inject_Z n * 100 * inject_Z n)
          by (apply Qmult_lt_compat_r; assumption).
        assert (H2 : inject_Z c / inject_Z n * 100 * inject_Z n == 100 * inject_Z c)
          by (field; lra).
        lra.
      - assert (H2 : inject_Z c / inject_Z n * 100 == 100 * inject_Z c / inject_Z n)
          by (field; lra).
        rewrite H2. apply Qlt_shift_div_l; [exact Hn' | lra]. }
    split.
    + rewrite <- Hiff. unfold gtb. apply ltb_lt.
    + intros H. apply round2_above_40. now apply gtb_gt.
  - assert (c = 0%Z) by lia. subst c.
    split; [split; discriminate |].
    split; [split; [discriminate | lia] | discriminate].
Qed.

End Listening.

Section Mood.

Import Spotify MoodAnalysis.

Variable connect : string -> result unit.
Variable get_recent_tracks : string -> Z -> list Track.
Variable get_audio_features : string -> list string -> list (gmap string Q).
Variable played_after : Z -> Track -> result bool.
Variable hour_of : Track -> result Z.



End Mood.

Lemma late_night_listening_range_example :
  exists r,
    Spotify.detect_late_night_listening Listened.tracks Listened.hour_of 7
    = Ok r
    /\ Spotify.late_night_count r = 2%Z
    /\ Spotify.is_concerning r = true
    /\ 40 <= Spotify.late_night_percentage r.
Proof.
  eexists. split; [vm_compute; reflexivity |].
  match goal with
  | |- Spotify.late_night_count ?r = _ /\ _ =>
      destruct (late_night_listening_range Listened.tracks Listened.hour_of 7 r)
        as (_ & _ & _ & _ & H)
  end; [vm_compute; reflexivity |].
  split; [reflexivity |]. split; [reflexivity |]. apply H. reflexivity.
Defined.
